(** * Clinical documentation system: extraction engine, timeline store,
      vector index and note generator

    A shallow embedding of [app/backend/main.py]
    ([ClinicalDocumentationSystem]), [app/backend/process.py]
    ([NursingNoteGenerator]) and [app/backend/api_server.py] (the chat
    bridge), with the properties stated about them.

    Conventions of the embedding.
    - A Python [str] is a [string]; each character is a code point in
      U+0000..U+00FF (Latin-1), the range on which [str.lower] is a
      character-wise map.  Glyphs of printed lines that lie outside that
      range (the check mark and the cross) are kept as the bytes of the
      source file.
    - [None] is [None]; a dictionary with a fixed set of keys is a record.
    - The external collaborators (BioClinicalBERT embedding, FLAN-T5
      generation, [datetime] formatting, [str.upper]) are parameters; a
      collaborator that may raise returns an [option].
    - A method that prints and mutates [self] is a function from the state
      to a [Run]: the state afterwards, the lines printed, and whether the
      call returned or raised. *)

From Stdlib Require Import Strings.String Strings.Ascii Lists.List Bool.Bool.
From Stdlib Require Import Arith.PeanoNat NArith.NArith Lia.
From Stdlib Require Import Sorting.Sorted Sorting.Permutation.
From Stdlib Require Import Numbers.DecimalString.
Import ListNotations.

Open Scope list_scope.
Open Scope string_scope.

Set Implicit Arguments.

(* ================================================================== *)
(** * Python strings *)
(* ================================================================== *)

Module PyStr.

(** The line feed, written [\n] in the source. *)
Definition nl : string := String "010"%char "".

(** [str.lower] on one code point below U+0100: [A-Z] and the Latin-1
    capitals U+00C0..U+00DE (except the multiplication sign U+00D7) move up
    by 32; everything else is kept. *)
Definition lower_char (c : ascii) : ascii :=
  let n := N_of_ascii c in
  if ((65 <=? n) && (n <=? 90) || (192 <=? n) && (n <=? 222) && negb (n =? 215))%N
  then ascii_of_N (n + 32)
  else c.

(** [s.lower()] *)
Fixpoint lower (s : string) : string :=
  match s with
  | "" => ""
  | String c s' => String (lower_char c) (lower s')
  end.

(** [pat in s]: [pat] is a prefix of some suffix of [s]. *)
Fixpoint contains (pat s : string) : bool :=
  if prefix pat s then true
  else match s with
       | "" => false
       | String _ s' => contains pat s'
       end.

(** [sep.join(parts)] *)
Definition join (sep : string) (parts : list string) : string :=
  String.concat sep parts.

(** ["=" * n] *)
Fixpoint repeat_char (c : ascii) (n : nat) : string :=
  match n with
  | O => ""
  | S n' => String c (repeat_char c n')
  end.

(** Truth value of an optional string: [None] and [""] are false. *)
Definition truthy (o : option string) : bool :=
  match o with
  | None => false
  | Some "" => false
  | Some _ => true
  end.

(** [str(x)] inside an f-string, for a value that is a string or [None]. *)
Definition fmt (o : option string) : string :=
  match o with
  | None => "None"
  | Some s => s
  end.

(** Declarative reading of [pat in s]. *)
Definition occurs (pat s : string) : Prop :=
  exists pre post, s = pre ++ pat ++ post.

(** [pat] occurs in [s] up to letter case. *)
Definition occurs_ci (pat s : string) : Prop :=
  exists pre w post, s = pre ++ w ++ post /\ lower w = pat.

End PyStr.
Import PyStr.

(* ================================================================== *)
(** * Regular expressions of Python's [re], as the source uses them *)
(* ================================================================== *)

Module Re.

(** The fragment of the pattern language that occurs in [main.py]:
    character classes, concatenation, ordered alternation, and the greedy
    star of a class.  [x?] is [Alt x Eps] (the greedy choice tries [x]
    first), [\d{1,2}] is a digit followed by an optional digit, [\d+] is a
    digit followed by [\d*]. *)
Inductive regex : Type :=
| Eps
| Cls (p : ascii -> bool)
| Cat (r1 r2 : regex)
| Alt (r1 r2 : regex)
| StarCls (p : ascii -> bool).

Definition Opt (r : regex) : regex := Alt r Eps.
Definition PlusCls (p : ascii -> bool) : regex := Cat (Cls p) (StarCls p).
Definition Chr (c : ascii) : regex := Cls (Ascii.eqb c).

(** A literal word. *)
Fixpoint Lit (s : string) : regex :=
  match s with
  | "" => Eps
  | String c s' => Cat (Chr c) (Lit s')
  end.

(** [\d] on code points below U+0100: the decimal digits. *)
Definition is_digit (c : ascii) : bool :=
  let n := N_of_ascii c in ((48 <=? n) && (n <=? 57))%N.

(** [\s] on code points below U+0100: TAB, LF, VT, FF, CR, the separators
    U+001C..U+001F, SPACE, NEL (U+0085) and NBSP (U+00A0). *)
Definition is_space (c : ascii) : bool :=
  let n := N_of_ascii c in
  ((9 <=? n) && (n <=? 13) || (28 <=? n) && (n <=? 32)
   || (n =? 133) || (n =? 160))%N.

(** The backtracking matcher, in continuation-passing style: [bt r s k]
    matches [r] at the front of [s] and hands the rest to [k]; when [k]
    refuses, the next alternative is tried, in the priority order of [re]
    (left branch of an alternation first, longest repetition first).  The
    result is the text left after the whole match. *)
Fixpoint star_cls (p : ascii -> bool) (s : string)
    (k : string -> option string) : option string :=
  match s with
  | "" => k ""
  | String c s' =>
      if p c then
        match star_cls p s' k with
        | Some rest => Some rest
        | None => k s
        end
      else k s
  end.

Fixpoint bt (r : regex) (s : string) (k : string -> option string)
    : option string :=
  match r with
  | Eps => k s
  | Cls p =>
      match s with
      | "" => None
      | String c s' => if p c then k s' else None
      end
  | Cat r1 r2 => bt r1 s (fun s1 => bt r2 s1 k)
  | Alt r1 r2 =>
      match bt r1 s k with
      | Some rest => Some rest
      | None => bt r2 s k
      end
  | StarCls p => star_cls p s k
  end.

(** [re.match]: the text matched at the front of [s], if any. *)
Definition match_at (r : regex) (s : string) : option string :=
  match bt r s Some with
  | Some rest => Some (substring 0 (String.length s - String.length rest) s)
  | None => None
  end.

(** [re.search(r, s).group(0)]: the first start position, from the left,
    where the pattern matches; [None] when there is none. *)
Fixpoint search (r : regex) (s : string) : option string :=
  match match_at r s with
  | Some m => Some m
  | None =>
      match s with
      | "" => None
      | String _ s' => search r s'
      end
  end.

(** The language of a pattern. *)
Inductive Lang : regex -> string -> Prop :=
| L_Eps : Lang Eps ""
| L_Cls p c : p c = true -> Lang (Cls p) (String c "")
| L_Cat r1 r2 w1 w2 : Lang r1 w1 -> Lang r2 w2 -> Lang (Cat r1 r2) (w1 ++ w2)
| L_AltL r1 r2 w : Lang r1 w -> Lang (Alt r1 r2) w
| L_AltR r1 r2 w : Lang r2 w -> Lang (Alt r1 r2) w
| L_StarNil p : Lang (StarCls p) ""
| L_StarCons p c w :
    p c = true -> Lang (StarCls p) w -> Lang (StarCls p) (String c w).

(** [w] is an occurrence of the pattern in [s] that starts after [pre]. *)
Definition match_in (r : regex) (s pre w : string) : Prop :=
  exists post, s = pre ++ w ++ post /\ Lang r w.

(** The pattern matches somewhere in [s]. *)
Definition matches (r : regex) (s : string) : Prop :=
  exists pre w, match_in r s pre w.

End Re.
Import Re.

(* ================================================================== *)
(** * The extractor ([main.py], methods [_extract_*]) *)
(* ================================================================== *)

Module Extractor.

(** [self.symptoms] *)
Definition symptoms : list string :=
  [ "headache"; "chest pain"; "nausea"; "dizziness"; "fatigue";
    "fever"; "breathlessness"; "cough"; "sore throat"; "vomiting";
    "abdominal pain"; "back pain"; "joint pain"; "muscle pain";
    "shortness of breath"; "palpitations"; "sweating"; "chills" ].

(** [self.medications] *)
Definition medications : list string :=
  [ "metformin"; "aspirin"; "paracetamol"; "ibuprofen"; "lisinopril";
    "amlodipine"; "omeprazole"; "levothyroxine"; "atorvastatin";
    "losartan"; "metoprolol"; "albuterol"; "insulin"; "warfarin";
    "clopidogrel"; "prednisone"; "amoxicillin"; "azithromycin" ].

(** [self.time_patterns]; a [dict] is iterated in insertion order. *)
Definition time_patterns : list (string * list string) :=
  [ ("morning", ["morning"; "am"; "breakfast"]);
    ("afternoon", ["afternoon"; "lunch"; "noon"]);
    ("evening", ["evening"; "dinner"]);
    ("night", ["night"; "bedtime"; "pm"]) ].

(** [self.food_patterns] *)
Definition food_patterns : list (string * list string) :=
  [ ("after food", ["after food"; "after eating"; "after meal";
                    "after breakfast"; "after lunch"; "after dinner"]);
    ("before food", ["before food"; "before eating"; "before meal";
                     "before breakfast"; "before lunch"; "before dinner"]);
    ("with food", ["with food"; "with meal"; "with meals"; "during meal"]);
    ("empty stomach", ["empty stomach"; "on empty stomach"; "without food"]) ].

(** [self.frequency_markers] *)
Definition frequency_markers : list string :=
  [ "again"; "twice"; "three times"; "multiple times"; "every day";
    "daily"; "since yesterday" ].

(** [for v in vocab: if v in text_lower: return v] and then [return None] *)
Definition first_in (vocab : list string) (text_lower : string)
    : option string :=
  find (fun v => contains v text_lower) vocab.

(** [for key, patterns in table.items(): for pattern in patterns:
     if pattern in text_lower: return key] and then [return None] *)
Fixpoint first_key (table : list (string * list string))
    (text_lower : string) : option string :=
  match table with
  | [] => None
  | (key, patterns) :: rest =>
      match first_in patterns text_lower with
      | Some _ => Some key
      | None => first_key rest text_lower
      end
  end.

Definition _extract_symptom (text : string) : option string :=
  first_in symptoms (lower text).

Definition _extract_medication (text : string) : option string :=
  first_in medications (lower text).

(** [dose_patterns]:
    [(\d+\.?\d*\s*mg)], [(\d+\s*tablet[s]?)], [(\d+\s*unit[s]?)],
    [(\d+\.?\d*\s*ml)].  Each pattern is one group, so [group(1)] is the
    whole match. *)
Definition dose_patterns : list regex :=
  [ Cat (PlusCls is_digit) (Cat (Opt (Chr ".")) (Cat (StarCls is_digit)
      (Cat (StarCls is_space) (Lit "mg"))));
    Cat (PlusCls is_digit) (Cat (StarCls is_space)
      (Cat (Lit "tablet") (Opt (Chr "s"))));
    Cat (PlusCls is_digit) (Cat (StarCls is_space)
      (Cat (Lit "unit") (Opt (Chr "s"))));
    Cat (PlusCls is_digit) (Cat (Opt (Chr ".")) (Cat (StarCls is_digit)
      (Cat (StarCls is_space) (Lit "ml")))) ].

(** [for pattern in dose_patterns: match = re.search(pattern, text.lower());
     if match: return match.group(1)] and then [return None] *)
Fixpoint first_search (patterns : list regex) (text_lower : string)
    : option string :=
  match patterns with
  | [] => None
  | r :: rest =>
      match search r text_lower with
      | Some m => Some m
      | None => first_search rest text_lower
      end
  end.

Definition _extract_dose (text : string) : option string :=
  first_search dose_patterns (lower text).

(** [(\d{1,2}):?(\d{2})?\s*(am|pm)] *)
Definition clock_pattern : regex :=
  Cat (Cat (Cls is_digit) (Opt (Cls is_digit)))
    (Cat (Opt (Chr ":"))
      (Cat (Opt (Cat (Cls is_digit) (Cls is_digit)))
        (Cat (StarCls is_space)
          (Alt (Lit "am") (Lit "pm"))))).

Definition _extract_time_of_day (text : string) : string :=
  let text_lower := lower text in
  match search clock_pattern text_lower with
  | Some time_match => time_match
  | None =>
      match first_key time_patterns text_lower with
      | Some time_key => time_key
      | None => "unspecified time"
      end
  end.

Definition _extract_food_relation (text : string) : option string :=
  first_key food_patterns (lower text).

Definition _extract_frequency_marker (text : string) : option string :=
  first_in frequency_markers (lower text).

(** ** What the tables and the clock-time pattern mean *)

(** No pattern of the rows [rows] occurs in [t]. *)
Definition silent (rows : list (string * list string)) (t : string) : Prop :=
  forall key patterns p,
    In (key, patterns) rows -> In p patterns -> ~ occurs p t.

(** Every character of [w] is in the class [p]. *)
Fixpoint all_in (p : ascii -> bool) (w : string) : bool :=
  match w with
  | "" => true
  | String c w' => p c && all_in p w'
  end.

(** [w] is made of [n] decimal digits. *)
Definition digits (n : nat) (w : string) : Prop :=
  String.length w = n /\ all_in is_digit w = true.

(** The words [(\d{1,2}):?(\d{2})?\s*(am|pm)] denotes: one or two digits,
    an optional colon, optionally two more digits, any white space, and
    the marker. *)
Definition clock_time (w : string) : Prop :=
  exists hour colon minute gap marker,
    w = hour ++ colon ++ minute ++ gap ++ marker /\
    (digits 1 hour \/ digits 2 hour) /\
    (colon = "" \/ colon = ":") /\
    (minute = "" \/ digits 2 minute) /\
    all_in is_space gap = true /\
    (marker = "am" \/ marker = "pm").

(** The characters a clock time has before its marker: digits, the colon
    and white space. *)
Definition clock_body (c : ascii) : bool :=
  is_digit c || Ascii.eqb c ":" || is_space c.

(** The characters a dose has before its unit: digits, the decimal point
    and white space. *)
Definition dose_body (c : ascii) : bool :=
  is_digit c || Ascii.eqb c "." || is_space c.

End Extractor.
Import Extractor.

(* ================================================================== *)
(** * Event records and the timeline sort *)
(* ================================================================== *)

Module Events.

(** [patient_state["patient_info"]] *)
Record PatientInfo : Type := {
  age : nat;
  gender : string
}.

(** An element of [patient_state["symptom_events"]].  The seeded events
    have no ["raw_text"] key: [sym_raw_text] is [None] for them. *)
Record SymptomEvent : Type := {
  symptom : string;
  sym_time_of_day : string;
  sym_relation_to_food : option string;
  frequency_marker : option string;
  sym_timestamp : string;
  sym_raw_text : option string
}.

(** An element of [patient_state["medication_events"]]. *)
Record MedicationEvent : Type := {
  medication : string;
  dose : option string;
  med_time_of_day : string;
  med_relation_to_food : option string;
  route : string;
  med_timestamp : string;
  note : string;
  med_raw_text : option string
}.

(** An event of either stream, tagged with its kind: the entries
    [{"type": "symptom", "data": event}] and
    [{"type": "medication", "data": event}] of [event_store]. *)
Inductive Event : Type :=
| Symptom (e : SymptomEvent)
| Medication (e : MedicationEvent).

Definition timestamp (e : Event) : string :=
  match e with
  | Symptom s => sym_timestamp s
  | Medication m => med_timestamp m
  end.

(** [list.sort(key=...)] and [sorted(..., key=...)] on string keys, which
    compare by code point.  Python's sort is stable, and a stable sort has
    one possible result ([sort_by_unique] below); it is computed here by
    inserting each element in front of the first element, to its right,
    whose key is not smaller. *)
Section SortByKey.
Variable A : Type.
Variable key : A -> string.

Fixpoint insert_by (x : A) (l : list A) : list A :=
  match l with
  | [] => [x]
  | y :: ys =>
      if String.leb (key x) (key y) then x :: y :: ys
      else y :: insert_by x ys
  end.

Definition sort_by (l : list A) : list A := fold_right insert_by [] l.

(** Non-decreasing keys. *)
Definition ascending (l : list A) : Prop :=
  Sorted (fun a b => String.leb (key a) (key b) = true) l.

(** [l'] keeps, among the elements of [l] that share a key, their order. *)
Definition stable (l l' : list A) : Prop :=
  forall k, filter (fun a => key a =? k) l' = filter (fun a => key a =? k) l.
End SortByKey.

End Events.
Import Events.

(* ================================================================== *)
(** * The note generator ([process.py], class [NursingNoteGenerator]) *)
(* ================================================================== *)

Module Notes.

(** What a call of the generator did: the prompts it sent to the
    generation service, in order, and the text returned ([None] when the
    service raised). *)
Record GenRun : Type := {
  prompts : list string;
  text : option string
}.

Section Generator.
(** [_generate_deterministic]: tokenizer, beam search and decoding of
    FLAN-T5-Small; [None] when it raises. *)
Variable _generate_deterministic : string -> option string.

(** One call of the generation service, wrapped by [wrap]. *)
Definition ask (prompt : string) (wrap : string -> string) : GenRun :=
  {| prompts := [prompt];
     text := option_map wrap (_generate_deterministic prompt) |}.

(** The clause built for one symptom event. *)
Definition symptom_entry (event : SymptomEvent) : string :=
  let food := sym_relation_to_food event in
  let freq := frequency_marker event in
  let entry := symptom event ++ " at " ++ sym_time_of_day event in
  let entry :=
    if truthy food && negb (fmt food =? "no food relation noted")
    then entry ++ " " ++ fmt food else entry in
  if truthy freq then entry ++ " (" ++ fmt freq ++ ")" else entry.

Definition generate_nursing_note (symptom_events : list SymptomEvent)
    : GenRun :=
  match symptom_events with
  | [] =>
      {| prompts := [];
         text := Some "No symptoms documented during this period." |}
  | _ :: _ =>
      let symptom_data := map symptom_entry symptom_events in
      let prompt :=
        "Write a nursing documentation note based on these reported symptoms. "
        ++ "Do not diagnose or interpret. Only document what was reported. "
        ++ "Use professional nursing language. "
        ++ "Symptoms: " ++ join ", " symptom_data ++ ". "
        ++ "Documentation note:" in
      let header := "=== SYMPTOM DOCUMENTATION ===" ++ nl in
      let footer :=
        nl ++ nl ++
        "Note: This is documentation only. No clinical interpretation provided." in
      ask prompt (fun note => header ++ note ++ footer)
  end.

(** The clause built for one medication event. *)
Definition medication_entry (event : MedicationEvent) : string :=
  let food := med_relation_to_food event in
  let entry :=
    medication event ++ " " ++ fmt (dose event) ++ " via " ++ route event
    ++ " at " ++ med_time_of_day event in
  if truthy food then entry ++ " " ++ fmt food else entry.

Definition generate_medication_note
    (medication_events : list MedicationEvent) : GenRun :=
  match medication_events with
  | [] =>
      {| prompts := [];
         text := Some "No medications documented during this period." |}
  | _ :: _ =>
      let med_data := map medication_entry medication_events in
      let prompt :=
        "Write a medication administration record note. "
        ++ "Do not provide dosage advice or recommendations. "
        ++ "Only document what was taken as reported. "
        ++ "Use professional nursing language. "
        ++ "Medications: " ++ join ", " med_data ++ ". "
        ++ "MAR note:" in
      let header := "=== MEDICATION ADMINISTRATION RECORD ===" ++ nl in
      let footer :=
        nl ++ nl ++ "Note: Patient-reported intake. Documentation only." in
      ask prompt (fun note => header ++ note ++ footer)
  end.

(** The clause built for one event of the merged list. *)
Definition summary_entry (event : Event) : string :=
  match event with
  | Symptom s => "Symptom: " ++ symptom s ++ " at " ++ sym_time_of_day s
  | Medication m =>
      "Medication: " ++ medication m ++ " " ++ fmt (dose m)
      ++ " at " ++ med_time_of_day m
  end.

Definition generate_timeline_summary (all_events : list Event) : GenRun :=
  match all_events with
  | [] => {| prompts := []; text := Some "No events documented." |}
  | _ :: _ =>
      let sorted_events := sort_by timestamp all_events in
      let event_descriptions := map summary_entry sorted_events in
      let prompt :=
        "Write a brief chronological nursing summary of these documented events. "
        ++ "Do not interpret or diagnose. Only summarize what was documented. "
        ++ "Events: " ++ join "; " event_descriptions ++ ". "
        ++ "Summary:" in
      ask prompt (fun summary =>
                    "=== CHRONOLOGICAL SUMMARY ===" ++ nl ++ summary)
  end.
End Generator.

End Notes.

(* ================================================================== *)
(** * The documentation session ([main.py]) *)
(* ================================================================== *)

Module Session.

(** A row of the merged timeline: the dictionary built by [show_timeline]
    for one event. *)
Record TimelineEntry : Type := {
  entry_type : string;
  entry_timestamp : string;
  description : string;
  details : Event
}.

(** How a call ended. *)
Inductive status : Type := Returned | Raised.

(** Lines printed by a block of statements and how the block ended; a
    block that raised is not continued. *)
Definition Block : Type := (list string * status)%type.

Definition say (line : string) : Block := ([line], Returned).
Definition skip : Block := ([], Returned).
Definition raise : Block := ([], Raised).

Definition then_ (b1 b2 : Block) : Block :=
  match b1 with
  | (l1, Returned) => ((l1 ++ fst b2)%list, snd b2)
  | (l1, Raised) => (l1, Raised)
  end.

Notation "b1 ;; b2" := (then_ b1 b2) (at level 61, right associativity).

(** [for x in xs: body(x)] *)
Definition for_each (A : Type) (body : A -> Block) (xs : list A) : Block :=
  fold_right (fun x rest => body x ;; rest) skip xs.

(** [enumerate(xs, 1)] *)
Definition enumerate1 (A : Type) (xs : list A) : list (nat * A) :=
  combine (seq 1 (List.length xs)) xs.

(** [str(n)] for a natural number. *)
Definition decimal (n : nat) : string :=
  NilEmpty.string_of_uint (Nat.to_uint n).

(** ["=" * 60] *)
Definition rule : string := repeat_char "=" 60.

(** [if value: print(f"{label}{value}")] *)
Definition say_if (label : string) (value : option string) : Block :=
  if truthy value then say (label ++ fmt value) else skip.

Section System.
(** The vectors of the index. *)
Variable Vec : Type.
(** [_get_embedding]: tokenizer and BioClinicalBERT forward pass; [None]
    when it raises. *)
Variable _get_embedding : string -> option Vec.
(** [datetime.fromisoformat(ts).strftime("%Y-%m-%d %H:%M:%S")]; [None]
    when [ts] is not in ISO format. *)
Variable strftime : string -> option string.
(** [str.upper] *)
Variable upper : string -> string.
(** [NursingNoteGenerator._generate_deterministic] *)
Variable _generate_deterministic : string -> option string.

(** The fields of [self] that the methods read or write: the three keys
    of [patient_state], the flat L2 index (its vectors, in the order they
    were added) and the parallel [event_store]. *)
Record System : Type := {
  patient_info : PatientInfo;
  symptom_events : list SymptomEvent;
  medication_events : list MedicationEvent;
  faiss_index : list Vec;
  event_store : list Event
}.

(** The outcome of a method call. *)
Record Run : Type := {
  after : System;
  printed : list string;
  outcome : status
}.

Definition finish (st : System) (b : Block) : Run :=
  {| after := st; printed := fst b; outcome := snd b |}.

(** [__init__], once both models are loaded. *)
Definition init : System :=
  {| patient_info := {| age := 62; gender := "male" |};
     symptom_events :=
       [ {| symptom := "headache";
            sym_time_of_day := "morning";
            sym_relation_to_food := Some "after food";
            frequency_marker := Some "again";
            sym_timestamp := "2026-01-08T09:30";
            sym_raw_text := None |};
         {| symptom := "chest pain";
            sym_time_of_day := "night";
            sym_relation_to_food := Some "after food";
            frequency_marker := None;
            sym_timestamp := "2026-01-07T21:15";
            sym_raw_text := None |} ];
     medication_events :=
       [ {| medication := "metformin";
            dose := Some "1000 mg";
            med_time_of_day := "morning";
            med_relation_to_food := Some "after food";
            route := "oral";
            med_timestamp := "2026-01-08T08:00";
            note := "patient reported intake";
            med_raw_text := None |};
         {| medication := "lisinopril";
            dose := None;
            med_time_of_day := "night";
            med_relation_to_food := Some "before food";
            route := "oral";
            med_timestamp := "2026-01-07T19:30";
            note := "patient reported intake";
            med_raw_text := None |} ];
     faiss_index := [];
     event_store := [] |}.

(** Number of events in the timeline store, both streams together. *)
Definition timeline_size (st : System) : nat :=
  (List.length (symptom_events st) + List.length (medication_events st))%nat.

(** [patient_state["symptom_events"].append(event)] *)
Definition append_symptom (event : SymptomEvent) (st : System) : System :=
  {| patient_info := patient_info st;
     symptom_events := (symptom_events st ++ [event])%list;
     medication_events := medication_events st;
     faiss_index := faiss_index st;
     event_store := event_store st |}.

(** [patient_state["medication_events"].append(event)] *)
Definition append_medication (event : MedicationEvent) (st : System)
    : System :=
  {| patient_info := patient_info st;
     symptom_events := symptom_events st;
     medication_events := (medication_events st ++ [event])%list;
     faiss_index := faiss_index st;
     event_store := event_store st |}.

(** [faiss_index.add(np.array([embedding]))] followed by
    [event_store.append(entry)].  The index takes every vector the
    embedding model returns (both have dimension 768), and appending to a
    list does not fail, so the two additions happen together. *)
Definition index_add (embedding : Vec) (entry : Event) (st : System)
    : System :=
  {| patient_info := patient_info st;
     symptom_events := symptom_events st;
     medication_events := medication_events st;
     faiss_index := (faiss_index st ++ [embedding])%list;
     event_store := (event_store st ++ [entry])%list |}.

(** [st'] is [st] with the events [sy] and [me] appended to the two
    streams and nothing else changed: no vector, no reference. *)
Definition events_only (st st' : System)
    (sy : list SymptomEvent) (me : list MedicationEvent) : Prop :=
  patient_info st' = patient_info st /\
  symptom_events st' = (symptom_events st ++ sy)%list /\
  medication_events st' = (medication_events st ++ me)%list /\
  faiss_index st' = faiss_index st /\
  event_store st' = event_store st.

(** [st'] is [st] with the events [sy] and [me] appended to the two
    streams, the vector [v] added to the index and the reference [entry]
    added to the reference store. *)
Definition events_and_vector (st st' : System)
    (sy : list SymptomEvent) (me : list MedicationEvent)
    (v : Vec) (entry : Event) : Prop :=
  patient_info st' = patient_info st /\
  symptom_events st' = (symptom_events st ++ sy)%list /\
  medication_events st' = (medication_events st ++ me)%list /\
  faiss_index st' = (faiss_index st ++ [v])%list /\
  event_store st' = (event_store st ++ [entry])%list.

(** The dictionary [record_symptom] builds for [text] once it has found
    [symptom]; [now] is the reading of [datetime.now().isoformat()]. *)
Definition symptom_event (now text symptom : string) : SymptomEvent :=
  {| Events.symptom := symptom;
     sym_time_of_day := _extract_time_of_day text;
     sym_relation_to_food := _extract_food_relation text;
     Events.frequency_marker := _extract_frequency_marker text;
     sym_timestamp := now;
     sym_raw_text := Some text |}.

(** [record_symptom(text)] *)
Definition record_symptom (now text : string) (st : System) : Run :=
  let symptom := _extract_symptom text in
  if negb (truthy symptom) then
    finish st
      (say "✗ No recognized symptom found in text." ;;
       say ("  Recognized symptoms: " ++ join ", " (firstn 10 symptoms)
            ++ "..."))
  else
    let symptom := fmt symptom in
    let time_of_day := _extract_time_of_day text in
    let relation_to_food := _extract_food_relation text in
    let frequency_marker := _extract_frequency_marker text in
    let event := symptom_event now text symptom in
    let st1 := append_symptom event st in
    match _get_embedding ("symptom " ++ symptom ++ " " ++ time_of_day) with
    | None => finish st1 raise
    | Some embedding =>
        finish (index_add embedding (Symptom event) st1)
          (say ("✓ Symptom documented: " ++ symptom) ;;
           say ("  Time: " ++ time_of_day) ;;
           say_if "  Food relation: " relation_to_food ;;
           say_if "  Frequency: " frequency_marker)
    end.

(** The dictionary [record_medication] builds for [text] once it has
    found [medication]. *)
Definition medication_event (now text medication : string)
    : MedicationEvent :=
  let dose := _extract_dose text in
  {| Events.medication := medication;
     Events.dose := if truthy dose then dose else Some "dose not specified";
     med_time_of_day := _extract_time_of_day text;
     med_relation_to_food := _extract_food_relation text;
     route := "oral";
     med_timestamp := now;
     note := "patient reported intake";
     med_raw_text := Some text |}.

(** [record_medication(text)] *)
Definition record_medication (now text : string) (st : System) : Run :=
  let medication := _extract_medication text in
  if negb (truthy medication) then
    finish st
      (say "✗ No recognized medication found in text." ;;
       say ("  Recognized medications: "
            ++ join ", " (firstn 10 medications) ++ "..."))
  else
    let medication := fmt medication in
    let dose := _extract_dose text in
    let time_of_day := _extract_time_of_day text in
    let relation_to_food := _extract_food_relation text in
    let event := medication_event now text medication in
    let st1 := append_medication event st in
    match _get_embedding ("medication " ++ medication ++ " " ++ fmt dose) with
    | None => finish st1 raise
    | Some embedding =>
        finish (index_add embedding (Medication event) st1)
          (say ("✓ Medication documented: " ++ medication) ;;
           say ("  Dose: " ++ (if truthy dose then fmt dose
                               else "not specified")) ;;
           say ("  Time: " ++ time_of_day) ;;
           say_if "  Food relation: " relation_to_food)
    end.

(** The text [record_symptom] embeds. *)
Definition symptom_sentence (text : string) : string :=
  "symptom " ++ fmt (_extract_symptom text) ++ " "
  ++ _extract_time_of_day text.

(** The text [record_medication] embeds. *)
Definition medication_sentence (text : string) : string :=
  "medication " ++ fmt (_extract_medication text) ++ " "
  ++ fmt (_extract_dose text).

(** The two lines printed when no symptom is found. *)
Definition no_symptom_lines : list string :=
  [ "✗ No recognized symptom found in text.";
    "  Recognized symptoms: headache, chest pain, nausea, dizziness, fatigue, fever, breathlessness, cough, sore throat, vomiting..." ].

(** The two lines printed when no medication is found. *)
Definition no_medication_lines : list string :=
  [ "✗ No recognized medication found in text.";
    "  Recognized medications: metformin, aspirin, paracetamol, ibuprofen, lisinopril, amlodipine, omeprazole, levothyroxine, atorvastatin, losartan..." ].

(** The row [show_timeline] builds for a symptom event. *)
Definition symptom_row (event : SymptomEvent) : TimelineEntry :=
  {| entry_type := "SYMPTOM";
     entry_timestamp := sym_timestamp event;
     description := symptom event ++ " at " ++ sym_time_of_day event;
     details := Symptom event |}.

(** The row [show_timeline] builds for a medication event. *)
Definition medication_row (event : MedicationEvent) : TimelineEntry :=
  {| entry_type := "MEDICATION";
     entry_timestamp := med_timestamp event;
     description :=
       medication event ++ " " ++ fmt (dose event) ++ " at "
       ++ med_time_of_day event;
     details := Medication event |}.

(** [all_events] before the sort: the symptom stream, then the medication
    stream. *)
Definition merged_events (st : System) : list TimelineEntry :=
  (map symptom_row (symptom_events st)
   ++ map medication_row (medication_events st))%list.

(** [all_events] after [all_events.sort(key=lambda x: x["timestamp"])] *)
Definition global_timeline (st : System) : list TimelineEntry :=
  sort_by entry_timestamp (merged_events st).

(** The body of the printing loop of [show_timeline]. *)
Definition print_entry (event : TimelineEntry) : Block :=
  match strftime (entry_timestamp event) with
  | None => raise
  | Some timestamp =>
      say (nl ++ "[" ++ timestamp ++ "] " ++ entry_type event) ;;
      say ("  " ++ description event) ;;
      match details event with
      | Symptom d =>
          say_if "  Food relation: " (sym_relation_to_food d) ;;
          say_if "  Frequency: " (frequency_marker d)
      | Medication d =>
          say_if "  Food relation: " (med_relation_to_food d) ;;
          say ("  Route: " ++ route d)
      end
  end.

(** [show_timeline()] *)
Definition show_timeline (st : System) : Run :=
  let all_events := global_timeline st in
  match all_events with
  | [] => finish st (say (nl ++ "No events documented yet."))
  | _ :: _ =>
      finish st
        (say (nl ++ rule) ;;
         say "PATIENT TIMELINE" ;;
         say rule ;;
         for_each print_entry all_events ;;
         say (nl ++ rule))
  end.

(** [matching_events] of [symptom_frequency] *)
Definition matching_symptoms (symptom : string) (st : System)
    : list SymptomEvent :=
  let symptom_lower := lower symptom in
  filter (fun event => lower (Events.symptom event) =? symptom_lower)
    (symptom_events st).

(** [symptom_frequency(symptom)] *)
Definition symptom_frequency (symptom : string) (st : System) : Run :=
  let matching_events := matching_symptoms symptom st in
  match matching_events with
  | [] =>
      finish st
        (say (nl ++ "✗ No documented instances of '" ++ symptom ++ "'"))
  | _ :: _ =>
      finish st
        (say (nl ++ rule) ;;
         say ("FREQUENCY REPORT: " ++ upper symptom) ;;
         say rule ;;
         say ("Total occurrences: "
              ++ decimal (List.length matching_events)) ;;
         say (nl ++ "Detailed records:") ;;
         for_each
           (fun ie : nat * SymptomEvent =>
              let (i, event) := ie in
              match strftime (sym_timestamp event) with
              | None => raise
              | Some timestamp =>
                  say (nl ++ "  " ++ decimal i ++ ". [" ++ timestamp ++ "]") ;;
                  say ("     Time of day: " ++ sym_time_of_day event) ;;
                  say_if "     Food relation: " (sym_relation_to_food event) ;;
                  say_if "     Frequency marker: " (frequency_marker event)
              end)
           (enumerate1 matching_events) ;;
         say (nl ++ rule))
  end.

(** [matching_events] of [medication_frequency] *)
Definition matching_medications (medication : string) (st : System)
    : list MedicationEvent :=
  let med_lower := lower medication in
  filter (fun event => lower (Events.medication event) =? med_lower)
    (medication_events st).

(** [medication_frequency(medication)] *)
Definition medication_frequency (medication : string) (st : System) : Run :=
  let matching_events := matching_medications medication st in
  match matching_events with
  | [] =>
      finish st
        (say (nl ++ "✗ No documented instances of '" ++ medication ++ "'"))
  | _ :: _ =>
      finish st
        (say (nl ++ rule) ;;
         say ("MEDICATION FREQUENCY REPORT: " ++ upper medication) ;;
         say rule ;;
         say ("Total administrations: "
              ++ decimal (List.length matching_events)) ;;
         say (nl ++ "Detailed records:") ;;
         for_each
           (fun ie : nat * MedicationEvent =>
              let (i, event) := ie in
              match strftime (med_timestamp event) with
              | None => raise
              | Some timestamp =>
                  say (nl ++ "  " ++ decimal i ++ ". [" ++ timestamp ++ "]") ;;
                  say ("     Dose: " ++ fmt (dose event)) ;;
                  say ("     Time of day: " ++ med_time_of_day event) ;;
                  say_if "     Food relation: " (med_relation_to_food event) ;;
                  say ("     Route: " ++ route event)
              end)
           (enumerate1 matching_events) ;;
         say (nl ++ rule))
  end.

(** [print(note)] for the text a generator call returned; a call that
    raised prints nothing. *)
Definition say_note (g : Notes.GenRun) : Block :=
  match Notes.text g with
  | None => raise
  | Some note => say note
  end.

(** [generate_nursing_note()] of the session *)
Definition generate_nursing_note (st : System) : Run :=
  match symptom_events st with
  | [] => finish st (say (nl ++ "No symptoms documented. Cannot generate note."))
  | _ :: _ =>
      finish st
        (say (nl ++ "Generating nursing note..." ++ nl) ;;
         say_note (Notes.generate_nursing_note _generate_deterministic
                     (symptom_events st)))
  end.

(** [generate_medication_note()] of the session *)
Definition generate_medication_note (st : System) : Run :=
  match medication_events st with
  | [] =>
      finish st (say (nl ++ "No medications documented. Cannot generate note."))
  | _ :: _ =>
      finish st
        (say (nl ++ "Generating medication note..." ++ nl) ;;
         say_note (Notes.generate_medication_note _generate_deterministic
                     (medication_events st)))
  end.

(** The commands of [run], once parsed; [note] and [med] carry the
    reading of the clock taken while they run. *)
Inductive Command : Type :=
| CmdNote (now text : string)
| CmdMed (now text : string)
| CmdTimeline
| CmdFrequency (symptom : string)
| CmdMedFrequency (medication : string)
| CmdNurseNote
| CmdMedNote.

(** One iteration of the loop of [run].  An exception is caught by the
    loop, which goes on with the state as the call left it. *)
Definition step (c : Command) (st : System) : Run :=
  match c with
  | CmdNote now text => record_symptom now text st
  | CmdMed now text => record_medication now text st
  | CmdTimeline => show_timeline st
  | CmdFrequency symptom => symptom_frequency symptom st
  | CmdMedFrequency medication => medication_frequency medication st
  | CmdNurseNote => generate_nursing_note st
  | CmdMedNote => generate_medication_note st
  end.

(** The state after a sequence of commands. *)
Definition exec (cmds : list Command) (st : System) : System :=
  fold_left (fun s c => after (step c s)) cmds st.

(** The states a session can be in. *)
Inductive reachable : System -> Prop :=
| reach_init : reachable init
| reach_step c st : reachable st -> reachable (after (step c st)).

(** The command records an event: its text names a vocabulary entry. *)
Definition appends (c : Command) : bool :=
  match c with
  | CmdNote _ text => truthy (_extract_symptom text)
  | CmdMed _ text => truthy (_extract_medication text)
  | _ => false
  end.

(** The command records an event and the embedding call returns. *)
Definition embeds (c : Command) : bool :=
  match c with
  | CmdNote _ text =>
      appends c
      && match _get_embedding
                 ("symptom " ++ fmt (_extract_symptom text) ++ " "
                  ++ _extract_time_of_day text)
         with Some _ => true | None => false end
  | CmdMed _ text =>
      appends c
      && match _get_embedding
                 ("medication " ++ fmt (_extract_medication text) ++ " "
                  ++ fmt (_extract_dose text))
         with Some _ => true | None => false end
  | _ => false
  end.

End System.

(** Number of commands of [cmds] that satisfy [f]. *)
Definition count (f : Command -> bool) (cmds : list Command) : nat :=
  List.length (filter f cmds).

(** [r] is [l] restricted to its elements that satisfy [P], in the order
    of [l]. *)
Inductive selects {A : Type} (P : A -> Prop) : list A -> list A -> Prop :=
| sel_nil : selects P [] []
| sel_keep x l r : P x -> selects P l r -> selects P (x :: l) (x :: r)
| sel_drop x l r : ~ P x -> selects P l r -> selects P (x :: l) r.

End Session.

(* ================================================================== *)
(** * Collaborators and states for concrete runs *)
(* ================================================================== *)

Module Stubs.
Import Session.

(** An embedding service that returns: the vector stands for the sentence
    it was computed from. *)
Definition embedding_up (sentence : string) : option string := Some sentence.

(** An embedding service that raises on every call. *)
Definition embedding_down (_ : string) : option string := None.

(** The other collaborators, for runs that do not depend on them. *)
Definition strftime_as_is (ts : string) : option string := Some ts.
Definition upper_as_is (s : string) : string := s.
Definition generation_echo (prompt : string) : option string := Some prompt.

(** A session without the seeded events. *)
Definition empty_session : System string :=
  {| patient_info := {| age := 62; gender := "male" |};
     symptom_events := [];
     medication_events := [];
     faiss_index := [];
     event_store := [] |}.

End Stubs.

(* ================================================================== *)
(** * What a recorded event looks like *)
(* ================================================================== *)

Module Wellformed.
Import Session.

(** The values [_extract_time_of_day] can return: a key of
    [time_patterns], the sentinel, or a clock time. *)
Definition time_ok (t : string) : Prop :=
  In t (map fst time_patterns) \/ t = "unspecified time" \/ clock_time t.

(** [None] or a key of [food_patterns]. *)
Definition food_ok (o : option string) : Prop :=
  o = None \/ exists k, o = Some k /\ In k (map fst food_patterns).

(** [None] or an entry of [frequency_markers]. *)
Definition marker_ok (o : option string) : Prop :=
  o = None \/ exists m, o = Some m /\ In m frequency_markers.

(** A word of one of the four dose patterns. *)
Definition dose_word (d : string) : Prop :=
  exists r, In r dose_patterns /\ Lang r d.

(** [None] (one seeded event), the sentinel, or a dose word. *)
Definition dose_ok (o : option string) : Prop :=
  o = None \/ o = Some "dose not specified" \/
  exists d, o = Some d /\ dose_word d.

Definition symptom_ok (e : SymptomEvent) : Prop :=
  In (symptom e) symptoms /\
  time_ok (sym_time_of_day e) /\
  food_ok (sym_relation_to_food e) /\
  marker_ok (frequency_marker e).

Definition medication_ok (e : MedicationEvent) : Prop :=
  In (medication e) medications /\
  dose_ok (dose e) /\
  time_ok (med_time_of_day e) /\
  food_ok (med_relation_to_food e) /\
  route e = "oral" /\
  note e = "patient reported intake".

Definition event_ok (e : Event) : Prop :=
  match e with
  | Symptom s => symptom_ok s
  | Medication m => medication_ok m
  end.

(** The sentence whose embedding is stored for an event, read back from
    the event: [f"symptom {symptom} {time_of_day}"] and
    [f"medication {medication} {dose}"], where the dose is the one
    extracted, [None] when the event carries the sentinel. *)
Definition canonical_sentence (e : Event) : string :=
  match e with
  | Symptom s => "symptom " ++ symptom s ++ " " ++ sym_time_of_day s
  | Medication m =>
      "medication " ++ medication m ++ " "
      ++ (if fmt (dose m) =? "dose not specified" then "None"
          else fmt (dose m))
  end.

(** The event an entry of [event_store] refers to is in its stream. *)
Definition in_timeline (Vec : Type) (st : System Vec) (e : Event) : Prop :=
  match e with
  | Symptom s => In s (symptom_events st)
  | Medication m => In m (medication_events st)
  end.

(** [st'] is [st] with entries added at the end of its four lists. *)
Definition extends (Vec : Type) (st st' : System Vec) : Prop :=
  patient_info st' = patient_info st /\
  (exists sy, symptom_events st' = (symptom_events st ++ sy)%list) /\
  (exists me, medication_events st' = (medication_events st ++ me)%list) /\
  (exists vs, faiss_index st' = (faiss_index st ++ vs)%list) /\
  (exists es, event_store st' = (event_store st ++ es)%list).

(** What one call of a method can do to the state: nothing, append an
    event, or append an event and add its vector and reference. *)
Section Growth.
Variable Vec : Type.
Variable _get_embedding : string -> option Vec.

Inductive grows (st : System Vec) : System Vec -> Prop :=
| grows_not : grows st st
| grows_symptom now text symptom :
    _extract_symptom text = Some symptom ->
    grows st (append_symptom (symptom_event now text symptom) st)
| grows_symptom_indexed now text symptom v :
    _extract_symptom text = Some symptom ->
    _get_embedding
      ("symptom " ++ symptom ++ " " ++ _extract_time_of_day text) = Some v ->
    grows st
      (index_add v (Symptom (symptom_event now text symptom))
         (append_symptom (symptom_event now text symptom) st))
| grows_medication now text medication :
    _extract_medication text = Some medication ->
    grows st (append_medication (medication_event now text medication) st)
| grows_medication_indexed now text medication v :
    _extract_medication text = Some medication ->
    _get_embedding
      ("medication " ++ medication ++ " " ++ fmt (_extract_dose text))
      = Some v ->
    grows st
      (index_add v (Medication (medication_event now text medication))
         (append_medication (medication_event now text medication) st)).

(** The vector [v] is the embedding of the sentence of the event [e]. *)
Definition indexed_as (v : Vec) (e : Event) : Prop :=
  _get_embedding (canonical_sentence e) = Some v.
End Growth.

End Wellformed.

(* ================================================================== *)
(** * The command loop ([main.py], method [run]) *)
(* ================================================================== *)

Module Cli.
Import Session.

(** [s.lstrip()]: leading white space removed.  [str.isspace] and [\s]
    hold of the same code points below U+0100. *)
Fixpoint lstrip (s : string) : string :=
  match s with
  | "" => ""
  | String c s' => if is_space c then lstrip s' else s
  end.

(** [s.rstrip()]: trailing white space removed. *)
Fixpoint rstrip (s : string) : string :=
  match s with
  | "" => ""
  | String c s' =>
      match rstrip s' with
      | "" => if is_space c then "" else String c ""
      | String d r => String c (String d r)
      end
  end.

(** [s.strip()] *)
Definition strip (s : string) : string := rstrip (lstrip s).

(** [s[n:]] *)
Fixpoint drop (n : nat) (s : string) : string :=
  match n, s with
  | O, _ => s
  | S _, "" => ""
  | S n', String _ s' => drop n' s'
  end.

(** What one line of input makes the loop do. *)
Inductive Action : Type :=
| Blank
| Exit
| Help
| Call (c : Command)
| Unknown.

(** The chain of tests on [user_input]; [raw] is what [input] returned and
    [now] the reading of the clock, should the line record an event. *)
Definition dispatch (now raw : string) : Action :=
  let user_input := strip raw in
  let low := lower user_input in
  if user_input =? "" then Blank
  else if low =? "exit" then Exit
  else if low =? "help" then Help
  else if prefix "note " low then
    Call (CmdNote now (strip (drop 5 user_input)))
  else if prefix "med " low then
    Call (CmdMed now (strip (drop 4 user_input)))
  else if low =? "timeline" then Call CmdTimeline
  else if prefix "frequency " low then
    Call (CmdFrequency (strip (drop 10 user_input)))
  else if prefix "med_frequency " low then
    Call (CmdMedFrequency (strip (drop 14 user_input)))
  else if low =? "nurse_note" then Call CmdNurseNote
  else if low =? "med_note" then Call CmdMedNote
  else Unknown.

(** What [input] gives the loop: a line, or Ctrl-C. *)
Inductive Input : Type :=
| Line (now raw : string)
| Interrupt.

(** The lines printed before the loop starts. *)
Definition banner : list string :=
  [ nl ++ rule;
    "CLINICAL DOCUMENTATION SYSTEM";
    "Offline Nurse Documentation Interface";
    rule;
    nl ++ "Commands:";
    "  note <text>          - Record symptom";
    "  med <text>           - Record medication";
    "  timeline             - View all events";
    "  frequency <symptom>  - View symptom frequency";
    "  med_frequency <med>  - View medication frequency";
    "  nurse_note           - Generate nursing note";
    "  med_note             - Generate medication note";
    "  help                 - Show commands";
    "  exit                 - Exit system";
    rule ].

(** The lines printed by [help]. *)
Definition help_lines : list string :=
  [ nl ++ "Commands:";
    "  note <text>          - Record symptom";
    "  med <text>           - Record medication";
    "  timeline             - View all events";
    "  frequency <symptom>  - View symptom frequency";
    "  med_frequency <med>  - View medication frequency";
    "  nurse_note           - Generate nursing note";
    "  med_note             - Generate medication note" ].

(** The commands the loop calls on [inputs]: those of the lines read
    before the first [exit] or Ctrl-C. *)
Fixpoint commands_of (inputs : list Input) : list Command :=
  match inputs with
  | [] => []
  | Interrupt :: _ => []
  | Line now raw :: rest =>
      match dispatch now raw with
      | Exit => []
      | Call c => c :: commands_of rest
      | Blank | Help | Unknown => commands_of rest
      end
  end.

Section Loop.
Variable Vec : Type.
Variable _get_embedding : string -> option Vec.
Variable strftime : string -> option string.
Variable upper : string -> string.
Variable _generate_deterministic : string -> option string.
(** [str(e)] for the exception a command raises in a state. *)
Variable error_text : Command -> System Vec -> string.

(** The lines a called command leaves on the screen: what it printed and,
    when it raised, the line of [except Exception as e]. *)
Definition call_lines (c : Command) (st : System Vec) : list string :=
  let r := step _get_embedding strftime upper _generate_deterministic c st in
  match outcome r with
  | Returned => printed r
  | Raised => (printed r ++ [("✗ Error: " ++ error_text c st)%string])%list
  end.

(** The [while True] loop on the inputs read so far: the state it has
    reached and the lines it has printed (the prompts left out). *)
Fixpoint loop (inputs : list Input) (st : System Vec)
    : System Vec * list string :=
  match inputs with
  | [] => (st, [])
  | Interrupt :: _ => (st, [nl ++ nl ++ "Exiting documentation system."])
  | Line now raw :: rest =>
      match dispatch now raw with
      | Blank => loop rest st
      | Exit => (st, [nl ++ "Exiting documentation system."])
      | Help =>
          (fst (loop rest st), (help_lines ++ snd (loop rest st))%list)
      | Call c =>
          let st' :=
            after (step _get_embedding strftime upper
                     _generate_deterministic c st) in
          (fst (loop rest st'), (call_lines c st ++ snd (loop rest st'))%list)
      | Unknown =>
          (fst (loop rest st),
           "✗ Unknown command. Type 'help' for available commands."
           :: snd (loop rest st))
      end
  end.

(** [run()] *)
Definition run (inputs : list Input) : System Vec * list string :=
  (fst (loop inputs (init Vec)), (banner ++ snd (loop inputs (init Vec)))%list).
End Loop.

End Cli.

(* ================================================================== *)
(** * Events as dictionaries ([process.py] read key by key) *)
(* ================================================================== *)

Module Dicts.

(** A dictionary whose values are strings or [None]; the first binding of
    a key is the one that counts. *)
Definition dict : Type := list (string * option string).

(** The binding of [key], if any. *)
Fixpoint lookup (key : string) (d : dict) : option (option string) :=
  match d with
  | [] => None
  | (k, v) :: d' => if k =? key then Some v else lookup key d'
  end.

(** [d.get(key, default)] *)
Definition get (d : dict) (key : string) (default : option string)
    : option string :=
  match lookup key d with
  | Some v => v
  | None => default
  end.

(** [key in d] *)
Definition has (d : dict) (key : string) : bool :=
  match lookup key d with
  | Some _ => true
  | None => false
  end.

(** [sorted(xs, key=...)] when the keys are strings or [None]: comparing
    [None] with anything raises [TypeError], and a sort of two elements or
    more compares every element. *)
Definition py_sorted (A : Type) (key : A -> option string) (xs : list A)
    : option (list A) :=
  if (2 <=? List.length xs)%nat
     && existsb (fun x => match key x with None => true | Some _ => false end) xs
  then None
  else Some (sort_by (fun x => fmt (key x)) xs).

(** The dictionary [main.py] builds for a symptom event; the seeded ones
    have no ["raw_text"]. *)
Definition symptom_dict (e : SymptomEvent) : dict :=
  ([ ("symptom", Some (symptom e));
     ("time_of_day", Some (sym_time_of_day e));
     ("relation_to_food", sym_relation_to_food e);
     ("frequency_marker", frequency_marker e);
     ("timestamp", Some (sym_timestamp e)) ]
   ++ match sym_raw_text e with
      | Some t => [("raw_text", Some t)]
      | None => []
      end)%list.

(** The dictionary [main.py] builds for a medication event. *)
Definition medication_dict (e : MedicationEvent) : dict :=
  ([ ("medication", Some (medication e));
     ("dose", dose e);
     ("time_of_day", Some (med_time_of_day e));
     ("relation_to_food", med_relation_to_food e);
     ("route", Some (route e));
     ("timestamp", Some (med_timestamp e));
     ("note", Some (note e)) ]
   ++ match med_raw_text e with
      | Some t => [("raw_text", Some t)]
      | None => []
      end)%list.

Definition event_dict (e : Event) : dict :=
  match e with
  | Symptom s => symptom_dict s
  | Medication m => medication_dict m
  end.

Section Generator.
Variable _generate_deterministic : string -> option string.

(** The clause of [generate_nursing_note] for one event. *)
Definition symptom_entry (event : dict) : string :=
  let symptom := get event "symptom" (Some "unknown") in
  let time := get event "time_of_day" (Some "unspecified time") in
  let food := get event "relation_to_food" (Some "no food relation noted") in
  let freq := get event "frequency_marker" (Some "") in
  let entry := fmt symptom ++ " at " ++ fmt time in
  let entry :=
    if truthy food && negb (fmt food =? "no food relation noted")
    then entry ++ " " ++ fmt food else entry in
  if truthy freq then entry ++ " (" ++ fmt freq ++ ")" else entry.

Definition generate_nursing_note (symptom_events : list dict)
    : Notes.GenRun :=
  match symptom_events with
  | [] =>
      {| Notes.prompts := [];
         Notes.text := Some "No symptoms documented during this period." |}
  | _ :: _ =>
      let symptom_data := map symptom_entry symptom_events in
      let prompt :=
        "Write a nursing documentation note based on these reported symptoms. "
        ++ "Do not diagnose or interpret. Only document what was reported. "
        ++ "Use professional nursing language. "
        ++ "Symptoms: " ++ join ", " symptom_data ++ ". "
        ++ "Documentation note:" in
      let header := "=== SYMPTOM DOCUMENTATION ===" ++ nl in
      let footer :=
        nl ++ nl ++
        "Note: This is documentation only. No clinical interpretation provided." in
      Notes.ask _generate_deterministic prompt
        (fun note => header ++ note ++ footer)
  end.

(** The clause of [generate_medication_note] for one event. *)
Definition medication_entry (event : dict) : string :=
  let med := get event "medication" (Some "unknown medication") in
  let dose := get event "dose" (Some "dose not specified") in
  let time := get event "time_of_day" (Some "unspecified time") in
  let food := get event "relation_to_food" (Some "") in
  let route := get event "route" (Some "oral") in
  let entry :=
    fmt med ++ " " ++ fmt dose ++ " via " ++ fmt route ++ " at " ++ fmt time in
  if truthy food then entry ++ " " ++ fmt food else entry.

Definition generate_medication_note (medication_events : list dict)
    : Notes.GenRun :=
  match medication_events with
  | [] =>
      {| Notes.prompts := [];
         Notes.text := Some "No medications documented during this period." |}
  | _ :: _ =>
      let med_data := map medication_entry medication_events in
      let prompt :=
        "Write a medication administration record note. "
        ++ "Do not provide dosage advice or recommendations. "
        ++ "Only document what was taken as reported. "
        ++ "Use professional nursing language. "
        ++ "Medications: " ++ join ", " med_data ++ ". "
        ++ "MAR note:" in
      let header := "=== MEDICATION ADMINISTRATION RECORD ===" ++ nl in
      let footer :=
        nl ++ nl ++ "Note: Patient-reported intake. Documentation only." in
      Notes.ask _generate_deterministic prompt
        (fun note => header ++ note ++ footer)
  end.

(** The body of the loop of [generate_timeline_summary]: the clause of an
    event, or [None] where the loop goes on to the next event. *)
Definition summary_entry (event : dict) : option string :=
  let time := fmt (get event "time_of_day" (Some "unspecified time")) in
  if has event "symptom" then
    Some ("Symptom: " ++ fmt (get event "symptom" None) ++ " at " ++ time)
  else if has event "medication" then
    Some ("Medication: " ++ fmt (get event "medication" None) ++ " "
          ++ fmt (get event "dose" (Some "")) ++ " at " ++ time)
  else None.

(** An event the summary can describe: it has a ["symptom"] or a
    ["medication"] key. *)
Definition described (e : dict) : bool :=
  has e "symptom" || has e "medication".

(** [[c for e in events for c in clause(e)]] *)
Definition clauses (events : list dict) : list string :=
  flat_map (fun e => match summary_entry e with
                     | Some c => [c]
                     | None => []
                     end) events.

(** A [TypeError] of the sort ends the call before any prompt is sent:
    no prompt, no text. *)
Definition generate_timeline_summary (all_events : list dict)
    : Notes.GenRun :=
  match all_events with
  | [] =>
      {| Notes.prompts := []; Notes.text := Some "No events documented." |}
  | _ :: _ =>
      match py_sorted (fun x => get x "timestamp" (Some "")) all_events with
      | None => {| Notes.prompts := []; Notes.text := None |}
      | Some sorted_events =>
          let event_descriptions := clauses sorted_events in
          let prompt :=
            "Write a brief chronological nursing summary of these documented events. "
            ++ "Do not interpret or diagnose. Only summarize what was documented. "
            ++ "Events: " ++ join "; " event_descriptions ++ ". "
            ++ "Summary:" in
          Notes.ask _generate_deterministic prompt
            (fun summary =>
               "=== CHRONOLOGICAL SUMMARY ===" ++ nl ++ summary)
      end
  end.
End Generator.

End Dicts.

(* ================================================================== *)
(** * The chat bridge ([api_server.py]) *)
(* ================================================================== *)

Module Api.
Import Dicts.

(** [FallbackSystem]: the extractor installed when the documentation
    system cannot be constructed. *)
Module FallbackSystem.

(** [self.symptoms] *)
Definition symptoms : list string :=
  [ "headache"; "chest pain"; "nausea"; "dizziness"; "fatigue";
    "fever"; "breathlessness"; "cough"; "sore throat"; "vomiting";
    "abdominal pain"; "back pain"; "joint pain"; "muscle pain" ].

(** [self.medications] *)
Definition medications : list string :=
  [ "metformin"; "aspirin"; "paracetamol"; "ibuprofen"; "lisinopril";
    "amlodipine"; "omeprazole"; "levothyroxine"; "atorvastatin" ].

Definition _extract_symptom (text : string) : option string :=
  first_in symptoms (lower text).

Definition _extract_medication (text : string) : option string :=
  first_in medications (lower text).

(** The word lists of the four tests of [_extract_time], in order, each
    with the value returned when one of its words occurs. *)
Definition time_words : list (string * list string) :=
  [ ("morning", ["morning"; "am"; "breakfast"]);
    ("afternoon", ["afternoon"; "lunch"; "noon"]);
    ("evening", ["evening"; "dinner"]);
    ("night", ["night"; "bedtime"; "pm"]) ].

Definition _extract_time (text : string) : string :=
  match first_key time_words (lower text) with
  | Some time => time
  | None => "unspecified"
  end.

End FallbackSystem.

(** Which class [clinical_system] is an instance of. *)
Inductive Mode : Type := Full | Fallback.

(** [clinical_system] once [startup_event] has run: its class and its
    [patient_state].  The chat bridge reads and writes nothing else. *)
Record Server : Type := {
  mode : Mode;
  patient_info : PatientInfo;
  symptom_events : list dict;
  medication_events : list dict
}.

(** [startup_event]: the documentation system with its seeded events, or
    the fallback when its construction raises. *)
Definition startup_event (constructed : bool) : Server :=
  if constructed then
    {| mode := Full;
       patient_info := Session.patient_info (Session.init unit);
       symptom_events :=
         map symptom_dict (Session.symptom_events (Session.init unit));
       medication_events :=
         map medication_dict (Session.medication_events (Session.init unit)) |}
  else
    {| mode := Fallback;
       patient_info := {| age := 62; gender := "male" |};
       symptom_events := [];
       medication_events := [] |}.

(** [clinical_system._extract_symptom(text)] *)
Definition _extract_symptom (srv : Server) (text : string) : option string :=
  match mode srv with
  | Full => Extractor._extract_symptom text
  | Fallback => FallbackSystem._extract_symptom text
  end.

(** [clinical_system._extract_medication(text)] *)
Definition _extract_medication (srv : Server) (text : string)
    : option string :=
  match mode srv with
  | Full => Extractor._extract_medication text
  | Fallback => FallbackSystem._extract_medication text
  end.

(** The two readings of the clock taken while an event is documented:
    [datetime.now().isoformat()] and
    [datetime.now().strftime('%H:%M:%S')]. *)
Record Clock : Type := {
  isoformat : string;
  hms : string
}.

(** [time_of_day] as [process_symptom] and [process_medication] compute
    it: only the fallback has an [_extract_time] attribute. *)
Definition time_of_day (srv : Server) (text : string) : string :=
  match mode srv with
  | Full => "unspecified"
  | Fallback => FallbackSystem._extract_time text
  end.

Definition process_symptom (now : Clock) (text symptom : string)
    (srv : Server) : Server * string :=
  let time_of_day := time_of_day srv text in
  let event :=
    [ ("symptom", Some symptom);
      ("time_of_day", Some time_of_day);
      ("timestamp", Some (isoformat now));
      ("raw_text", Some text) ] in
  ({| mode := mode srv;
      patient_info := patient_info srv;
      symptom_events := (symptom_events srv ++ [event])%list;
      medication_events := medication_events srv |},
   "✅ Symptom documented: " ++ symptom ++ nl
   ++ "   Time: " ++ time_of_day ++ nl
   ++ "   Timestamp: " ++ hms now).

Definition process_medication (now : Clock) (text medication : string)
    (srv : Server) : Server * string :=
  let time_of_day := time_of_day srv text in
  let event :=
    [ ("medication", Some medication);
      ("time_of_day", Some time_of_day);
      ("timestamp", Some (isoformat now));
      ("raw_text", Some text) ] in
  ({| mode := mode srv;
      patient_info := patient_info srv;
      symptom_events := symptom_events srv;
      medication_events := (medication_events srv ++ [event])%list |},
   "✅ Medication documented: " ++ medication ++ nl
   ++ "   Time: " ++ time_of_day ++ nl
   ++ "   Timestamp: " ++ hms now).

(** An exception raised inside [get_timeline]. *)
Inductive Failure : Type :=
| KeyError (key : string)
| TypeError
| ValueError (timestamp : string).

(** A row of [all_events] in [get_timeline]. *)
Record Row : Type := {
  type : string;
  timestamp : option string;
  description : string
}.

(** The dictionary built for one event; [event["timestamp"]] is read
    before [event[key]]. *)
Definition row (kind key : string) (event : dict) : Failure + Row :=
  match lookup "timestamp" event with
  | None => inl (KeyError "timestamp")
  | Some ts =>
      match lookup key event with
      | None => inl (KeyError key)
      | Some v =>
          inr {| type := kind;
                 timestamp := ts;
                 description :=
                   fmt v ++ " at "
                   ++ fmt (get event "time_of_day" (Some "unknown time")) |}
      end
  end.

(** A loop that builds one row per event and stops at the first
    exception. *)
Fixpoint rows (kind key : string) (events : list dict)
    : Failure + list Row :=
  match events with
  | [] => inr []
  | e :: rest =>
      match row kind key e with
      | inl f => inl f
      | inr r =>
          match rows kind key rest with
          | inl f => inl f
          | inr rs => inr (r :: rs)
          end
      end
  end.

(** [all_events] after the two loops and the sort. *)
Definition all_events (srv : Server) : Failure + list Row :=
  match rows "SYMPTOM" "symptom" (symptom_events srv) with
  | inl f => inl f
  | inr ss =>
      match rows "MEDICATION" "medication" (medication_events srv) with
      | inl f => inl f
      | inr ms =>
          match py_sorted timestamp (ss ++ ms)%list with
          | None => inl TypeError
          | Some sorted => inr sorted
          end
      end
  end.

Section Timeline.
(** [datetime.fromisoformat(ts).strftime("%Y-%m-%d %H:%M")]; [None] when
    [ts] is not an ISO timestamp. *)
Variable strftime : string -> option string.
(** [str(e)] for an exception [e]. *)
Variable str : Failure -> string.

(** The two lines added to [response] for one row. *)
Definition block (r : Row) : Failure + string :=
  match timestamp r with
  | None => inl TypeError
  | Some t =>
      match strftime t with
      | None => inl (ValueError t)
      | Some ts =>
          inr ("[" ++ ts ++ "] " ++ type r ++ nl
               ++ "  " ++ description r ++ nl ++ nl)
      end
  end.

(** [response] after the loop over the rows [rs], begun at [response]. *)
Fixpoint blocks (rs : list Row) (response : string) : Failure + string :=
  match rs with
  | [] => inr response
  | r :: rest =>
      match block r with
      | inl f => inl f
      | inr b => blocks rest (response ++ b)
      end
  end.

Definition get_timeline (srv : Server) : string :=
  match all_events srv with
  | inl f => "Error getting timeline: " ++ str f
  | inr [] =>
      "📋 No events documented yet." ++ nl ++ nl
      ++ "Try: 'Patient has headache after breakfast'"
  | inr (r :: rs) =>
      match blocks (r :: rs)
              ("📋 PATIENT TIMELINE" ++ nl ++ repeat_char "=" 40 ++ nl ++ nl)
      with
      | inl f => "Error getting timeline: " ++ str f
      | inr response => response
      end
  end.

(** The double quote. *)
Definition dq : string := String (ascii_of_nat 34) "".

Definition get_help_message : string :=
  "🏥 Clinical Documentation Assistant" ++ nl ++ nl
  ++ "I can help you document:" ++ nl ++ nl
  ++ "📝 Symptoms:" ++ nl
  ++ "   " ++ dq ++ "Patient has headache after breakfast" ++ dq ++ nl
  ++ "   " ++ dq ++ "Chest pain in the evening" ++ dq ++ nl ++ nl
  ++ "💊 Medications:" ++ nl
  ++ "   " ++ dq ++ "Gave metformin 1000mg in morning" ++ dq ++ nl
  ++ "   " ++ dq ++ "Lisinopril after dinner" ++ dq ++ nl ++ nl
  ++ "📊 View data:" ++ nl
  ++ "   " ++ dq ++ "Show timeline" ++ dq ++ nl ++ nl
  ++ "Try describing a symptom or medication!".

Definition process_chat_input (now : Clock) (text : string) (srv : Server)
    : Server * string :=
  let text_lower := Cli.strip (lower text) in
  let symptom := _extract_symptom srv text in
  let medication := _extract_medication srv text in
  if truthy symptom then process_symptom now text (fmt symptom) srv
  else if truthy medication then
    process_medication now text (fmt medication) srv
  else if contains "timeline" text_lower then (srv, get_timeline srv)
  else if contains "help" text_lower then (srv, get_help_message)
  else (srv, get_help_message).

(** The body of a [POST /api/chat]. *)
Record ChatRequest : Type := {
  text : option string;
  message : option string
}.

(** How the route answers: a JSON body, or an HTTP error. *)
Inductive ChatResponse : Type :=
| Body (reply : string) (success : bool)
| HTTPException (status_code : nat) (detail : string).

(** [a or b] *)
Definition or_else (a b : option string) : option string :=
  if truthy a then a else b.

(** [chat(request)], with [clinical_system] set by [startup_event]. *)
Definition chat (now : Clock) (request : ChatRequest) (srv : Server)
    : Server * ChatResponse :=
  let user_text := or_else (text request) (message request) in
  if negb (truthy user_text) then
    (srv, HTTPException 400 "No text provided")
  else
    let (srv', response) := process_chat_input now (fmt user_text) srv in
    (srv', Body response true).

(** The states the server goes through: the one left by [startup_event],
    and those left by the chat requests answered since. *)
Inductive serving : Server -> Prop :=
| serving_startup (constructed : bool) : serving (startup_event constructed)
| serving_chat (now : Clock) (request : ChatRequest) (srv : Server) :
    serving srv -> serving (fst (chat now request srv)).
End Timeline.

(** An event [get_timeline] can list under [key]: it has that key, a time
    of day and a timestamp, all three strings. *)
Definition listed (key : string) (e : dict) : Prop :=
  exists v t ts,
    lookup key e = Some (Some v) /\
    lookup "time_of_day" e = Some (Some t) /\
    lookup "timestamp" e = Some (Some ts).

(** The words of the full vocabularies the fallback does not know. *)
Definition full_only_symptoms : list string :=
  skipn (List.length FallbackSystem.symptoms) Extractor.symptoms.

Definition full_only_medications : list string :=
  skipn (List.length FallbackSystem.medications) Extractor.medications.

(** The body of a [GET /api/patient-info]. *)
Record PatientInfoResponse : Type := {
  success : bool;
  info : PatientInfo;
  symptom_count : nat;
  medication_count : nat;
  system_mode : string
}.

Definition get_patient_info (srv : Server) : PatientInfoResponse :=
  {| success := true;
     info := patient_info srv;
     symptom_count := List.length (symptom_events srv);
     medication_count := List.length (medication_events srv);
     system_mode := match mode srv with
                    | Fallback => "fallback"
                    | Full => "full"
                    end |}.

End Api.

(* ================================================================== *)
(** * Facts about strings *)
(* ================================================================== *)

Module PyStrFacts.

Lemma app_assoc (a b c : string) : (a ++ b) ++ c = a ++ b ++ c.
Proof. induction a as [|x a IH]; simpl; [reflexivity | now rewrite IH]. Qed.

Lemma app_nil_r (a : string) : a ++ "" = a.
Proof. induction a as [|x a IH]; simpl; [reflexivity | now rewrite IH]. Qed.

Lemma length_app (a b : string) :
  String.length (a ++ b) = (String.length a + String.length b)%nat.
Proof. induction a as [|x a IH]; simpl; [reflexivity | now rewrite IH]. Qed.

Lemma lower_app (a b : string) : lower (a ++ b) = lower a ++ lower b.
Proof. induction a as [|x a IH]; simpl; [reflexivity | now rewrite IH]. Qed.

Lemma lower_length (a : string) : String.length (lower a) = String.length a.
Proof. induction a as [|x a IH]; simpl; [reflexivity | now rewrite IH]. Qed.

(** A split of the lowered text comes from a split of the text. *)
Lemma lower_app_inv (s a b : string) :
  lower s = a ++ b ->
  exists s1 s2, s = s1 ++ s2 /\ lower s1 = a /\ lower s2 = b.
Proof.
  revert s; induction a as [|x a IH]; intros s H.
  - exists "", s. auto.
  - destruct s as [|c s]; simpl in H; [discriminate|].
    injection H as Hc Hs.
    destruct (IH _ Hs) as (s1 & s2 & -> & H1 & H2).
    exists (String c s1), s2. simpl. now rewrite Hc, H1.
Qed.

Lemma lower_char_idem (c : ascii) : lower_char (lower_char c) = lower_char c.
Proof.
  destruct c as [[] [] [] [] [] [] [] []]; reflexivity.
Qed.

Lemma lower_idem (s : string) : lower (lower s) = lower s.
Proof.
  induction s as [|c s IH]; simpl; [reflexivity|].
  now rewrite lower_char_idem, IH.
Qed.

Lemma prefix_iff (p s : string) :
  prefix p s = true <-> exists post, s = p ++ post.
Proof.
  revert s; induction p as [|x p IH]; intros s.
  - destruct s; simpl; split; eauto.
  - destruct s as [|c s]; simpl.
    + split; [discriminate | intros [post H]; discriminate].
    + destruct (ascii_dec x c) as [->|Hne].
      * rewrite IH. split; intros [post H]; exists post.
        -- now rewrite H.
        -- now injection H.
      * split; [discriminate | intros [post H]].
        injection H as H1 _. congruence.
Qed.

Lemma contains_unfold (p s : string) :
  contains p s =
  if prefix p s then true
  else match s with "" => false | String _ s' => contains p s' end.
Proof. destruct s; reflexivity. Qed.

Lemma contains_iff (p s : string) : contains p s = true <-> occurs p s.
Proof.
  split.
  - induction s as [|c s IH]; rewrite contains_unfold;
      destruct (prefix p _) eqn:E; try discriminate.
    + apply prefix_iff in E as [post E]. intros _. now exists "", post.
    + apply prefix_iff in E as [post E]. intros _. now exists "", post.
    + intros H. destruct (IH H) as (pre & post & ->).
      now exists (String c pre), post.
  - intros (pre & post & ->).
    induction pre as [|c pre IH]; rewrite contains_unfold.
    + assert (E : prefix p (p ++ post) = true) by (apply prefix_iff; eauto).
      simpl "++". now rewrite E.
    + simpl "++". now destruct (prefix p _).
Qed.

(** The substring test on the lowered text is the occurrence of the word
    up to letter case. *)
Lemma contains_lower_iff (p text : string) :
  contains p (lower text) = true <-> occurs_ci p text.
Proof.
  rewrite contains_iff. split.
  - intros (pre & post & H).
    apply lower_app_inv in H as (t1 & t23 & -> & H1 & H23).
    apply lower_app_inv in H23 as (t2 & t3 & -> & H2 & H3).
    now exists t1, t2, t3.
  - intros (pre & w & post & -> & <-).
    exists (lower pre), (lower post). now rewrite !lower_app.
Qed.

Lemma substring_front (w rest : string) :
  substring 0 (String.length w) (w ++ rest) = w.
Proof.
  induction w as [|c w IH]; simpl.
  - now destruct rest.
  - now rewrite IH.
Qed.

End PyStrFacts.
Import PyStrFacts.

(* ================================================================== *)
(** * The matcher finds exactly the words of the pattern's language *)
(* ================================================================== *)

Module ReFacts.

Lemma star_cls_zero p s k x :
  k s = Some x -> exists y, star_cls p s k = Some y.
Proof.
  intros H. destruct s as [|c s]; simpl; [eauto|].
  destruct (p c); [|eauto].
  destruct (star_cls p s k); eauto.
Qed.

Lemma star_cls_sound p s k x :
  star_cls p s k = Some x ->
  exists w s', s = w ++ s' /\ Lang (StarCls p) w /\ k s' = Some x.
Proof.
  revert x; induction s as [|c s IH]; intros x; simpl.
  - intros H. exists "", "". repeat split; [constructor | assumption].
  - destruct (p c) eqn:Hc.
    + destruct (star_cls p s k) as [r|] eqn:E.
      * intros [= ->]. destruct (IH _ eq_refl) as (w & s' & -> & Hw & Hk).
        exists (String c w), s'. repeat split; [now constructor | assumption].
      * intros H. exists "", (String c s).
        repeat split; [constructor | assumption].
    + intros H. exists "", (String c s).
      repeat split; [constructor | assumption].
Qed.

(** Whatever the matcher returns comes from a word of the language at the
    front of the text, accepted by the continuation. *)
Lemma bt_sound r : forall s k x,
  bt r s k = Some x ->
  exists w s', s = w ++ s' /\ Lang r w /\ k s' = Some x.
Proof.
  induction r as [|p|r1 IH1 r2 IH2|r1 IH1 r2 IH2|p]; intros s k x; simpl.
  - intros H. exists "", s. repeat split; [constructor | assumption].
  - destruct s as [|c s]; [discriminate|].
    destruct (p c) eqn:Hc; [|discriminate].
    intros H. exists (String c ""), s.
    repeat split; [now constructor | assumption].
  - intros H.
    apply IH1 in H as (w1 & s1 & -> & Hw1 & H).
    apply IH2 in H as (w2 & s2 & -> & Hw2 & H).
    exists (w1 ++ w2), s2. rewrite app_assoc.
    repeat split; [now constructor | assumption].
  - destruct (bt r1 s k) as [y|] eqn:E.
    + intros [= ->]. apply IH1 in E as (w & s' & -> & Hw & H).
      exists w, s'. repeat split; [now apply L_AltL | assumption].
    + intros H. apply IH2 in H as (w & s' & -> & Hw & H).
      exists w, s'. repeat split; [now apply L_AltR | assumption].
  - apply star_cls_sound.
Qed.

(** Backtracking is exhaustive: when a word of the language stands at the
    front of the text and the continuation accepts what follows it, the
    matcher returns. *)
Lemma bt_complete r w :
  Lang r w ->
  forall s' k, (exists x, k s' = Some x) ->
  exists y, bt r (w ++ s') k = Some y.
Proof.
  induction 1 as [|p c Hc|r1 r2 w1 w2 _ IH1 _ IH2|r1 r2 w _ IH|r1 r2 w _ IH
                 |p|p c w Hc _ IH]; intros s' k Hk; simpl.
  - assumption.
  - now rewrite Hc.
  - rewrite app_assoc. apply IH1. now apply IH2.
  - destruct (IH _ _ Hk) as [y ->]. eauto.
  - destruct (bt r1 (w ++ s') k); [eauto | now apply IH].
  - destruct Hk as [x Hk]. now apply star_cls_zero with x.
  - rewrite Hc. destruct (IH _ _ Hk) as [y Hy]. simpl in Hy.
    rewrite Hy. eauto.
Qed.

Lemma match_at_some r s m :
  match_at r s = Some m -> exists post, s = m ++ post /\ Lang r m.
Proof.
  unfold match_at. destruct (bt r s Some) as [rest|] eqn:E; [|discriminate].
  intros [= <-].
  apply bt_sound in E as (w & s' & -> & Hw & [= ->]).
  exists rest. rewrite length_app, Nat.add_sub, substring_front. auto.
Qed.

Lemma match_at_none r s :
  match_at r s = None -> forall w post, s = w ++ post -> ~ Lang r w.
Proof.
  unfold match_at. intros H w post -> Hw.
  destruct (bt_complete Hw post Some) as [y Hy]; [eauto|].
  now rewrite Hy in H.
Qed.

(** [search] returns the occurrence of the pattern that starts first. *)
Lemma search_some r s m :
  search r s = Some m ->
  exists pre, match_in r s pre m /\
    forall pre' w', match_in r s pre' w' ->
                    String.length pre <= String.length pre'.
Proof.
  induction s as [|c s IH]; simpl.
  - destruct (match_at r "") as [m'|] eqn:E; [|discriminate].
    intros [= ->]. apply match_at_some in E as (post & E & Hm).
    exists "". split; [now exists post | simpl; lia].
  - destruct (match_at r (String c s)) as [m'|] eqn:E.
    + intros [= ->]. apply match_at_some in E as (post & E & Hm).
      exists "". split; [now exists post | simpl; lia].
    + intros H. destruct (IH H) as (pre & (post & Hs & Hm) & Hleft).
      exists (String c pre). split.
      * exists post. split; [simpl; now rewrite Hs | assumption].
      * intros pre' w' (post' & Hs' & Hw').
        destruct pre' as [|c' pre'].
        -- exfalso. simpl in Hs'. eapply match_at_none; [exact E | exact Hs' | exact Hw'].
        -- simpl in Hs'. injection Hs' as _ Hs'. simpl.
           apply le_n_S, (Hleft pre' w'). now exists post'.
Qed.

Lemma search_none r s : search r s = None <-> ~ matches r s.
Proof.
  split.
  - induction s as [|c s IH]; simpl.
    + destruct (match_at r "") eqn:E; [discriminate|].
      intros _ (pre & w & post & Hs & Hw).
      destruct pre; [|discriminate].
      simpl in Hs. eapply match_at_none; [exact E | exact Hs | exact Hw].
    + destruct (match_at r (String c s)) eqn:E; [discriminate|].
      intros H (pre & w & post & Hs & Hw).
      destruct pre as [|c' pre].
      * simpl in Hs. eapply match_at_none; [exact E | exact Hs | exact Hw].
      * simpl in Hs. injection Hs as _ Hs.
        apply (IH H). now exists pre, w, post.
  - intros Hno. destruct (search r s) as [m|] eqn:E; [|reflexivity].
    exfalso. apply Hno.
    apply search_some in E as (pre & Hm & _). now exists pre, m.
Qed.

Lemma search_matches r s : matches r s -> exists m, search r s = Some m.
Proof.
  intros H. destruct (search r s) as [m|] eqn:E; [eauto|].
  now apply search_none in E.
Qed.

End ReFacts.
Import ReFacts.

(* ================================================================== *)
(** * The extractor: first match in list order *)
(* ================================================================== *)

Module ExtractorFacts.

(** The loop over a vocabulary returns the first entry, in list order,
    that passes the substring test. *)
Lemma first_in_some vocab t v :
  first_in vocab t = Some v <->
  exists before after,
    vocab = (before ++ v :: after)%list /\ contains v t = true /\
    forall u, In u before -> contains u t = false.
Proof.
  unfold first_in. induction vocab as [|x vocab IH]; simpl.
  - split; [discriminate | intros (b & a & H & _)].
    now destruct b.
  - destruct (contains x t) eqn:E.
    + split.
      * intros [= ->]. exists [], vocab. repeat split; [assumption|].
        intros u [].
      * intros ([|y b] & a & H & Hv & Hb).
        -- now injection H as ->.
        -- injection H as <- _. rewrite (Hb x) in E; [discriminate|now left].
    + rewrite IH. split.
      * intros (b & a & -> & Hv & Hb). exists (x :: b), a.
        repeat split; [assumption|]. intros u [<-|Hu]; auto.
      * intros ([|y b] & a & H & Hv & Hb).
        -- injection H as -> _. congruence.
        -- injection H as <- ->. exists b, a.
           repeat split; [assumption|]. intros u Hu. apply Hb. now right.
Qed.

Lemma first_in_none vocab t :
  first_in vocab t = None <-> forall v, In v vocab -> contains v t = false.
Proof.
  unfold first_in. split.
  - intros H v Hv. now apply (find_none _ _ H).
  - intros H. destruct (find _ vocab) as [v|] eqn:E; [|reflexivity].
    apply find_some in E as [Hv E]. rewrite (H v Hv) in E. discriminate.
Qed.

Lemma first_in_hit vocab t v :
  In v vocab -> contains v t = true -> exists u, first_in vocab t = Some u.
Proof.
  intros Hv Hc. destruct (first_in vocab t) as [u|] eqn:E; [eauto|].
  rewrite first_in_none in E. rewrite (E v Hv) in Hc. discriminate.
Qed.

(** The loop over a table of keyword sets returns the key of the first
    row, in table order, one of whose keywords occurs. *)
Lemma first_key_row before key patterns after t p :
  silent before t -> In p patterns -> occurs p t ->
  first_key (before ++ (key, patterns) :: after) t = Some key.
Proof.
  intros Hb Hp Hocc. induction before as [|[k ps] before IH]; simpl.
  - apply contains_iff in Hocc.
    destruct (first_in_hit patterns t p Hp Hocc) as [u ->]. reflexivity.
  - destruct (first_in ps t) as [u|] eqn:E.
    + exfalso. unfold first_in in E. apply find_some in E as [Hu E].
      apply contains_iff in E. apply (Hb k ps u); simpl; auto.
    + apply IH. intros k' ps' p' Hin. apply (Hb k' ps' p'). now right.
Qed.

Lemma first_key_silent rows t : silent rows t -> first_key rows t = None.
Proof.
  intros H. induction rows as [|[k ps] rows IH]; simpl; [reflexivity|].
  destruct (first_in ps t) as [u|] eqn:E.
  - exfalso. unfold first_in in E. apply find_some in E as [Hu E].
    apply contains_iff in E. apply (H k ps u); simpl; auto.
  - apply IH. intros k' ps' p' Hin. apply (H k' ps' p'). now right.
Qed.

(** ** The words of the clock-time pattern *)

Lemma Lang_Eps w : Lang Eps w <-> w = "".
Proof. split; [now inversion 1 | intros ->; constructor]. Qed.

Lemma Lang_Cls p w : Lang (Cls p) w <-> exists c, w = String c "" /\ p c = true.
Proof.
  split; [inversion 1; eauto | intros (c & -> & H); now constructor].
Qed.

Lemma Lang_Cat r1 r2 w :
  Lang (Cat r1 r2) w <->
  exists w1 w2, w = w1 ++ w2 /\ Lang r1 w1 /\ Lang r2 w2.
Proof.
  split; [inversion 1; eauto | intros (w1 & w2 & -> & H1 & H2)].
  now constructor.
Qed.

Lemma Lang_Alt r1 r2 w : Lang (Alt r1 r2) w <-> Lang r1 w \/ Lang r2 w.
Proof.
  split; [inversion 1; auto | intros [H|H]]; [now apply L_AltL | now apply L_AltR].
Qed.

Lemma Lang_Opt r w : Lang (Opt r) w <-> Lang r w \/ w = "".
Proof. unfold Opt. now rewrite Lang_Alt, Lang_Eps. Qed.

Lemma Lang_Star p w : Lang (StarCls p) w <-> all_in p w = true.
Proof.
  split.
  - intros H. remember (StarCls p) as r eqn:E.
    induction H; try discriminate; injection E as ->; simpl; [reflexivity|].
    now rewrite H, IHLang.
  - induction w as [|c w IH]; simpl; [constructor|].
    intros H. apply andb_true_iff in H as [Hc Hw]. constructor; auto.
Qed.

Lemma Lang_Chr c w : Lang (Chr c) w <-> w = String c "".
Proof.
  unfold Chr. rewrite Lang_Cls. split.
  - intros (c' & -> & H). apply Ascii.eqb_eq in H. now subst.
  - intros ->. exists c. split; [reflexivity | apply Ascii.eqb_refl].
Qed.

Lemma Lang_Lit s w : Lang (Lit s) w <-> w = s.
Proof.
  revert w; induction s as [|c s IH]; intros w; simpl.
  - apply Lang_Eps.
  - rewrite Lang_Cat. split.
    + intros (w1 & w2 & -> & H1 & H2).
      apply Lang_Chr in H1 as ->. apply IH in H2 as ->. reflexivity.
    + intros ->. exists (String c ""), s.
      repeat split; [now apply Lang_Chr | now apply IH].
Qed.

Lemma Lang_digit w : Lang (Cls is_digit) w <-> digits 1 w.
Proof.
  rewrite Lang_Cls. unfold digits. split.
  - intros (c & -> & H). simpl. now rewrite H.
  - intros [Hlen H]. destruct w as [|c [|]]; try discriminate.
    exists c. simpl in H. rewrite andb_true_r in H. auto.
Qed.

Lemma digits_add n m a b : digits n a -> digits m b -> digits (n + m) (a ++ b).
Proof.
  unfold digits. intros [<- Ha] [<- Hb]. split; [apply length_app|].
  induction a as [|c a IH]; simpl in *; [assumption|].
  apply andb_true_iff in Ha as [-> Ha]. now apply IH.
Qed.

Lemma digits_two w :
  digits 2 w <-> exists a b, w = a ++ b /\ digits 1 a /\ digits 1 b.
Proof.
  split.
  - intros [Hlen H]. destruct w as [|c [|d [|]]]; try discriminate.
    simpl in H. apply andb_true_iff in H as [Hc H].
    exists (String c ""), (String d ""). unfold digits; simpl.
    rewrite Hc, H. auto.
  - intros (a & b & -> & Ha & Hb). apply (digits_add Ha Hb).
Qed.

(** The language of [clock_pattern], word by word. *)
Lemma clock_pattern_words w : Lang clock_pattern w <-> clock_time w.
Proof.
  unfold clock_pattern, clock_time. split.
  - intros H.
    apply Lang_Cat in H as (hour & w1 & -> & Hh & H).
    apply Lang_Cat in H as (colon & w2 & -> & Hc & H).
    apply Lang_Cat in H as (minute & w3 & -> & Hm & H).
    apply Lang_Cat in H as (gap & marker & -> & Hg & Hk).
    exists hour, colon, minute, gap, marker. split; [reflexivity|].
    repeat split.
    + apply Lang_Cat in Hh as (a & b & -> & Ha & Hb).
      apply Lang_digit in Ha. apply Lang_Opt in Hb as [Hb| ->].
      * right. apply Lang_digit in Hb. apply (digits_add Ha Hb).
      * left. now rewrite app_nil_r.
    + apply Lang_Opt in Hc as [Hc|Hc]; [right; now apply Lang_Chr | now left].
    + apply Lang_Opt in Hm as [Hm|Hm]; [right | now left].
      apply Lang_Cat in Hm as (a & b & -> & Ha & Hb).
      apply Lang_digit in Ha, Hb. apply (digits_add Ha Hb).
    + now apply Lang_Star.
    + apply Lang_Alt in Hk as [Hk|Hk]; apply Lang_Lit in Hk; auto.
  - intros (hour & colon & minute & gap & marker & -> & Hh & Hc & Hm & Hg & Hk).
    apply Lang_Cat. exists hour, (colon ++ minute ++ gap ++ marker).
    split; [reflexivity|]. split.
    + destruct Hh as [Hh|Hh].
      * apply Lang_Cat. exists hour, "". rewrite app_nil_r.
        repeat split; [now apply Lang_digit | apply Lang_Opt; now right].
      * apply digits_two in Hh as (a & b & -> & Ha & Hb).
        apply Lang_Cat. exists a, b.
        repeat split; [now apply Lang_digit|].
        apply Lang_Opt. left. now apply Lang_digit.
    + apply Lang_Cat. exists colon, (minute ++ gap ++ marker).
      split; [reflexivity|]. split.
      * apply Lang_Opt. destruct Hc as [->| ->]; [now right|left].
        now apply Lang_Chr.
      * apply Lang_Cat. exists minute, (gap ++ marker).
        split; [reflexivity|]. split.
        -- apply Lang_Opt. destruct Hm as [->|Hm]; [now right|left].
           apply digits_two in Hm as (a & b & -> & Ha & Hb).
           apply Lang_Cat. exists a, b.
           repeat split; now apply Lang_digit.
        -- apply Lang_Cat. exists gap, marker.
           split; [reflexivity|]. split; [now apply Lang_Star|].
           apply Lang_Alt. destruct Hk as [->| ->];
             [left | right]; now apply Lang_Lit.
Qed.

(** ** Two clock times that start at the same place are the same word *)

Lemma all_in_app p a b : all_in p (a ++ b) = all_in p a && all_in p b.
Proof.
  induction a as [|c a IH]; simpl; [reflexivity|].
  now rewrite IH, andb_assoc.
Qed.

Lemma all_in_weaken (p q : ascii -> bool) w :
  (forall c, p c = true -> q c = true) ->
  all_in p w = true -> all_in q w = true.
Proof.
  intros Hpq. induction w as [|c w IH]; simpl; [reflexivity|].
  intros H. apply andb_true_iff in H as [Hc Hw].
  now rewrite (Hpq c Hc), IH.
Qed.

Lemma clock_time_body w :
  clock_time w ->
  exists b m, w = b ++ m /\ all_in clock_body b = true /\
              (m = "am" \/ m = "pm").
Proof.
  intros (hour & colon & minute & gap & marker & -> & Hh & Hc & Hm & Hg & Hk).
  exists (hour ++ colon ++ minute ++ gap), marker.
  split; [now rewrite !app_assoc|]. split; [|assumption].
  assert (Hd : forall n x, digits n x -> all_in clock_body x = true).
  { intros n x [_ Hx]. apply all_in_weaken with is_digit; [|assumption].
    intros c Hc'. unfold clock_body. now rewrite Hc'. }
  rewrite !all_in_app. repeat (apply andb_true_iff; split).
  - destruct Hh as [Hh|Hh]; now apply Hd in Hh.
  - destruct Hc as [->| ->]; reflexivity.
  - destruct Hm as [->|Hm]; [reflexivity | now apply Hd in Hm].
  - apply all_in_weaken with is_space; [|assumption].
    intros c Hc'. unfold clock_body. rewrite Hc'. apply orb_true_r.
Qed.

Lemma body_then_marker_unique b1 : forall b2 m1 m2 x1 x2,
  all_in clock_body b1 = true -> all_in clock_body b2 = true ->
  (m1 = "am" \/ m1 = "pm") -> (m2 = "am" \/ m2 = "pm") ->
  b1 ++ m1 ++ x1 = b2 ++ m2 ++ x2 ->
  b1 ++ m1 = b2 ++ m2.
Proof.
  induction b1 as [|c b1 IH]; intros b2 m1 m2 x1 x2 H1 H2 Hm1 Hm2 E.
  - destruct b2 as [|c2 b2].
    + destruct Hm1 as [->| ->], Hm2 as [->| ->]; simpl in *;
        try reflexivity; discriminate.
    + simpl in H2. apply andb_true_iff in H2 as [Hc2 _].
      destruct Hm1 as [->| ->]; simpl in E; injection E as <- _;
        discriminate Hc2.
  - destruct b2 as [|c2 b2].
    + simpl in H1. apply andb_true_iff in H1 as [Hc _].
      destruct Hm2 as [->| ->]; simpl in E; injection E as -> _;
        discriminate Hc.
    + simpl in *. injection E as -> E.
      apply andb_true_iff in H1 as [_ H1].
      apply andb_true_iff in H2 as [_ H2].
      f_equal. now apply IH with x1 x2.
Qed.

Lemma clock_time_unique w1 w2 x1 x2 :
  clock_time w1 -> clock_time w2 -> w1 ++ x1 = w2 ++ x2 -> w1 = w2.
Proof.
  intros H1 H2 E.
  apply clock_time_body in H1 as (b1 & m1 & -> & Hb1 & Hm1).
  apply clock_time_body in H2 as (b2 & m2 & -> & Hb2 & Hm2).
  rewrite !app_assoc in E.
  now apply body_then_marker_unique with x1 x2.
Qed.

Lemma app_inv_head (pre a b : string) : pre ++ a = pre ++ b -> a = b.
Proof.
  induction pre as [|c pre IH]; simpl; [auto|].
  intros H. injection H as H. auto.
Qed.

Lemma clock_match_unique s pre w1 w2 :
  match_in clock_pattern s pre w1 -> match_in clock_pattern s pre w2 ->
  w1 = w2.
Proof.
  intros (post1 & E1 & H1) (post2 & E2 & H2).
  apply clock_pattern_words in H1, H2.
  rewrite E1 in E2. apply app_inv_head in E2.
  now apply clock_time_unique with post1 post2.
Qed.

End ExtractorFacts.
Import ExtractorFacts.

(* ================================================================== *)
(** * Properties of the extractor *)
(* ================================================================== *)

Module ExtractorProps.

Lemma contains_lower_false p text :
  contains p (lower text) = false <-> ~ occurs_ci p text.
Proof.
  rewrite <- contains_lower_iff. now destruct (contains p (lower text)).
Qed.

(** The entry returned for [text] is the first one, in the order of the
    vocabulary, that occurs in [text] up to letter case. *)
Lemma first_in_lower vocab text v :
  first_in vocab (lower text) = Some v <->
  exists before after,
    vocab = (before ++ v :: after)%list /\ occurs_ci v text /\
    forall u, In u before -> ~ occurs_ci u text.
Proof.
  rewrite first_in_some. split.
  - intros (b & a & H & Hv & Hb). exists b, a.
    repeat split; [assumption | now apply contains_lower_iff |].
    intros u Hu. now apply contains_lower_false, Hb.
  - intros (b & a & H & Hv & Hb). exists b, a.
    repeat split; [assumption | now apply contains_lower_iff |].
    intros u Hu. now apply contains_lower_false, Hb.
Qed.

Lemma first_in_lower_none vocab text :
  first_in vocab (lower text) = None <->
  forall v, In v vocab -> ~ occurs_ci v text.
Proof.
  rewrite first_in_none. split; intros H v Hv.
  - now apply contains_lower_false, H.
  - now apply contains_lower_false, H.
Qed.

(** C3 (amended).  [_extract_symptom] returns the vocabulary entry that
    comes first in the list order of [symptoms] among the entries occurring
    in the text up to letter case, wherever they stand in the text.  A text
    that contains both "chest pain" and "back pain" yields "chest pain"
    when it does not also contain "headache", the one entry listed before
    "chest pain", and never yields "back pain".  The result depends on the
    text through its lowercase form only, and is [None] exactly when no
    entry occurs. *)
Theorem extract_symptom_vocabulary_order (text : string) :
  (forall v,
     _extract_symptom text = Some v <->
     exists before after,
       symptoms = (before ++ v :: after)%list /\ occurs_ci v text /\
       forall u, In u before -> ~ occurs_ci u text) /\
  (occurs_ci "chest pain" text -> occurs_ci "back pain" text ->
   ~ occurs_ci "headache" text ->
   _extract_symptom text = Some "chest pain") /\
  (occurs_ci "chest pain" text -> occurs_ci "back pain" text ->
   _extract_symptom text <> Some "back pain") /\
  (forall text', lower text' = lower text ->
                 _extract_symptom text' = _extract_symptom text) /\
  (_extract_symptom text = None <->
   forall v, In v symptoms -> ~ occurs_ci v text).
Proof.
  unfold _extract_symptom. repeat split.
  - now apply first_in_lower.
  - now apply first_in_lower.
  - intros Hchest _ Hhead. apply first_in_lower.
    exists ["headache"], (skipn 2 symptoms).
    repeat split; [assumption|]. intros u [<-|[]]. assumption.
  - intros Hchest _ H. apply first_in_lower in H as (b & a & Hsplit & _ & Hb).
    apply (Hb "chest pain"); [|assumption].
    destruct b as [|x0 [|x1 b]]; try discriminate Hsplit.
    injection Hsplit as _ <- _. simpl; auto.
  - intros text' ->. reflexivity.
  - now apply first_in_lower_none.
  - now apply first_in_lower_none.
Qed.

(** The hypotheses of C3 hold of a text in which both entries occur,
    "back pain" first and in capitals. *)
Lemma extract_symptom_vocabulary_order_witness :
  _extract_symptom "BACK PAIN, later chest pain" = Some "chest pain".
Proof.
  destruct (extract_symptom_vocabulary_order "BACK PAIN, later chest pain")
    as (_ & H & _).
  apply H.
  - apply contains_lower_iff. vm_compute. reflexivity.
  - apply contains_lower_iff. vm_compute. reflexivity.
  - apply contains_lower_false. vm_compute. reflexivity.
Defined.

(** C3 as stated fails: this text contains "chest pain" and "back pain",
    and the entry returned is "headache". *)
Lemma extract_symptom_chest_pain_counterexample :
  contains "chest pain" (lower "headache, chest pain and back pain") = true /\
  contains "back pain" (lower "headache, chest pain and back pain") = true /\
  _extract_symptom "headache, chest pain and back pain" = Some "headache" /\
  _extract_symptom "headache, chest pain and back pain" <> Some "chest pain".
Proof.
  repeat split; try (vm_compute; reflexivity).
  vm_compute. discriminate.
Qed.

(** C4 (amended).  [_extract_time_of_day] first looks for the clock-time
    pattern (one or two digits, an optional colon, optionally two digits,
    white space, then "am" or "pm") in the lowercase text and, when the
    pattern occurs, returns the occurrence that starts first (there is one
    such occurrence only), as it stands in the lowercase text: the result
    is the lowercase form of a piece of the text, not the piece as
    written.  Otherwise it returns the key of the first keyword set, in
    the order morning, afternoon, evening, night, one of whose keywords
    occurs in the lowercase text; otherwise "unspecified time". *)
Theorem extract_time_of_day_order (text : string) :
  (forall w, Lang clock_pattern w <-> clock_time w) /\
  (matches clock_pattern (lower text) ->
   exists pre,
     match_in clock_pattern (lower text) pre (_extract_time_of_day text) /\
     (forall pre' w',
        match_in clock_pattern (lower text) pre' w' ->
        String.length pre <= String.length pre') /\
     (forall w',
        match_in clock_pattern (lower text) pre w' ->
        w' = _extract_time_of_day text)) /\
  (~ matches clock_pattern (lower text) ->
   forall before key patterns after p,
     time_patterns = (before ++ (key, patterns) :: after)%list ->
     silent before (lower text) -> In p patterns -> occurs p (lower text) ->
     _extract_time_of_day text = key) /\
  (~ matches clock_pattern (lower text) ->
   silent time_patterns (lower text) ->
   _extract_time_of_day text = "unspecified time") /\
  map fst time_patterns = ["morning"; "afternoon"; "evening"; "night"] /\
  (matches clock_pattern (lower text) ->
   occurs_ci (_extract_time_of_day text) text).
Proof.
  unfold _extract_time_of_day.
  split; [|split; [|split; [|split; [|split]]]].
  - intros w. split; now apply clock_pattern_words.
  - intros H. apply search_matches in H as [m E]. rewrite E.
    apply search_some in E as (pre & Hm & Hleft).
    exists pre. repeat split; try assumption.
    intros w' Hw'. now apply clock_match_unique with (lower text) pre.
  - intros H before key patterns after p Hsplit Hb Hp Hocc.
    apply search_none in H. rewrite H, Hsplit.
    now rewrite (@first_key_row before key patterns after _ p Hb Hp Hocc).
  - intros H Hsilent. apply search_none in H. rewrite H.
    now rewrite (first_key_silent Hsilent).
  - reflexivity.
  - intros H. apply search_matches in H as [m E]. rewrite E.
    apply search_some in E as (pre & (post & Hs & _) & _).
    apply contains_lower_iff, contains_iff. now exists pre, post.
Qed.

(** A pattern that [search] finds does occur. *)
Lemma search_found r s m : search r s = Some m -> matches r s.
Proof.
  intros H. apply search_some in H as (pre & H & _). now exists pre, m.
Qed.

(** The three cases of C4 on concrete texts: a clock time in capitals, a
    keyword of the second set, and neither. *)
Lemma extract_time_of_day_order_witness :
  (exists pre,
     match_in clock_pattern (lower "Seen at 9:30 PM")
       pre (_extract_time_of_day "Seen at 9:30 PM") /\
     (forall pre' w',
        match_in clock_pattern (lower "Seen at 9:30 PM") pre' w' ->
        String.length pre <= String.length pre') /\
     (forall w',
        match_in clock_pattern (lower "Seen at 9:30 PM") pre w' ->
        w' = _extract_time_of_day "Seen at 9:30 PM")) /\
  _extract_time_of_day "dizziness after LUNCH" = "afternoon" /\
  _extract_time_of_day "nausea" = "unspecified time".
Proof.
  split; [|split].
  - destruct (extract_time_of_day_order "Seen at 9:30 PM") as (_ & H & _).
    apply H. apply search_found with "9:30 pm". vm_compute. reflexivity.
  - destruct (extract_time_of_day_order "dizziness after LUNCH")
      as (_ & _ & H & _).
    apply H with (before := [("morning", ["morning"; "am"; "breakfast"])])
           (patterns := ["afternoon"; "lunch"; "noon"])
           (after := skipn 2 time_patterns) (p := "lunch").
    + apply search_none. vm_compute. reflexivity.
    + reflexivity.
    + intros key patterns p [[= <- <-]|[]] Hp Hocc.
      apply contains_iff in Hocc.
      destruct Hp as [<-|[<-|[<-|[]]]]; vm_compute in Hocc; discriminate.
    + simpl; auto.
    + apply contains_iff. vm_compute. reflexivity.
  - destruct (extract_time_of_day_order "nausea") as (_ & _ & _ & H & _).
    apply H.
    + apply search_none. vm_compute. reflexivity.
    + intros key patterns p Hin Hp Hocc. apply contains_iff in Hocc.
      assert (E : first_key time_patterns (lower "nausea") = None)
        by (vm_compute; reflexivity).
      revert Hocc. simpl in Hin.
      repeat (destruct Hin as [[= <- <-]|Hin];
              [simpl in Hp; repeat (destruct Hp as [<-|Hp]; [vm_compute; discriminate|]);
               destruct Hp|]).
      destruct Hin.
Defined.

(** C4 as stated fails: in this text the clock time is written "9:30 PM",
    and the value returned is "9:30 pm", which does not occur in the
    text. *)
Lemma extract_time_of_day_verbatim_counterexample :
  contains "9:30 PM" "Seen at 9:30 PM" = true /\
  _extract_time_of_day "Seen at 9:30 PM" = "9:30 pm" /\
  contains (_extract_time_of_day "Seen at 9:30 PM") "Seen at 9:30 PM" = false /\
  _extract_time_of_day "Seen at 9:30 PM" <> "9:30 PM".
Proof.
  repeat split; try (vm_compute; reflexivity).
  vm_compute. discriminate.
Qed.

(** C10.  A text whose lowercase form contains "am" anywhere, and no
    clock time, is given the time of day "morning", whatever keywords of
    the later sets it also contains. *)
Theorem am_anywhere_is_morning (text : string) :
  occurs "am" (lower text) ->
  ~ matches clock_pattern (lower text) ->
  _extract_time_of_day text = "morning".
Proof.
  intros Ham Hclock. unfold _extract_time_of_day.
  apply search_none in Hclock. rewrite Hclock.
  change time_patterns
    with ([] ++ ("morning", ["morning"; "am"; "breakfast"])
             :: skipn 1 time_patterns)%list.
  rewrite (@first_key_row [] "morning" ["morning"; "am"; "breakfast"]
             (skipn 1 time_patterns) (lower text) "am").
  - reflexivity.
  - intros key patterns p [].
  - simpl; auto.
  - assumption.
Qed.

(** C10 at "took paracetamol tonight": the "am" of "paracetamol" decides,
    although "night" occurs too. *)
Lemma am_anywhere_is_morning_witness :
  contains "night" (lower "took paracetamol tonight") = true /\
  _extract_time_of_day "took paracetamol tonight" = "morning".
Proof.
  split; [vm_compute; reflexivity|].
  apply (am_anywhere_is_morning "took paracetamol tonight").
  - apply contains_iff. vm_compute. reflexivity.
  - apply search_none. vm_compute. reflexivity.
Defined.

End ExtractorProps.

(* ================================================================== *)
(** * The timeline sort is a stable, ascending rearrangement *)
(* ================================================================== *)

Module SortFacts.

Lemma string_compare_refl (s : string) : String.compare s s = Eq.
Proof.
  induction s as [|c s IH]; simpl; [reflexivity|].
  unfold Ascii.compare. now rewrite N.compare_refl.
Qed.

Lemma string_leb_refl (s : string) : String.leb s s = true.
Proof. unfold String.leb. now rewrite string_compare_refl. Qed.

Lemma string_compare_trans (a : string) : forall b c,
  String.compare a b <> Gt -> String.compare b c <> Gt ->
  String.compare a c <> Gt.
Proof.
  induction a as [|x a IH]; intros [|y b] [|z c]; simpl; try congruence.
  unfold Ascii.compare.
  destruct (N.compare_spec (N_of_ascii x) (N_of_ascii y)) as [Exy|Exy|Exy];
    destruct (N.compare_spec (N_of_ascii y) (N_of_ascii z)) as [Eyz|Eyz|Eyz];
    try congruence; intros Hab Hbc.
  - rewrite Exy, Eyz, N.compare_refl. now apply IH with b.
  - rewrite Exy. apply N.compare_lt_iff in Eyz. now rewrite Eyz.
  - rewrite <- Eyz. apply N.compare_lt_iff in Exy. now rewrite Exy.
  - assert (E : (N_of_ascii x < N_of_ascii z)%N) by lia.
    apply N.compare_lt_iff in E. now rewrite E.
Qed.

Lemma string_leb_trans (a b c : string) :
  String.leb a b = true -> String.leb b c = true -> String.leb a c = true.
Proof.
  unfold String.leb. intros Hab Hbc.
  assert (H : String.compare a c <> Gt).
  { apply string_compare_trans with b.
    - destruct (String.compare a b); congruence.
    - destruct (String.compare b c); congruence. }
  now destruct (String.compare a c).
Qed.

Section SortByKey.
Variable A : Type.
Variable key : A -> string.

Lemma insert_by_perm (x : A) (l : list A) :
  Permutation (x :: l) (insert_by key x l).
Proof.
  induction l as [|y l IH]; simpl; [reflexivity|].
  destruct (String.leb (key x) (key y)); [reflexivity|].
  rewrite perm_swap. now apply perm_skip.
Qed.

Lemma sort_by_perm (l : list A) : Permutation l (sort_by key l).
Proof.
  induction l as [|x l IH]; simpl; [reflexivity|].
  rewrite <- insert_by_perm. now apply perm_skip.
Qed.

Lemma insert_by_ascending (x : A) (l : list A) :
  ascending key l -> ascending key (insert_by key x l).
Proof.
  unfold ascending. induction l as [|y l IH]; simpl; intros H.
  - repeat constructor.
  - destruct (String.leb (key x) (key y)) eqn:E.
    + constructor; [assumption | now constructor].
    + apply Sorted_inv in H as [Hl Hy].
      constructor; [now apply IH|].
      destruct l as [|z l]; simpl.
      * constructor. destruct (String.leb_total (key x) (key y)); congruence.
      * destruct (String.leb (key x) (key z)).
        -- constructor.
           destruct (String.leb_total (key x) (key y)); congruence.
        -- constructor. now apply HdRel_inv in Hy.
Qed.

Lemma sort_by_ascending (l : list A) : ascending key (sort_by key l).
Proof.
  induction l as [|x l IH]; simpl; [constructor|].
  now apply insert_by_ascending.
Qed.

Lemma insert_by_filter (k : string) (x : A) (l : list A) :
  filter (fun a => key a =? k) (insert_by key x l) =
  filter (fun a => key a =? k) (x :: l).
Proof.
  induction l as [|y l IH]; simpl; [reflexivity|].
  destruct (String.leb (key x) (key y)) eqn:E; [reflexivity|].
  simpl. simpl in IH. rewrite IH.
  destruct (key x =? k) eqn:Ex; [|reflexivity].
  destruct (key y =? k) eqn:Ey; [|reflexivity].
  apply String.eqb_eq in Ex, Ey. rewrite Ex, Ey, string_leb_refl in E.
  discriminate.
Qed.

Lemma sort_by_stable (l : list A) : stable key l (sort_by key l).
Proof.
  intros k. induction l as [|x l IH]; simpl; [reflexivity|].
  rewrite insert_by_filter. simpl. now rewrite IH.
Qed.

Lemma ascending_head (x : A) (l : list A) :
  ascending key (x :: l) ->
  forall y, In y l -> String.leb (key x) (key y) = true.
Proof.
  intros H. apply Sorted_StronglySorted in H.
  - apply StronglySorted_inv in H as [_ H].
    now rewrite Forall_forall in H.
  - intros a b c. apply string_leb_trans.
Qed.

(** Two ascending lists whose elements of each key are the same, in the
    same order, are the same list. *)
Lemma ascending_unique (l1 : list A) : forall l2,
  ascending key l1 -> ascending key l2 -> stable key l1 l2 -> l1 = l2.
Proof.
  unfold stable.
  induction l1 as [|x l1 IH]; intros l2 H1 H2 Hst.
  - destruct l2 as [|y l2]; [reflexivity|].
    specialize (Hst (key y)). simpl in Hst.
    rewrite String.eqb_refl in Hst. discriminate.
  - destruct l2 as [|y l2].
    + specialize (Hst (key x)). simpl in Hst.
      rewrite String.eqb_refl in Hst. discriminate.
    + assert (Hxy : String.leb (key x) (key y) = true).
      { assert (Hin : In y (filter (fun a => key a =? key y) (x :: l1))).
        { rewrite <- Hst. simpl. rewrite String.eqb_refl. now left. }
        apply filter_In in Hin as [[<-|Hin] _];
          [apply string_leb_refl | now apply (ascending_head H1)]. }
      assert (Hyx : String.leb (key y) (key x) = true).
      { assert (Hin : In x (filter (fun a => key a =? key x) (y :: l2))).
        { rewrite Hst. simpl. rewrite String.eqb_refl. now left. }
        apply filter_In in Hin as [[<-|Hin] _];
          [apply string_leb_refl | now apply (ascending_head H2)]. }
      assert (Hk : key x = key y) by now apply String.leb_antisym.
      assert (Hhd := Hst (key x)). simpl in Hhd.
      rewrite Hk, String.eqb_refl in Hhd. injection Hhd as Hy Htl.
      subst y. f_equal. apply IH.
      * now apply Sorted_inv in H1.
      * now apply Sorted_inv in H2.
      * intros k. specialize (Hst k). simpl in Hst.
        destruct (key x =? k) eqn:E; [|assumption].
        now injection Hst.
Qed.

(** The list [sort_by] computes is the only ascending list that is stable
    with respect to its input: whatever stable sort is run, this is its
    result. *)
Lemma sort_by_unique (l l' : list A) :
  ascending key l' -> stable key l l' -> l' = sort_by key l.
Proof.
  intros Hasc Hst. apply ascending_unique; [assumption | apply sort_by_ascending|].
  intros k. rewrite (sort_by_stable l k). symmetry. apply Hst.
Qed.

Lemma sort_by_nil (l : list A) : sort_by key l = [] -> l = [].
Proof.
  intros H. apply Permutation_nil. rewrite <- H. symmetry. apply sort_by_perm.
Qed.

Lemma sort_by_In (x : A) (l : list A) : In x l <-> In x (sort_by key l).
Proof.
  split; apply Permutation_in;
    [apply sort_by_perm | symmetry; apply sort_by_perm].
Qed.

End SortByKey.

End SortFacts.
Import SortFacts.

(* ================================================================== *)
(** * Properties of the session *)
(* ================================================================== *)

Module SessionProps.
Import Session.

Unset Implicit Arguments.

Lemma filter_selects {A : Type} (f : A -> bool) (P : A -> Prop) (l : list A) :
  (forall x, f x = true <-> P x) -> selects P l (filter f l).
Proof.
  intros Hf. induction l as [|x l IH]; simpl; [constructor|].
  destruct (f x) eqn:E.
  - apply sel_keep; [now apply Hf | assumption].
  - apply sel_drop; [|assumption]. rewrite <- Hf. congruence.
Qed.

(** What [selects] relates a list to is unique. *)
Lemma selects_unique {A : Type} (P : A -> Prop) (l r1 r2 : list A) :
  selects P l r1 -> selects P l r2 -> r1 = r2.
Proof.
  intros H1; revert r2. induction H1 as [|x l r Hx _ IH|x l r Hx _ IH];
    intros r2 H2; inversion H2; subst; try contradiction; auto.
  f_equal. auto.
Qed.

Section System.
Variable Vec : Type.
Variable _get_embedding : string -> option Vec.
Variable strftime : string -> option string.
Variable upper : string -> string.
Variable _generate_deterministic : string -> option string.

Set Default Proof Using "Type".

Local Abbreviation init := (Session.init Vec).
Local Abbreviation record_symptom := (Session.record_symptom _get_embedding).
Local Abbreviation record_medication := (Session.record_medication _get_embedding).
Local Abbreviation show_timeline := (Session.show_timeline strftime).
Local Abbreviation symptom_frequency := (Session.symptom_frequency strftime upper).
Local Abbreviation medication_frequency :=
  (Session.medication_frequency strftime upper).
Local Abbreviation step :=
  (Session.step _get_embedding strftime upper _generate_deterministic).
Local Abbreviation exec :=
  (Session.exec _get_embedding strftime upper _generate_deterministic).
Local Abbreviation reachable :=
  (Session.reachable _get_embedding strftime upper _generate_deterministic).
Local Abbreviation embeds := (Session.embeds _get_embedding).

(** The three ways [record_symptom] ends. *)
Lemma record_symptom_miss now text (st : System Vec) :
  truthy (_extract_symptom text) = false ->
  record_symptom now text st =
  finish st
    (say "✗ No recognized symptom found in text." ;;
     say ("  Recognized symptoms: " ++ join ", " (firstn 10 symptoms)
          ++ "...")).
Proof. intros H. unfold Session.record_symptom. now rewrite H. Qed.

Lemma record_symptom_raise now text (st : System Vec) :
  truthy (_extract_symptom text) = true ->
  _get_embedding (symptom_sentence text) = None ->
  record_symptom now text st =
  finish
    (append_symptom (symptom_event now text (fmt (_extract_symptom text))) st)
    raise.
Proof.
  intros H E. unfold Session.record_symptom, symptom_sentence in *.
  rewrite H. cbn [negb]. now rewrite E.
Qed.

Lemma record_symptom_ok now text (st : System Vec) v :
  truthy (_extract_symptom text) = true ->
  _get_embedding (symptom_sentence text) = Some v ->
  let event := symptom_event now text (fmt (_extract_symptom text)) in
  after (record_symptom now text st) =
    index_add v (Symptom event) (append_symptom event st) /\
  outcome (record_symptom now text st) = Returned /\
  hd_error (printed (record_symptom now text st)) =
    Some ("✓ Symptom documented: " ++ fmt (_extract_symptom text)).
Proof.
  intros H E. unfold Session.record_symptom, symptom_sentence in *.
  rewrite H. cbn [negb]. rewrite E. cbn [after outcome printed finish].
  repeat split.
  unfold say_if. destruct (truthy (_extract_food_relation text));
    destruct (truthy (_extract_frequency_marker text)); reflexivity.
Qed.

(** The three ways [record_medication] ends. *)
Lemma record_medication_miss now text (st : System Vec) :
  truthy (_extract_medication text) = false ->
  record_medication now text st =
  finish st
    (say "✗ No recognized medication found in text." ;;
     say ("  Recognized medications: " ++ join ", " (firstn 10 medications)
          ++ "...")).
Proof. intros H. unfold Session.record_medication. now rewrite H. Qed.

Lemma record_medication_raise now text (st : System Vec) :
  truthy (_extract_medication text) = true ->
  _get_embedding (medication_sentence text) = None ->
  record_medication now text st =
  finish
    (append_medication
       (medication_event now text (fmt (_extract_medication text))) st)
    raise.
Proof.
  intros H E. unfold Session.record_medication, medication_sentence in *.
  rewrite H. cbn [negb]. now rewrite E.
Qed.

Lemma record_medication_ok now text (st : System Vec) v :
  truthy (_extract_medication text) = true ->
  _get_embedding (medication_sentence text) = Some v ->
  let event := medication_event now text (fmt (_extract_medication text)) in
  after (record_medication now text st) =
    index_add v (Medication event) (append_medication event st) /\
  outcome (record_medication now text st) = Returned /\
  hd_error (printed (record_medication now text st)) =
    Some ("✓ Medication documented: " ++ fmt (_extract_medication text)).
Proof.
  intros H E. unfold Session.record_medication, medication_sentence in *.
  rewrite H. cbn [negb]. rewrite E. cbn [after outcome printed finish].
  repeat split.
  unfold say_if. destruct (truthy (_extract_food_relation text)); reflexivity.
Qed.

(** The queries and the note commands leave the state as it is. *)
Lemma show_timeline_after (st : System Vec) : after (show_timeline st) = st.
Proof.
  unfold Session.show_timeline. now destruct (global_timeline st).
Qed.

Lemma symptom_frequency_after q (st : System Vec) :
  after (symptom_frequency q st) = st.
Proof.
  unfold Session.symptom_frequency. now destruct (matching_symptoms q st).
Qed.

Lemma medication_frequency_after q (st : System Vec) :
  after (medication_frequency q st) = st.
Proof.
  unfold Session.medication_frequency.
  now destruct (matching_medications q st).
Qed.

Lemma generate_nursing_note_after (st : System Vec) :
  after (generate_nursing_note _generate_deterministic st) = st.
Proof.
  unfold generate_nursing_note. now destruct (symptom_events st).
Qed.

Lemma generate_medication_note_after (st : System Vec) :
  after (generate_medication_note _generate_deterministic st) = st.
Proof.
  unfold generate_medication_note. now destruct (medication_events st).
Qed.

(** What one command adds to the timeline, to the index and to the
    reference store. *)
Lemma step_sizes c (st : System Vec) :
  timeline_size (after (step c st)) =
    (timeline_size st + if appends c then 1 else 0)%nat /\
  List.length (faiss_index (after (step c st))) =
    (List.length (faiss_index st) + if embeds c then 1 else 0)%nat /\
  List.length (event_store (after (step c st))) =
    (List.length (event_store st) + if embeds c then 1 else 0)%nat.
Proof.
  destruct c as [now text|now text| | | | |]; cbn [Session.step appends Session.embeds];
    rewrite ?show_timeline_after, ?symptom_frequency_after,
      ?medication_frequency_after, ?generate_nursing_note_after,
      ?generate_medication_note_after;
    try (repeat split; lia).
  - destruct (truthy (_extract_symptom text)) eqn:H.
    + fold (symptom_sentence text).
      destruct (_get_embedding (symptom_sentence text)) as [v|] eqn:E.
      * destruct (record_symptom_ok now text st v H E) as (-> & _).
        unfold timeline_size. cbn. rewrite !List.length_app. cbn. lia.
      * rewrite (record_symptom_raise now text st H E).
        unfold timeline_size. cbn. rewrite !List.length_app. cbn. lia.
    + rewrite (record_symptom_miss now text st H). cbn. lia.
  - destruct (truthy (_extract_medication text)) eqn:H.
    + fold (medication_sentence text).
      destruct (_get_embedding (medication_sentence text)) as [v|] eqn:E.
      * destruct (record_medication_ok now text st v H E) as (-> & _).
        unfold timeline_size. cbn. rewrite !List.length_app. cbn. lia.
      * rewrite (record_medication_raise now text st H E).
        unfold timeline_size. cbn. rewrite !List.length_app. cbn. lia.
    + rewrite (record_medication_miss now text st H). cbn. lia.
Qed.

Lemma exec_sizes cmds : forall st : System Vec,
  timeline_size (exec cmds st) = (timeline_size st + count appends cmds)%nat /\
  List.length (faiss_index (exec cmds st)) =
    (List.length (faiss_index st) + count embeds cmds)%nat /\
  List.length (event_store (exec cmds st)) =
    (List.length (event_store st) + count embeds cmds)%nat.
Proof.
  unfold count. induction cmds as [|c cmds IH]; intros st; simpl.
  - repeat split; lia.
  - destruct (IH (after (step c st))) as (H1 & H2 & H3).
    destruct (step_sizes c st) as (S1 & S2 & S3).
    unfold Session.exec in *. simpl. rewrite H1, H2, H3, S1, S2, S3.
    destruct (appends c), (embeds c); simpl; repeat split; lia.
Qed.

Lemma embeds_appends c : embeds c = true -> appends c = true.
Proof.
  destruct c; simpl; try discriminate; intros H;
    now apply andb_true_iff in H.
Qed.

Lemma count_embeds_le cmds : count embeds cmds <= count appends cmds.
Proof.
  unfold count. induction cmds as [|c cmds IH]; simpl; [lia|].
  destruct (embeds c) eqn:E.
  - rewrite (embeds_appends c E). simpl. lia.
  - destruct (appends c); simpl; lia.
Qed.

Lemma count_embeds_all cmds :
  (forall c, In c cmds -> appends c = true -> embeds c = true) ->
  count embeds cmds = count appends cmds.
Proof.
  unfold count. induction cmds as [|c cmds IH]; simpl; intros H; [reflexivity|].
  destruct (appends c) eqn:A.
  - rewrite (H c); auto. simpl. f_equal. apply IH. intros; apply H; auto.
  - destruct (embeds c) eqn:E.
    + apply embeds_appends in E. congruence.
    + apply IH. intros; apply H; auto.
Qed.

Lemma exec_snoc cmds c (st : System Vec) :
  exec (cmds ++ [c]) st = after (step c (exec cmds st)).
Proof. unfold Session.exec. now rewrite fold_left_app. Qed.

Lemma exec_reachable cmds : reachable (exec cmds init).
Proof.
  induction cmds as [|c cmds IH] using rev_ind.
  - constructor.
  - rewrite exec_snoc. now constructor.
Qed.

Lemma reachable_exec (st : System Vec) :
  reachable st -> exists cmds, st = exec cmds init.
Proof.
  induction 1 as [|c st _ [cmds ->]].
  - now exists [].
  - exists (cmds ++ [c])%list. now rewrite exec_snoc.
Qed.

(** Every entry of the two vocabularies is a non-empty word, so a found
    entry is a true value for [if not symptom]. *)
Lemma extract_symptom_truthy text :
  truthy (_extract_symptom text) = false <-> _extract_symptom text = None.
Proof.
  split; [|now intros ->].
  destruct (_extract_symptom text) as [v|] eqn:E; [|reflexivity].
  unfold _extract_symptom, first_in in E. apply find_some in E as [Hv _].
  simpl in Hv.
  repeat (destruct Hv as [<-|Hv]; [discriminate|]). destruct Hv.
Qed.

Lemma extract_medication_truthy text :
  truthy (_extract_medication text) = false <-> _extract_medication text = None.
Proof.
  split; [|now intros ->].
  destruct (_extract_medication text) as [v|] eqn:E; [|reflexivity].
  unfold _extract_medication, first_in in E. apply find_some in E as [Hv _].
  simpl in Hv.
  repeat (destruct Hv as [<-|Hv]; [discriminate|]). destruct Hv.
Qed.

Lemma symptom_found_truthy text :
  truthy (_extract_symptom text) = true <-> _extract_symptom text <> None.
Proof.
  rewrite <- extract_symptom_truthy.
  destruct (truthy (_extract_symptom text)); split;
    try discriminate; try reflexivity.
  intros H. now contradiction H.
Qed.

Lemma medication_found_truthy text :
  truthy (_extract_medication text) = true <-> _extract_medication text <> None.
Proof.
  rewrite <- extract_medication_truthy.
  destruct (truthy (_extract_medication text)); split;
    try discriminate; try reflexivity.
  intros H. now contradiction H.
Qed.

(** C1 (amended).  After any sequence of commands from the initial state
    (these are the reachable states), the vector index and the parallel
    reference store both hold as many entries as there were appends whose
    embedding call returned, and the timeline store holds the four seeded
    events plus one event per append; the index is never longer than that,
    and the timeline holds four events more than the index when every
    append was embedded.  The seeded events have no vectors. *)
Theorem vector_index_counts_embedded_appends (cmds : list Command) :
  List.length (faiss_index (exec cmds init)) = count embeds cmds /\
  List.length (event_store (exec cmds init)) = count embeds cmds /\
  timeline_size (exec cmds init) = (4 + count appends cmds)%nat /\
  count embeds cmds <= count appends cmds /\
  ((forall c, In c cmds -> appends c = true -> embeds c = true) ->
   timeline_size (exec cmds init) =
     (4 + List.length (faiss_index (exec cmds init)))%nat) /\
  reachable (exec cmds init) /\
  (forall st, reachable st -> exists cmds', st = exec cmds' init).
Proof.
  destruct (exec_sizes cmds init) as (H1 & H2 & H3).
  cbn in H1, H2, H3. repeat split; try assumption.
  - apply count_embeds_le.
  - intros H. rewrite H1, H2. now rewrite (count_embeds_all cmds H).
  - apply exec_reachable.
  - apply reachable_exec.
Qed.

(** C2 (amended).  When [record_symptom] or [record_medication] raises,
    which happens exactly when a vocabulary entry was found and the
    embedding call raised, the event is in its stream of the timeline and
    neither the index nor the reference store has changed.  When the call
    returns, either nothing has changed or the event, its vector and its
    reference have all been added. *)
Theorem failed_embedding_keeps_event now text (st : System Vec) :
  (outcome (record_symptom now text st) = Raised <->
   _extract_symptom text <> None /\
   _get_embedding (symptom_sentence text) = None) /\
  (outcome (record_symptom now text st) = Raised ->
   events_only st (after (record_symptom now text st))
     [symptom_event now text (fmt (_extract_symptom text))] []) /\
  (outcome (record_symptom now text st) = Returned ->
   after (record_symptom now text st) = st \/
   exists v,
     events_and_vector st (after (record_symptom now text st))
       [symptom_event now text (fmt (_extract_symptom text))] [] v
       (Symptom (symptom_event now text (fmt (_extract_symptom text))))) /\
  (outcome (record_medication now text st) = Raised <->
   _extract_medication text <> None /\
   _get_embedding (medication_sentence text) = None) /\
  (outcome (record_medication now text st) = Raised ->
   events_only st (after (record_medication now text st))
     [] [medication_event now text (fmt (_extract_medication text))]) /\
  (outcome (record_medication now text st) = Returned ->
   after (record_medication now text st) = st \/
   exists v,
     events_and_vector st (after (record_medication now text st))
       [] [medication_event now text (fmt (_extract_medication text))] v
       (Medication
          (medication_event now text (fmt (_extract_medication text))))).
Proof.
  pose proof symptom_found_truthy as Hs.
  pose proof medication_found_truthy as Hm.
  unfold events_only, events_and_vector.
  split; [|split; [|split; [|split; [|split]]]].
  - rewrite <- Hs.
    destruct (truthy (_extract_symptom text)) eqn:H.
    + destruct (_get_embedding (symptom_sentence text)) as [v|] eqn:E.
      * destruct (record_symptom_ok now text st v H E) as (_ & -> & _).
        split; [discriminate | intros [_ [=]]].
      * rewrite (record_symptom_raise now text st H E). cbn. split; auto.
    + rewrite (record_symptom_miss now text st H). cbn.
      split; [discriminate | intros [[=] _]].
  - destruct (truthy (_extract_symptom text)) eqn:H.
    + destruct (_get_embedding (symptom_sentence text)) as [v|] eqn:E.
      * destruct (record_symptom_ok now text st v H E) as (_ & -> & _).
        discriminate.
      * rewrite (record_symptom_raise now text st H E). cbn.
        rewrite List.app_nil_r. repeat split.
    + rewrite (record_symptom_miss now text st H). discriminate.
  - destruct (truthy (_extract_symptom text)) eqn:H.
    + destruct (_get_embedding (symptom_sentence text)) as [v|] eqn:E.
      * destruct (record_symptom_ok now text st v H E) as (-> & _).
        intros _. right. exists v. cbn. rewrite List.app_nil_r. repeat split.
      * rewrite (record_symptom_raise now text st H E). discriminate.
    + rewrite (record_symptom_miss now text st H). now left.
  - rewrite <- Hm.
    destruct (truthy (_extract_medication text)) eqn:H.
    + destruct (_get_embedding (medication_sentence text)) as [v|] eqn:E.
      * destruct (record_medication_ok now text st v H E) as (_ & -> & _).
        split; [discriminate | intros [_ [=]]].
      * rewrite (record_medication_raise now text st H E). cbn. split; auto.
    + rewrite (record_medication_miss now text st H). cbn.
      split; [discriminate | intros [[=] _]].
  - destruct (truthy (_extract_medication text)) eqn:H.
    + destruct (_get_embedding (medication_sentence text)) as [v|] eqn:E.
      * destruct (record_medication_ok now text st v H E) as (_ & -> & _).
        discriminate.
      * rewrite (record_medication_raise now text st H E). cbn.
        rewrite List.app_nil_r. repeat split.
    + rewrite (record_medication_miss now text st H). discriminate.
  - destruct (truthy (_extract_medication text)) eqn:H.
    + destruct (_get_embedding (medication_sentence text)) as [v|] eqn:E.
      * destruct (record_medication_ok now text st v H E) as (-> & _).
        intros _. right. exists v. cbn. rewrite List.app_nil_r. repeat split.
      * rewrite (record_medication_raise now text st H E). discriminate.
    + rewrite (record_medication_miss now text st H). now left.
Qed.

(** A recognised text puts its event at the end of its stream, whether
    or not the embedding call returns afterwards. *)
Lemma record_symptom_appends now text (st : System Vec) :
  _extract_symptom text <> None ->
  symptom_events (after (record_symptom now text st)) =
    (symptom_events st
     ++ [symptom_event now text (fmt (_extract_symptom text))])%list /\
  medication_events (after (record_symptom now text st)) =
    medication_events st.
Proof.
  intros Hfound.
  assert (H : truthy (_extract_symptom text) = true)
    by now apply symptom_found_truthy.
  destruct (_get_embedding (symptom_sentence text)) as [v|] eqn:E.
  - destruct (record_symptom_ok now text st v H E) as (-> & _). now cbn.
  - rewrite (record_symptom_raise now text st H E). now cbn.
Qed.

Lemma record_medication_appends now text (st : System Vec) :
  _extract_medication text <> None ->
  medication_events (after (record_medication now text st)) =
    (medication_events st
     ++ [medication_event now text (fmt (_extract_medication text))])%list /\
  symptom_events (after (record_medication now text st)) =
    symptom_events st.
Proof.
  intros Hfound.
  assert (H : truthy (_extract_medication text) = true)
    by now apply medication_found_truthy.
  destruct (_get_embedding (medication_sentence text)) as [v|] eqn:E.
  - destruct (record_medication_ok now text st v H E) as (-> & _). now cbn.
  - rewrite (record_medication_raise now text st H E). now cbn.
Qed.

(** C5.  When no entry of the symptom vocabulary (of the medication
    vocabulary) occurs in the text, [record_symptom] ([record_medication])
    returns without raising, leaves every stream, the index and the
    reference store as they were, and prints the guidance that lists the
    first ten entries of the vocabulary followed by an ellipsis; a call
    that did find an entry never prints these lines. *)
Theorem unrecognized_text_records_nothing now text (st : System Vec) :
  ((forall v, In v symptoms -> ~ occurs_ci v text) ->
   record_symptom now text st =
     {| after := st; printed := no_symptom_lines; outcome := Returned |}) /\
  ((forall v, In v medications -> ~ occurs_ci v text) ->
   record_medication now text st =
     {| after := st; printed := no_medication_lines; outcome := Returned |}) /\
  (_extract_symptom text <> None ->
   printed (record_symptom now text st) <> no_symptom_lines) /\
  (_extract_medication text <> None ->
   printed (record_medication now text st) <> no_medication_lines) /\
  nth 1 no_symptom_lines "" =
    "  Recognized symptoms: " ++ join ", " (firstn 10 symptoms) ++ "..." /\
  nth 1 no_medication_lines "" =
    "  Recognized medications: " ++ join ", " (firstn 10 medications) ++ "...".
Proof.
  split; [|split; [|split; [|split; [|split]]]]; try reflexivity.
  - intros H. apply ExtractorProps.first_in_lower_none in H.
    apply extract_symptom_truthy in H.
    now rewrite (record_symptom_miss now text st H).
  - intros H. apply ExtractorProps.first_in_lower_none in H.
    apply extract_medication_truthy in H.
    now rewrite (record_medication_miss now text st H).
  - intros Hfound.
    assert (H : truthy (_extract_symptom text) = true)
      by now apply symptom_found_truthy.
    destruct (_get_embedding (symptom_sentence text)) as [v|] eqn:E.
    + destruct (record_symptom_ok now text st v H E) as (_ & _ & Hhd).
      intros Heq. rewrite Heq in Hhd. cbn in Hhd. discriminate Hhd.
    + rewrite (record_symptom_raise now text st H E). discriminate.
  - intros Hfound.
    assert (H : truthy (_extract_medication text) = true)
      by now apply medication_found_truthy.
    destruct (_get_embedding (medication_sentence text)) as [v|] eqn:E.
    + destruct (record_medication_ok now text st v H E) as (_ & _ & Hhd).
      intros Heq. rewrite Heq in Hhd. cbn in Hhd. discriminate Hhd.
    + rewrite (record_medication_raise now text st H E). discriminate.
Qed.

(** What a loop prints when every round returns: the lines of the
    rounds, in order. *)
Lemma for_each_lines {A : Type} (body : A -> Block) (lines : A -> list string)
    (xs : list A) :
  (forall x, In x xs -> body x = (lines x, Returned)) ->
  for_each body xs = (flat_map lines xs, Returned).
Proof.
  unfold for_each. induction xs as [|x xs IH]; intros H; [reflexivity|].
  cbn [fold_right flat_map]. rewrite (H x) by now left.
  rewrite IH by (intros y Hy; apply H; now right). reflexivity.
Qed.

Lemma say_if_lines (label : string) (value : option string) :
  say_if label value =
  (if truthy value then [label ++ fmt value] else [], Returned).
Proof. unfold say_if. now destruct (truthy value). Qed.

(** Non-decreasing keys, for two keys that agree on the list. *)
Lemma ascending_agree {A : Type} (key1 key2 : A -> string) (l : list A) :
  (forall x, In x l -> key1 x = key2 x) ->
  ascending key1 l -> ascending key2 l.
Proof.
  unfold ascending. induction l as [|x l IH]; intros Hk Hs; [constructor|].
  apply Sorted_inv in Hs as [Hs Hhd]. constructor.
  - apply IH; [|assumption]. intros y Hy. apply Hk. now right.
  - destruct l as [|y l]; constructor.
    apply HdRel_inv in Hhd.
    rewrite <- (Hk x) by now left.
    rewrite <- (Hk y) by (right; now left). exact Hhd.
Qed.

(** The rows of the merged list stand for the events of the two streams:
    each carries its event, the timestamp of its event as sort key, and
    the type and description built from it. *)
Lemma merged_row (st : System Vec) (row : TimelineEntry) :
  In row (merged_events st) ->
  entry_timestamp row = timestamp (details row) /\
  match details row with
  | Symptom e =>
      In e (symptom_events st) /\ entry_type row = "SYMPTOM" /\
      description row = symptom e ++ " at " ++ sym_time_of_day e
  | Medication m =>
      In m (medication_events st) /\ entry_type row = "MEDICATION" /\
      description row =
        medication m ++ " " ++ fmt (dose m) ++ " at " ++ med_time_of_day m
  end.
Proof.
  unfold merged_events. intros H. apply in_app_or in H as [H|H];
    apply in_map_iff in H as (e & <- & He); cbn; repeat split; assumption.
Qed.

(** C6.  The timeline shown is the symptom stream followed by the
    medication stream, rearranged by a stable sort on the timestamp: it has
    the same rows, its timestamps never decrease, and rows with equal
    timestamps keep the order they had in the merged list; no other list
    has the last two properties.  Each row stands for one event of the
    streams and is sorted by the timestamp of that event.  An event just
    recorded is among the rows of the next timeline.  With both streams
    empty, [show_timeline] prints the placeholder line and returns;
    otherwise, when every timestamp can be formatted, it prints the
    heading, then the lines of each row in the order of the sorted list,
    then the closing rule, and returns. *)
Theorem global_timeline_sorted_stable (st : System Vec) :
  merged_events st =
    (map symptom_row (symptom_events st)
     ++ map medication_row (medication_events st))%list /\
  Permutation (merged_events st) (global_timeline st) /\
  ascending entry_timestamp (global_timeline st) /\
  stable entry_timestamp (merged_events st) (global_timeline st) /\
  (forall rows,
     ascending entry_timestamp rows ->
     stable entry_timestamp (merged_events st) rows ->
     rows = global_timeline st) /\
  (forall now text,
     _extract_symptom text <> None ->
     In (symptom_row (symptom_event now text (fmt (_extract_symptom text))))
        (global_timeline (after (record_symptom now text st)))) /\
  (forall now text,
     _extract_medication text <> None ->
     In (medication_row
           (medication_event now text (fmt (_extract_medication text))))
        (global_timeline (after (record_medication now text st)))) /\
  (symptom_events st = [] -> medication_events st = [] ->
   show_timeline st =
     {| after := st;
        printed := [nl ++ "No events documented yet."];
        outcome := Returned |}) /\
  map details (merged_events st) =
    (map Symptom (symptom_events st)
     ++ map Medication (medication_events st))%list /\
  (forall row, In row (global_timeline st) ->
     entry_timestamp row = timestamp (details row) /\
     match details row with
     | Symptom e =>
         In e (symptom_events st) /\ entry_type row = "SYMPTOM" /\
         description row = symptom e ++ " at " ++ sym_time_of_day e
     | Medication m =>
         In m (medication_events st) /\ entry_type row = "MEDICATION" /\
         description row =
           medication m ++ " " ++ fmt (dose m) ++ " at " ++ med_time_of_day m
     end) /\
  ascending (fun row => timestamp (details row)) (global_timeline st) /\
  (global_timeline st <> [] ->
   (forall row, In row (global_timeline st) ->
                strftime (entry_timestamp row) <> None) ->
   show_timeline st =
     {| after := st;
        printed :=
          List.app [nl ++ rule; "PATIENT TIMELINE"; rule]
            (List.app
               (flat_map
                  (fun row =>
                     List.app
                       [ nl ++ "[" ++ fmt (strftime (entry_timestamp row))
                         ++ "] " ++ entry_type row;
                         "  " ++ description row ]
                       match details row with
                       | Symptom d =>
                           List.app
                             (if truthy (sym_relation_to_food d)
                              then ["  Food relation: "
                                    ++ fmt (sym_relation_to_food d)]
                              else [])
                             (if truthy (frequency_marker d)
                              then ["  Frequency: "
                                    ++ fmt (frequency_marker d)]
                              else [])
                       | Medication d =>
                           List.app
                             (if truthy (med_relation_to_food d)
                              then ["  Food relation: "
                                    ++ fmt (med_relation_to_food d)]
                              else [])
                             ["  Route: " ++ route d]
                       end)
                  (global_timeline st))
               [nl ++ rule]);
        outcome := Returned |}).
Proof.
  assert (Hrow : forall row, In row (global_timeline st) ->
                             In row (merged_events st)).
  { intros row H. unfold global_timeline in H. now apply sort_by_In in H. }
  split; [reflexivity|].
  split; [apply sort_by_perm|].
  split; [apply sort_by_ascending|].
  split; [apply sort_by_stable|].
  split; [intros rows; apply sort_by_unique|].
  split; [|split; [|split; [|split; [|split; [|split]]]]].
  - intros now text H. unfold global_timeline. apply sort_by_In.
    unfold merged_events.
    destruct (record_symptom_appends now text st H) as [-> _].
    rewrite map_app. apply in_or_app. left. apply in_or_app. right.
    simpl; auto.
  - intros now text H. unfold global_timeline. apply sort_by_In.
    unfold merged_events.
    destruct (record_medication_appends now text st H) as [-> _].
    rewrite map_app. apply in_or_app. right. apply in_or_app. right.
    simpl; auto.
  - intros Hs Hm. unfold Session.show_timeline, global_timeline, merged_events.
    rewrite Hs, Hm. reflexivity.
  - unfold merged_events. rewrite map_app, !map_map. reflexivity.
  - intros row H. apply merged_row. now apply Hrow.
  - apply ascending_agree with entry_timestamp; [|apply sort_by_ascending].
    intros row H. now apply (merged_row st row (Hrow row H)).
  - intros Hne Hread. unfold Session.show_timeline.
    destruct (global_timeline st) as [|r rs] eqn:E; [now contradiction Hne|].
    match goal with
    | |- context [flat_map ?lines _] =>
        rewrite (for_each_lines (print_entry strftime) lines (r :: rs))
    end.
    + reflexivity.
    + intros row H. specialize (Hread row H). unfold print_entry.
      destruct (strftime (entry_timestamp row)) as [ts|];
        [|now contradiction Hread].
      destruct (details row) as [d|d]; rewrite !say_if_lines; reflexivity.
Qed.

(** C7.  The events reported for a queried name are those of the stream
    whose name equals the query once both are put in lowercase, in the
    order of the stream; two queries that differ in letter case only get
    the same events.  When there is none, the call prints the "no
    documented instances" line and returns.  When there are some and
    their timestamps can be formatted, the report gives their number and
    then the lines of each, numbered from 1 in the order of the stream,
    and returns.  The state after the call is the state before it, so
    repeating the call repeats the outcome. *)
Theorem frequency_query_selects q (st : System Vec) :
  selects (fun e => lower (symptom e) = lower q)
    (symptom_events st) (matching_symptoms q st) /\
  selects (fun e => lower (medication e) = lower q)
    (medication_events st) (matching_medications q st) /\
  (forall e, In e (matching_symptoms q st) <->
             In e (symptom_events st) /\ lower (symptom e) = lower q) /\
  (forall e, In e (matching_medications q st) <->
             In e (medication_events st) /\ lower (medication e) = lower q) /\
  (forall q', lower q' = lower q ->
     matching_symptoms q' st = matching_symptoms q st /\
     matching_medications q' st = matching_medications q st) /\
  (matching_symptoms q st = [] ->
   symptom_frequency q st =
     {| after := st;
        printed := [nl ++ "✗ No documented instances of '" ++ q ++ "'"];
        outcome := Returned |}) /\
  (matching_medications q st = [] ->
   medication_frequency q st =
     {| after := st;
        printed := [nl ++ "✗ No documented instances of '" ++ q ++ "'"];
        outcome := Returned |}) /\
  after (symptom_frequency q st) = st /\
  after (medication_frequency q st) = st /\
  symptom_frequency q (after (symptom_frequency q st)) =
    symptom_frequency q st /\
  medication_frequency q (after (medication_frequency q st)) =
    medication_frequency q st /\
  (forall found,
     selects (fun e => lower (symptom e) = lower q) (symptom_events st) found ->
     found <> [] ->
     (forall e, In e found -> strftime (sym_timestamp e) <> None) ->
     symptom_frequency q st =
       {| after := st;
          printed :=
            List.app
              [ nl ++ rule; "FREQUENCY REPORT: " ++ upper q; rule;
                "Total occurrences: " ++ decimal (List.length found);
                nl ++ "Detailed records:" ]
              (List.app
                 (flat_map
                    (fun ie : nat * SymptomEvent =>
                       List.app
                         [ nl ++ "  " ++ decimal (fst ie) ++ ". ["
                           ++ fmt (strftime (sym_timestamp (snd ie))) ++ "]";
                           "     Time of day: " ++ sym_time_of_day (snd ie) ]
                         (List.app
                            (if truthy (sym_relation_to_food (snd ie))
                             then ["     Food relation: "
                                   ++ fmt (sym_relation_to_food (snd ie))]
                             else [])
                            (if truthy (frequency_marker (snd ie))
                             then ["     Frequency marker: "
                                   ++ fmt (frequency_marker (snd ie))]
                             else [])))
                    (combine (seq 1 (List.length found)) found))
                 [nl ++ rule]);
          outcome := Returned |}) /\
  (forall found,
     selects (fun e => lower (medication e) = lower q)
       (medication_events st) found ->
     found <> [] ->
     (forall e, In e found -> strftime (med_timestamp e) <> None) ->
     medication_frequency q st =
       {| after := st;
          printed :=
            List.app
              [ nl ++ rule; "MEDICATION FREQUENCY REPORT: " ++ upper q; rule;
                "Total administrations: " ++ decimal (List.length found);
                nl ++ "Detailed records:" ]
              (List.app
                 (flat_map
                    (fun ie : nat * MedicationEvent =>
                       List.app
                         [ nl ++ "  " ++ decimal (fst ie) ++ ". ["
                           ++ fmt (strftime (med_timestamp (snd ie))) ++ "]";
                           "     Dose: " ++ fmt (dose (snd ie));
                           "     Time of day: " ++ med_time_of_day (snd ie) ]
                         (List.app
                            (if truthy (med_relation_to_food (snd ie))
                             then ["     Food relation: "
                                   ++ fmt (med_relation_to_food (snd ie))]
                             else [])
                            ["     Route: " ++ route (snd ie)]))
                    (combine (seq 1 (List.length found)) found))
                 [nl ++ rule]);
          outcome := Returned |}).
Proof.
  assert (Hsym : selects (fun e => lower (symptom e) = lower q)
                   (symptom_events st) (matching_symptoms q st))
    by (apply filter_selects; intros e; apply String.eqb_eq).
  assert (Hmed : selects (fun e => lower (medication e) = lower q)
                   (medication_events st) (matching_medications q st))
    by (apply filter_selects; intros e; apply String.eqb_eq).
  split; [exact Hsym|]. split; [exact Hmed|].
  split; [|split; [|split; [|split; [|split]]]].
  - intros e. unfold matching_symptoms. rewrite filter_In.
    now rewrite String.eqb_eq.
  - intros e. unfold matching_medications. rewrite filter_In.
    now rewrite String.eqb_eq.
  - intros q' H. unfold matching_symptoms, matching_medications.
    now rewrite H.
  - intros H. unfold Session.symptom_frequency. now rewrite H.
  - intros H. unfold Session.medication_frequency. now rewrite H.
  - rewrite symptom_frequency_after, medication_frequency_after.
    split; [reflexivity|]. split; [reflexivity|].
    split; [reflexivity|]. split; [reflexivity|]. split.
    + intros found Hsel Hne Hread.
      rewrite (selects_unique _ _ _ _ Hsel Hsym) in *.
      unfold Session.symptom_frequency.
      destruct (matching_symptoms q st) as [|e es] eqn:E;
        [now contradiction Hne|].
      unfold enumerate1.
      match goal with
      | |- context [flat_map ?lines _] =>
          rewrite (for_each_lines _ lines
                     (combine (seq 1 (List.length (e :: es))) (e :: es)))
      end.
      * reflexivity.
      * intros [i x] H. apply in_combine_r in H. specialize (Hread x H).
        cbn [fst snd].
        destruct (strftime (sym_timestamp x)) as [ts|];
          [|now contradiction Hread].
        rewrite !say_if_lines. reflexivity.
    + intros found Hsel Hne Hread.
      rewrite (selects_unique _ _ _ _ Hsel Hmed) in *.
      unfold Session.medication_frequency.
      destruct (matching_medications q st) as [|e es] eqn:E;
        [now contradiction Hne|].
      unfold enumerate1.
      match goal with
      | |- context [flat_map ?lines _] =>
          rewrite (for_each_lines _ lines
                     (combine (seq 1 (List.length (e :: es))) (e :: es)))
      end.
      * reflexivity.
      * intros [i x] H. apply in_combine_r in H. specialize (Hread x H).
        cbn [fst snd].
        destruct (strftime (med_timestamp x)) as [ts|];
          [|now contradiction Hread].
        rewrite !say_if_lines. reflexivity.
Qed.

(** C9.  On "Gave metformin 1000mg in morning" the extractor finds the
    medication "metformin", the dose "1000mg" and the time of day
    "morning".  The dose is what the first pattern of the list, the
    milligram pattern, finds; the tablet, unit and millilitre patterns find
    nothing in this text.  The event [record_medication] appends carries
    these values. *)
Theorem metformin_1000mg_in_morning now (st : System Vec) :
  _extract_medication "Gave metformin 1000mg in morning" = Some "metformin" /\
  _extract_dose "Gave metformin 1000mg in morning" = Some "1000mg" /\
  _extract_time_of_day "Gave metformin 1000mg in morning" = "morning" /\
  map (fun r => search r (lower "Gave metformin 1000mg in morning"))
      dose_patterns = [Some "1000mg"; None; None; None] /\
  medication_events
    (after (record_medication now "Gave metformin 1000mg in morning" st)) =
    (medication_events st
     ++ [ {| medication := "metformin";
             dose := Some "1000mg";
             med_time_of_day := "morning";
             med_relation_to_food := None;
             route := "oral";
             med_timestamp := now;
             note := "patient reported intake";
             med_raw_text := Some "Gave metformin 1000mg in morning" |} ])%list.
Proof.
  repeat split; try (vm_compute; reflexivity).
  assert (H : _extract_medication "Gave metformin 1000mg in morning" <> None)
    by (vm_compute; discriminate).
  destruct (record_medication_appends now _ st H) as [-> _].
  f_equal.
Qed.

End System.

End SessionProps.

(* ================================================================== *)
(** * Properties of the note generator *)
(* ================================================================== *)

Module NotesProps.
Import Notes.

(** C8.  Given an empty list, [generate_nursing_note] returns "No symptoms
    documented during this period." and [generate_medication_note] returns
    "No medications documented during this period.", and neither sends a
    prompt to the generation service; given a non-empty list, each sends
    exactly one. *)
Theorem empty_list_skips_generation (gen : string -> option string) :
  generate_nursing_note gen [] =
    {| prompts := [];
       text := Some "No symptoms documented during this period." |} /\
  generate_medication_note gen [] =
    {| prompts := [];
       text := Some "No medications documented during this period." |} /\
  (forall e es, List.length (prompts (generate_nursing_note gen (e :: es))) = 1) /\
  (forall e es,
     List.length (prompts (generate_medication_note gen (e :: es))) = 1).
Proof. repeat split. Qed.

End NotesProps.

(* ================================================================== *)
(** * Concrete runs *)
(* ================================================================== *)

Module Runs.
Import Session SessionProps Stubs.

(** C1 as stated fails in the initial state, which holds four events and
    no vector, and still fails after an append whose embedding returned:
    five events, one vector. *)
Lemma seeded_events_have_no_vectors :
  reachable embedding_up strftime_as_is upper_as_is generation_echo
    (init string) /\
  List.length (faiss_index (init string)) = 0 /\
  timeline_size (init string) = 4 /\
  List.length (faiss_index (init string)) <> timeline_size (init string) /\
  List.length
    (faiss_index
       (after (record_symptom embedding_up "2026-01-09T10:00:00"
                 "Patient has headache" (init string)))) = 1 /\
  timeline_size
    (after (record_symptom embedding_up "2026-01-09T10:00:00"
              "Patient has headache" (init string))) = 5.
Proof.
  split; [constructor|].
  repeat split; try (vm_compute; reflexivity).
  vm_compute. discriminate.
Qed.

(** C1 on a run of three commands, two of which append and embed. *)
Lemma vector_index_counts_embedded_appends_witness :
  timeline_size
    (exec embedding_up strftime_as_is upper_as_is generation_echo
       [ CmdNote "2026-01-09T10:00:00" "Patient has headache";
         CmdMed "2026-01-09T10:05:00" "Gave metformin 1000mg in morning";
         CmdTimeline ]
       (init string)) =
  4 + List.length
        (faiss_index
           (exec embedding_up strftime_as_is upper_as_is generation_echo
              [ CmdNote "2026-01-09T10:00:00" "Patient has headache";
                CmdMed "2026-01-09T10:05:00" "Gave metformin 1000mg in morning";
                CmdTimeline ]
              (init string))).
Proof.
  destruct (vector_index_counts_embedded_appends string embedding_up
              strftime_as_is upper_as_is generation_echo
              [ CmdNote "2026-01-09T10:00:00" "Patient has headache";
                CmdMed "2026-01-09T10:05:00" "Gave metformin 1000mg in morning";
                CmdTimeline ])
    as (_ & _ & _ & _ & H & _).
  apply H. intros c [<-|[<-|[<-|[]]]] Ha; try (vm_compute; reflexivity).
  discriminate Ha.
Defined.

(** C2 as stated fails when the embedding service raises: the call
    raises, the symptom stream has grown from two events to three, and the
    index and the reference store are still empty. *)
Lemma embedding_failure_leaves_event_without_vector :
  outcome (record_symptom embedding_down "2026-01-09T10:00:00"
             "Patient has headache" (init string)) = Raised /\
  List.length
    (symptom_events
       (after (record_symptom embedding_down "2026-01-09T10:00:00"
                 "Patient has headache" (init string)))) = 3 /\
  faiss_index
    (after (record_symptom embedding_down "2026-01-09T10:00:00"
              "Patient has headache" (init string))) = [] /\
  event_store
    (after (record_symptom embedding_down "2026-01-09T10:00:00"
              "Patient has headache" (init string))) = [].
Proof. repeat split; vm_compute; reflexivity. Qed.

(** C2 on the same call. *)
Lemma failed_embedding_keeps_event_witness :
  events_only (init string)
    (after (record_symptom embedding_down "2026-01-09T10:00:00"
              "Patient has headache" (init string)))
    [symptom_event "2026-01-09T10:00:00" "Patient has headache"
       (fmt (_extract_symptom "Patient has headache"))]
    [].
Proof.
  destruct (failed_embedding_keeps_event string embedding_down
              "2026-01-09T10:00:00" "Patient has headache" (init string))
    as (_ & H & _).
  apply H. vm_compute. reflexivity.
Defined.

(** C5 on a text that names no symptom. *)
Lemma unrecognized_text_records_nothing_witness :
  record_symptom embedding_up "2026-01-09T10:00:00"
    "Patient is resting comfortably" (init string) =
  {| after := init string;
     printed := no_symptom_lines;
     outcome := Returned |}.
Proof.
  destruct (unrecognized_text_records_nothing string embedding_up
              "2026-01-09T10:00:00" "Patient is resting comfortably"
              (init string))
    as (H & _).
  apply H. apply ExtractorProps.first_in_lower_none.
  vm_compute. reflexivity.
Defined.

(** C6 on a session in which a symptom was recorded after the seeded
    events, with a timestamp between theirs: the five events are shown in
    the order of their timestamps.  And on the session without events. *)
Lemma global_timeline_sorted_stable_witness :
  show_timeline strftime_as_is
    (after (record_symptom embedding_up "2026-01-08T08:30:00"
              "Patient has fever since yesterday" (init string))) =
  {| after := after (record_symptom embedding_up "2026-01-08T08:30:00"
                       "Patient has fever since yesterday" (init string));
     printed :=
       [ nl ++ rule; "PATIENT TIMELINE"; rule;
         nl ++ "[2026-01-07T19:30] MEDICATION";
         "  lisinopril None at night";
         "  Food relation: before food";
         "  Route: oral";
         nl ++ "[2026-01-07T21:15] SYMPTOM";
         "  chest pain at night";
         "  Food relation: after food";
         nl ++ "[2026-01-08T08:00] MEDICATION";
         "  metformin 1000 mg at morning";
         "  Food relation: after food";
         "  Route: oral";
         nl ++ "[2026-01-08T08:30:00] SYMPTOM";
         "  fever at unspecified time";
         "  Frequency: since yesterday";
         nl ++ "[2026-01-08T09:30] SYMPTOM";
         "  headache at morning";
         "  Food relation: after food";
         "  Frequency: again";
         nl ++ rule ];
     outcome := Returned |} /\
  show_timeline strftime_as_is empty_session =
  {| after := empty_session;
     printed := [nl ++ "No events documented yet."];
     outcome := Returned |}.
Proof.
  split.
  - destruct (global_timeline_sorted_stable string embedding_up strftime_as_is
                (after (record_symptom embedding_up "2026-01-08T08:30:00"
                          "Patient has fever since yesterday" (init string))))
      as (_ & _ & _ & _ & _ & _ & _ & _ & _ & _ & _ & H).
    rewrite H.
    + vm_compute. reflexivity.
    + vm_compute. discriminate.
    + intros row _. discriminate.
  - destruct (global_timeline_sorted_stable string embedding_up strftime_as_is
                empty_session)
      as (_ & _ & _ & _ & _ & _ & _ & H & _).
    apply H; reflexivity.
Defined.

(** C7 on a session with two headaches, queried in mixed case: both are
    reported, in the order they were recorded.  And on a name that no
    event carries. *)
Lemma frequency_query_selects_witness :
  symptom_frequency strftime_as_is upper_as_is "HeadAche"
    (after (record_symptom embedding_up "2026-01-09T10:00:00"
              "Headache again after lunch" (init string))) =
  {| after := after (record_symptom embedding_up "2026-01-09T10:00:00"
                       "Headache again after lunch" (init string));
     printed :=
       [ nl ++ rule; "FREQUENCY REPORT: HeadAche"; rule;
         "Total occurrences: 2";
         nl ++ "Detailed records:";
         nl ++ "  1. [2026-01-08T09:30]";
         "     Time of day: morning";
         "     Food relation: after food";
         "     Frequency marker: again";
         nl ++ "  2. [2026-01-09T10:00:00]";
         "     Time of day: afternoon";
         "     Food relation: after food";
         "     Frequency marker: again";
         nl ++ rule ];
     outcome := Returned |} /\
  symptom_frequency strftime_as_is upper_as_is "Rash" (init string) =
  {| after := init string;
     printed := [nl ++ "✗ No documented instances of '" ++ "Rash" ++ "'"];
     outcome := Returned |}.
Proof.
  split.
  - destruct (frequency_query_selects string strftime_as_is upper_as_is
                "HeadAche"
                (after (record_symptom embedding_up "2026-01-09T10:00:00"
                          "Headache again after lunch" (init string))))
      as (Hsel & _ & _ & _ & _ & _ & _ & _ & _ & _ & _ & H & _).
    rewrite (H _ Hsel).
    + vm_compute. reflexivity.
    + vm_compute. discriminate.
    + intros e _. discriminate.
  - destruct (frequency_query_selects string strftime_as_is upper_as_is "Rash"
                (init string))
      as (_ & _ & _ & _ & _ & H & _).
    apply H. reflexivity.
Defined.

End Runs.

(* ================================================================== *)
(** * Further properties *)
(* ================================================================== *)

Module Further.
Import Session SessionProps Stubs.

(** X1.  A text in which exactly one entry of the vocabulary occurs, up to
    letter case, yields that entry; for symptoms and for medications. *)
Theorem sole_entry_is_returned (text v : string) :
  (In v symptoms -> occurs_ci v text ->
   (forall u, In u symptoms -> u <> v -> ~ occurs_ci u text) ->
   _extract_symptom text = Some v) /\
  (In v medications -> occurs_ci v text ->
   (forall u, In u medications -> u <> v -> ~ occurs_ci u text) ->
   _extract_medication text = Some v).
Proof.
  assert (H : forall vocab,
             In v vocab -> occurs_ci v text ->
             (forall u, In u vocab -> u <> v -> ~ occurs_ci u text) ->
             first_in vocab (lower text) = Some v).
  { intros vocab Hv Hocc Hsole.
    destruct (first_in vocab (lower text)) as [u|] eqn:E.
    - apply ExtractorProps.first_in_lower in E as (b & a & -> & Hu & _).
      destruct (string_dec u v) as [->|Hne]; [reflexivity|].
      exfalso. apply (Hsole u); [|assumption|assumption].
      apply in_or_app. right. now left.
    - exfalso.
      apply (proj1 (ExtractorProps.first_in_lower_none vocab text) E v);
        assumption. }
  split; apply H.
Qed.

Lemma sole_entry_is_returned_witness :
  _extract_symptom "Fever since last NIGHT" = Some "fever".
Proof.
  destruct (sole_entry_is_returned "Fever since last NIGHT" "fever")
    as [H _].
  apply H.
  - simpl; auto 10.
  - apply contains_lower_iff. vm_compute. reflexivity.
  - intros u Hu Hne. apply ExtractorProps.contains_lower_false.
    simpl in Hu.
    repeat (destruct Hu as [<-|Hu];
            [first [now contradiction Hne | vm_compute; reflexivity]|]).
    destruct Hu.
Defined.

(** X3.  When no dose pattern matches the text of a recognised
    medication, [record_medication] appends an event whose dose is the
    sentinel "dose not specified", and asks the embedding model for the
    sentence "medication <name> None", built from the dose as extracted.
    When the model returns a vector for that sentence, the vector and the
    event are added to the index and to the reference store and the line
    "  Dose: not specified" is printed; when it raises, the call raises
    with the event appended and nothing added to the index.  What the
    model would return for any other sentence does not matter. *)
Theorem missing_dose_in_event_and_sentence (Vec : Type)
    (_get_embedding : string -> option Vec) (now text m : string)
    (st : System Vec) :
  _extract_medication text = Some m ->
  _extract_dose text = None ->
  exists e,
    medication_events (after (record_medication _get_embedding now text st)) =
      (medication_events st ++ [e])%list /\
    medication e = m /\
    dose e = Some "dose not specified" /\
    (forall v,
       _get_embedding ("medication " ++ m ++ " None") = Some v ->
       faiss_index (after (record_medication _get_embedding now text st)) =
         (faiss_index st ++ [v])%list /\
       event_store (after (record_medication _get_embedding now text st)) =
         (event_store st ++ [Medication e])%list /\
       outcome (record_medication _get_embedding now text st) = Returned /\
       firstn 2 (printed (record_medication _get_embedding now text st)) =
         ["✓ Medication documented: " ++ m; "  Dose: not specified"]) /\
    (_get_embedding ("medication " ++ m ++ " None") = None ->
     faiss_index (after (record_medication _get_embedding now text st)) =
       faiss_index st /\
     event_store (after (record_medication _get_embedding now text st)) =
       event_store st /\
     outcome (record_medication _get_embedding now text st) = Raised /\
     printed (record_medication _get_embedding now text st) = []).
Proof.
  intros Hmed Hdose.
  assert (Ht : truthy (_extract_medication text) = true).
  { apply medication_found_truthy. rewrite Hmed. discriminate. }
  exists (medication_event now text m).
  unfold Session.record_medication. rewrite Ht, Hmed, Hdose.
  cbn [negb fmt truthy].
  change ("medication " ++ m ++ " " ++ "None")
    with ("medication " ++ m ++ " None").
  split; [|split; [reflexivity|split]].
  - destruct (_get_embedding ("medication " ++ m ++ " None")); reflexivity.
  - unfold medication_event. now rewrite Hdose.
  - split.
    + intros v Hv. rewrite Hv.
      split; [reflexivity|]. split; [reflexivity|].
      unfold say_if. destruct (truthy (_extract_food_relation text));
        split; reflexivity.
    + intros Hv. rewrite Hv. repeat split; reflexivity.
Qed.

Lemma missing_dose_in_event_and_sentence_witness :
  exists e,
    medication_events
      (after (record_medication embedding_up "2026-01-09T10:00:00"
                "Gave aspirin at night" (init string))) =
      (medication_events (init string) ++ [e])%list /\
    dose e = Some "dose not specified" /\
    faiss_index
      (after (record_medication embedding_up "2026-01-09T10:00:00"
                "Gave aspirin at night" (init string))) =
      ["medication aspirin None"].
Proof.
  destruct (@missing_dose_in_event_and_sentence string embedding_up
              "2026-01-09T10:00:00" "Gave aspirin at night" "aspirin"
              (init string))
    as (e & He & _ & Hd & Hup & _).
  - vm_compute. reflexivity.
  - vm_compute. reflexivity.
  - exists e. split; [exact He|]. split; [exact Hd|].
    destruct (Hup "medication aspirin None") as (Hi & _);
      [reflexivity | exact Hi].
Defined.

(** X4.  [_extract_food_relation] returns the key of the first keyword
    set, in the order after food, before food, with food, empty stomach,
    one of whose keywords occurs in the lowercase text, and [None] when no
    keyword occurs. *)
Theorem extract_food_relation_order (text : string) :
  (forall before key patterns after p,
     food_patterns = (before ++ (key, patterns) :: after)%list ->
     silent before (lower text) -> In p patterns -> occurs p (lower text) ->
     _extract_food_relation text = Some key) /\
  (silent food_patterns (lower text) -> _extract_food_relation text = None) /\
  map fst food_patterns =
    ["after food"; "before food"; "with food"; "empty stomach"].
Proof.
  unfold _extract_food_relation. repeat split.
  - intros before key patterns after p -> Hb Hp Hocc.
    now apply first_key_row with p.
  - apply first_key_silent.
Qed.

Lemma extract_food_relation_order_witness :
  _extract_food_relation "Took it BEFORE LUNCH" = Some "before food".
Proof.
  destruct (extract_food_relation_order "Took it BEFORE LUNCH") as [H _].
  apply H with (before := firstn 1 food_patterns)
               (patterns := snd (nth 1 food_patterns ("", [])))
               (after := skipn 2 food_patterns) (p := "before lunch").
  - reflexivity.
  - intros key patterns p [[= <- <-]|[]] Hp Hocc.
    apply contains_iff in Hocc. simpl in Hp.
    repeat (destruct Hp as [<-|Hp]; [vm_compute in Hocc; discriminate|]).
    destruct Hp.
  - simpl; auto 10.
  - apply contains_iff. vm_compute. reflexivity.
Defined.

End Further.

(* ================================================================== *)
(** * The dose patterns *)
(* ================================================================== *)

Module DoseProps.
Import Wellformed.

Unset Implicit Arguments.

(** The loop over the dose patterns returns what the first pattern, in
    list order, that occurs in the text finds. *)
Lemma first_search_some patterns t m :
  first_search patterns t = Some m ->
  exists before r after,
    patterns = (before ++ r :: after)%list /\ search r t = Some m /\
    forall r', In r' before -> search r' t = None.
Proof.
  induction patterns as [|r patterns IH]; simpl; [discriminate|].
  destruct (search r t) as [m'|] eqn:E.
  - intros [= ->]. exists [], r, patterns. repeat split; [assumption|].
    intros r' [].
  - intros H. destruct (IH H) as (b & r0 & a & -> & Hr & Hb).
    exists (r :: b), r0, a. repeat split; [assumption|].
    intros r' [<-|Hin]; auto.
Qed.

Lemma first_search_row before r after t m :
  (forall r', In r' before -> search r' t = None) ->
  search r t = Some m ->
  first_search (before ++ r :: after) t = Some m.
Proof.
  intros Hb Hr. induction before as [|r0 before IH]; simpl.
  - now rewrite Hr.
  - rewrite (Hb r0) by now left. apply IH. intros r' Hin. apply Hb. now right.
Qed.

Lemma first_search_none patterns t :
  first_search patterns t = None <->
  forall r, In r patterns -> search r t = None.
Proof.
  induction patterns as [|r patterns IH]; simpl.
  - split; [intros _ r [] | reflexivity].
  - destruct (search r t) as [m|] eqn:E.
    + split; [discriminate|]. intros H. rewrite (H r) in E by now left.
      discriminate.
    + rewrite IH. split.
      * intros H r' [<-|Hin]; auto.
      * intros H r' Hin. apply H. now right.
Qed.

(** Every dose word begins with a decimal digit. *)
Lemma dose_word_digit d :
  dose_word d -> exists c rest, d = String c rest /\ is_digit c = true.
Proof.
  intros (r & Hr & Hd). simpl in Hr.
  assert (H : exists x, Lang (Cat (PlusCls is_digit) x) d).
  { destruct Hr as [<-|[<-|[<-|[<-|[]]]]]; eexists; exact Hd. }
  destruct H as [x H].
  apply Lang_Cat in H as (w1 & w2 & -> & H1 & _).
  apply Lang_Cat in H1 as (a & b & -> & Ha & _).
  apply Lang_Cls in Ha as (c & -> & Hc).
  exists c, (b ++ w2). split; [reflexivity | assumption].
Qed.

Lemma dose_word_truthy d :
  dose_word d -> truthy (Some d) = true /\ d <> "dose not specified".
Proof.
  intros H. apply dose_word_digit in H as (c & rest & -> & Hc).
  split; [reflexivity|]. intros [= -> _]. discriminate Hc.
Qed.

Lemma extract_dose_word text d :
  _extract_dose text = Some d -> dose_word d /\ occurs d (lower text).
Proof.
  unfold _extract_dose. intros H.
  apply first_search_some in H as (b & r & a & Hsplit & Hr & _).
  apply search_some in Hr as (pre & (post & Hs & Hl) & _).
  split.
  - exists r. split; [|assumption]. rewrite Hsplit.
    apply in_or_app. right. now left.
  - now exists pre, post.
Qed.

(** [search] returns what [match_at] finds at the first position where it
    finds something. *)
Lemma search_at r s m :
  search r s = Some m ->
  exists pre suffix,
    s = pre ++ suffix /\ match_at r suffix = Some m /\
    forall pre' w', match_in r s pre' w' ->
                    String.length pre <= String.length pre'.
Proof.
  induction s as [|c s IH]; simpl.
  - destruct (match_at r "") as [m'|] eqn:E; [|discriminate].
    intros [= ->]. exists "", "". repeat split; [assumption|].
    intros; simpl; lia.
  - destruct (match_at r (String c s)) as [m'|] eqn:E.
    + intros [= ->]. exists "", (String c s). repeat split; [assumption|].
      intros; simpl; lia.
    + intros H. destruct (IH H) as (pre & suffix & -> & Hm & Hleft).
      exists (String c pre), suffix. repeat split; [assumption|].
      intros pre' w' (post' & Hs' & Hw').
      destruct pre' as [|c' pre'].
      * exfalso. simpl in Hs'.
        eapply match_at_none; [exact E | exact Hs' | exact Hw'].
      * simpl in Hs'. injection Hs' as _ Hs'. simpl.
        apply le_n_S, (Hleft pre' w'). now exists post'.
Qed.

(** A body is followed by a character that is not of the body in one way
    only. *)
Lemma body_unique (p : ascii -> bool) (c1 c2 : ascii) (b1 : string) :
  forall b2 x1 x2,
    all_in p b1 = true -> all_in p b2 = true ->
    p c1 = false -> p c2 = false ->
    b1 ++ String c1 x1 = b2 ++ String c2 x2 ->
    b1 = b2 /\ String c1 x1 = String c2 x2.
Proof.
  induction b1 as [|a b1 IH]; intros [|a' b2] x1 x2 H1 H2 Hc1 Hc2 E;
    simpl in *.
  - split; [reflexivity | assumption].
  - injection E as -> _. apply andb_true_iff in H2 as [H2 _]. congruence.
  - injection E as -> _. apply andb_true_iff in H1 as [H1 _]. congruence.
  - injection E as -> E.
    apply andb_true_iff in H1 as [_ H1]. apply andb_true_iff in H2 as [_ H2].
    destruct (IH b2 x1 x2 H1 H2 Hc1 Hc2 E) as [-> Hx]. now split.
Qed.

(** The greedy optional character at the end of a pattern: it is taken
    whenever it stands in the text. *)
Lemma match_at_optional_tail front c s m :
  match_at (Cat front (Opt (Chr c))) s = Some m ->
  exists w rest,
    s = w ++ rest /\ Lang front w /\
    ((exists rest', rest = String c rest' /\ m = w ++ String c "") \/
     ((forall rest', rest <> String c rest') /\ m = w)).
Proof.
  unfold match_at.
  destruct (bt (Cat front (Opt (Chr c))) s Some) as [left|] eqn:E;
    [|discriminate].
  intros [= <-]. cbn [bt] in E.
  apply bt_sound in E as (w & rest & -> & Hw & Hk).
  exists w, rest. split; [reflexivity|]. split; [assumption|].
  destruct rest as [|d rest'].
  - right. split; [discriminate|]. cbn in Hk. injection Hk as <-.
    rewrite PyStrFacts.app_nil_r. cbn [String.length].
    rewrite Nat.sub_0_r.
    rewrite <- (PyStrFacts.app_nil_r w) at 2. apply substring_front.
  - cbn in Hk. destruct (Ascii.eqb c d) eqn:Hd.
    + apply Ascii.eqb_eq in Hd. subst d. injection Hk as <-.
      left. exists rest'. split; [reflexivity|].
      replace (String.length (w ++ String c rest') - String.length rest')
        with (String.length (w ++ String c "")).
      * replace (w ++ String c rest') with ((w ++ String c "") ++ rest')
          by (now rewrite PyStrFacts.app_assoc).
        apply substring_front.
      * rewrite !PyStrFacts.length_app. simpl. lia.
    + injection Hk as <-. right. split.
      * intros rest'' [= -> _]. rewrite Ascii.eqb_refl in Hd. discriminate.
      * rewrite PyStrFacts.length_app, Nat.add_sub. apply substring_front.
Qed.

Lemma plus_digits_body w :
  Lang (PlusCls is_digit) w -> all_in dose_body w = true.
Proof.
  intros H. apply Lang_Cat in H as (a & b & -> & Ha & Hb).
  apply Lang_Cls in Ha as (c & -> & Hc). apply Lang_Star in Hb.
  simpl. unfold dose_body at 1. rewrite Hc. simpl.
  apply all_in_weaken with is_digit; [|assumption].
  intros d Hd. unfold dose_body. now rewrite Hd.
Qed.

Lemma star_digits_body w :
  Lang (StarCls is_digit) w -> all_in dose_body w = true.
Proof.
  intros H. apply Lang_Star in H.
  apply all_in_weaken with is_digit; [|assumption].
  intros d Hd. unfold dose_body. now rewrite Hd.
Qed.

Lemma star_spaces_body w :
  Lang (StarCls is_space) w -> all_in dose_body w = true.
Proof.
  intros H. apply Lang_Star in H.
  apply all_in_weaken with is_space; [|assumption].
  intros d Hd. unfold dose_body. rewrite Hd. apply orb_true_r.
Qed.

Lemma opt_point_body w :
  Lang (Opt (Chr ".")) w -> all_in dose_body w = true.
Proof.
  intros H. apply Lang_Opt in H as [H| ->]; [|reflexivity].
  apply Lang_Chr in H. subst w. reflexivity.
Qed.

(** The words of the milligram and millilitre patterns: a body and the
    unit. *)
Lemma decimal_dose_shape unit w :
  Lang (Cat (PlusCls is_digit) (Cat (Opt (Chr ".")) (Cat (StarCls is_digit)
          (Cat (StarCls is_space) (Lit unit))))) w ->
  exists body, w = body ++ unit /\ all_in dose_body body = true.
Proof.
  intros H.
  apply Lang_Cat in H as (w1 & x1 & -> & H1 & H).
  apply Lang_Cat in H as (w2 & x2 & -> & H2 & H).
  apply Lang_Cat in H as (w3 & x3 & -> & H3 & H).
  apply Lang_Cat in H as (w4 & x4 & -> & H4 & H).
  apply Lang_Lit in H. subst x4.
  exists (w1 ++ w2 ++ w3 ++ w4). split.
  - now rewrite !PyStrFacts.app_assoc.
  - rewrite !all_in_app, plus_digits_body, opt_point_body, star_digits_body,
      star_spaces_body by assumption. reflexivity.
Qed.

(** The words of the tablet and unit patterns without their optional
    plural: a body and the unit. *)
Lemma counted_dose_shape unit w :
  Lang (Cat (PlusCls is_digit) (Cat (StarCls is_space) (Lit unit))) w ->
  exists body, w = body ++ unit /\ all_in dose_body body = true.
Proof.
  intros H.
  apply Lang_Cat in H as (w1 & x1 & -> & H1 & H).
  apply Lang_Cat in H as (w2 & x2 & -> & H2 & H).
  apply Lang_Lit in H. subst x2.
  exists (w1 ++ w2). split.
  - now rewrite !PyStrFacts.app_assoc.
  - rewrite !all_in_app, plus_digits_body, star_spaces_body by assumption.
    reflexivity.
Qed.

Lemma counted_dose_plural_shape unit w :
  Lang (Cat (PlusCls is_digit) (Cat (StarCls is_space)
          (Cat (Lit unit) (Opt (Chr "s"))))) w ->
  exists body plural,
    w = body ++ unit ++ plural /\ all_in dose_body body = true /\
    (plural = "" \/ plural = "s").
Proof.
  intros H.
  apply Lang_Cat in H as (w1 & x1 & -> & H1 & H).
  apply Lang_Cat in H as (w2 & x2 & -> & H2 & H).
  apply Lang_Cat in H as (w3 & x3 & -> & H3 & H).
  apply Lang_Lit in H3. subst w3.
  exists (w1 ++ w2), x3. split; [now rewrite !PyStrFacts.app_assoc|]. split.
  - rewrite !all_in_app, plus_digits_body, star_spaces_body by assumption.
    reflexivity.
  - apply Lang_Opt in H as [H| ->]; [|now left].
    apply Lang_Chr in H. now right.
Qed.

(** At a position where the milligram or millilitre pattern matches, it
    matches one word only. *)
Lemma decimal_dose_longest unit c rest suffix m w' post' :
  unit = String c rest -> dose_body c = false ->
  match_at (Cat (PlusCls is_digit) (Cat (Opt (Chr ".")) (Cat (StarCls is_digit)
              (Cat (StarCls is_space) (Lit unit))))) suffix = Some m ->
  suffix = w' ++ post' ->
  Lang (Cat (PlusCls is_digit) (Cat (Opt (Chr ".")) (Cat (StarCls is_digit)
          (Cat (StarCls is_space) (Lit unit))))) w' ->
  w' = m.
Proof.
  intros Hu Hc Hm Hs Hw'.
  apply match_at_some in Hm as (post & Hs' & Hm).
  apply decimal_dose_shape in Hm as (b & -> & Hb).
  apply decimal_dose_shape in Hw' as (b' & -> & Hb').
  rewrite Hs' in Hs. rewrite !PyStrFacts.app_assoc in Hs. subst unit.
  simpl in Hs.
  destruct (body_unique dose_body c c b b' _ _ Hb Hb' Hc Hc Hs) as [-> _].
  reflexivity.
Qed.

(** At a position where the tablet or unit pattern matches, the word
    returned is the longest one: the plural is taken when it is there. *)
Lemma counted_dose_longest unit c rest suffix m w' post' :
  unit = String c rest -> dose_body c = false ->
  match_at (Cat (PlusCls is_digit) (Cat (StarCls is_space)
              (Cat (Lit unit) (Opt (Chr "s"))))) suffix = Some m ->
  suffix = w' ++ post' ->
  Lang (Cat (PlusCls is_digit) (Cat (StarCls is_space)
          (Cat (Lit unit) (Opt (Chr "s"))))) w' ->
  String.length w' <= String.length m.
Proof.
  intros Hu Hc Hm Hs Hw'.
  change (match_at (Cat (Cat (PlusCls is_digit) (Cat (StarCls is_space)
                                                   (Lit unit)))
                      (Opt (Chr "s"))) suffix = Some m) in Hm.
  apply match_at_optional_tail in Hm as (w & left & Hs' & Hw & Hm).
  apply counted_dose_shape in Hw as (b & -> & Hb).
  apply counted_dose_plural_shape in Hw' as (b' & plural & -> & Hb' & Hp).
  rewrite Hs' in Hs. rewrite !PyStrFacts.app_assoc in Hs. subst unit.
  simpl in Hs.
  destruct (body_unique dose_body c c b b' _ _ Hb Hb' Hc Hc Hs) as [-> Hrest].
  injection Hrest as Hrest. apply ExtractorFacts.app_inv_head in Hrest.
  destruct Hp as [-> | ->].
  - destruct Hm as [(x & _ & ->)|[_ ->]];
      rewrite !PyStrFacts.length_app; simpl; lia.
  - destruct Hm as [(x & _ & ->)|[Hno _]].
    + rewrite !PyStrFacts.length_app. simpl. lia.
    + exfalso. simpl in Hrest. now apply (Hno post').
Qed.

Lemma same_length_prefix (a : string) : forall b x y,
  a ++ x = b ++ y -> String.length a = String.length b -> a = b /\ x = y.
Proof.
  induction a as [|c a IH]; intros [|d b] x y E Hlen; simpl in *;
    try discriminate.
  - now split.
  - injection E as -> E. injection Hlen as Hlen.
    destruct (IH b x y E Hlen) as [-> ->]. now split.
Qed.

(** X6.  [_extract_dose] tries the milligram, tablet, unit and millilitre
    patterns in this order and returns what the first pattern that occurs
    anywhere in the lowercase text matches, whatever stands earlier in the
    text for a later pattern: the occurrence that starts first and, of
    the words of the pattern that start there, the longest, so that the
    plural of "tablets" and "units" is part of the dose when it is
    written.  No other word is both.  It returns [None] exactly when no
    pattern occurs.  A dose returned is a word of the lowercase text that
    begins with a digit, so it is never the empty string nor the sentinel
    "dose not specified". *)
Theorem extract_dose_pattern_order (text : string) :
  (forall before r after,
     dose_patterns = (before ++ r :: after)%list ->
     (forall r', In r' before -> ~ matches r' (lower text)) ->
     matches r (lower text) ->
     exists m pre,
       _extract_dose text = Some m /\
       match_in r (lower text) pre m /\
       (forall pre' w',
          match_in r (lower text) pre' w' ->
          String.length pre <= String.length pre') /\
       (forall w',
          match_in r (lower text) pre w' ->
          String.length w' <= String.length m) /\
       (forall pre' m',
          match_in r (lower text) pre' m' ->
          (forall pre'' w', match_in r (lower text) pre'' w' ->
                            String.length pre' <= String.length pre'') ->
          (forall w', match_in r (lower text) pre' w' ->
                      String.length w' <= String.length m') ->
          m' = m)) /\
  (_extract_dose text = None <->
   forall r, In r dose_patterns -> ~ matches r (lower text)) /\
  (forall d,
     _extract_dose text = Some d ->
     dose_word d /\ occurs d (lower text) /\
     (exists c rest, d = String c rest /\ is_digit c = true) /\
     d <> "dose not specified").
Proof.
  split; [|split].
  - intros before r after Hsplit Hb Hr.
    apply search_matches in Hr as [m Hm].
    pose proof Hm as Hm'.
    apply search_at in Hm' as (pre & suffix & Hs & Hat & Hleft).
    pose proof Hat as Hat'.
    apply match_at_some in Hat' as (post & Hsuf & Hlang).
    assert (Hin : match_in r (lower text) pre m).
    { exists post. split; [now rewrite Hs, Hsuf | assumption]. }
    assert (Hlong : forall w', match_in r (lower text) pre w' ->
                               String.length w' <= String.length m).
    { intros w' (post' & Hs' & Hw'). rewrite Hs in Hs'.
      apply ExtractorFacts.app_inv_head in Hs'.
      assert (Hr : In r dose_patterns)
        by (rewrite Hsplit; apply in_or_app; right; now left).
      unfold dose_patterns in Hr.
      destruct Hr as [<-|[<-|[<-|[<-|[]]]]].
      - rewrite (decimal_dose_longest "mg" "m" "g" suffix m w' post'
                   eq_refl eq_refl Hat Hs' Hw'). lia.
      - exact (counted_dose_longest "tablet" "t" "ablet" suffix m w' post'
                 eq_refl eq_refl Hat Hs' Hw').
      - exact (counted_dose_longest "unit" "u" "nit" suffix m w' post'
                 eq_refl eq_refl Hat Hs' Hw').
      - rewrite (decimal_dose_longest "ml" "m" "l" suffix m w' post'
                   eq_refl eq_refl Hat Hs' Hw'). lia. }
    exists m, pre. split.
    { unfold _extract_dose. rewrite Hsplit. apply first_search_row; [|assumption].
      intros r' Hr'. now apply search_none, Hb. }
    split; [exact Hin|]. split; [exact Hleft|]. split; [exact Hlong|].
    intros pre' m' Hin' Hleft' Hlong'.
    assert (Hlen : String.length pre' = String.length pre).
    { pose proof (Hleft _ _ Hin'). pose proof (Hleft' _ _ Hin). lia. }
    destruct Hin' as (post' & Hs' & Hw').
    destruct Hin as (post0 & Hs0 & Hw0).
    rewrite Hs0 in Hs'.
    destruct (same_length_prefix pre' pre _ _ (eq_sym Hs') Hlen) as [-> Hrest].
    assert (Hlen' : String.length m' = String.length m).
    { assert (H1 : String.length m' <= String.length m).
      { apply Hlong. exists post'. split; [now rewrite Hs0, <- Hrest | assumption]. }
      assert (H2 : String.length m <= String.length m').
      { apply Hlong'. exists post0. split; [assumption | assumption]. }
      lia. }
    now destruct (same_length_prefix m' m _ _ Hrest Hlen').
  - unfold _extract_dose. rewrite first_search_none.
    split; intros H r Hr; apply search_none; auto.
  - intros d H. destruct (extract_dose_word text d H) as [Hw Hocc].
    repeat split; try assumption.
    + now apply dose_word_digit.
    + now apply dose_word_truthy.
Qed.

(** X6 on a text where the tablets stand before a number of millilitres:
    no milligram is written, the tablet pattern comes next, and the dose
    is "2 tablets", plural included. *)
Lemma extract_dose_pattern_order_witness :
  _extract_dose "Gave 2 Tablets with 10 ml water" = Some "2 tablets" /\
  exists m pre,
    _extract_dose "Gave 2 Tablets with 10 ml water" = Some m /\
    match_in (nth 1 dose_patterns Eps)
      (lower "Gave 2 Tablets with 10 ml water") pre m /\
    forall w',
      match_in (nth 1 dose_patterns Eps)
        (lower "Gave 2 Tablets with 10 ml water") pre w' ->
      String.length w' <= String.length m.
Proof.
  split; [vm_compute; reflexivity|].
  destruct (extract_dose_pattern_order "Gave 2 Tablets with 10 ml water")
    as [H _].
  destruct (H (firstn 1 dose_patterns) (nth 1 dose_patterns Eps)
              (skipn 2 dose_patterns))
    as (m & pre & Hm & Hin & _ & Hlong & _).
  - reflexivity.
  - intros r' [<-|[]]. apply search_none. vm_compute. reflexivity.
  - apply ExtractorProps.search_found with "2 tablets". vm_compute.
    reflexivity.
  - exists m, pre. split; [exact Hm|]. split; [exact Hin | exact Hlong].
Defined.

End DoseProps.

(* ================================================================== *)
(** * Invariants of the session *)
(* ================================================================== *)

Module InvariantProps.
Import Session SessionProps Wellformed DoseProps.

Unset Implicit Arguments.

Lemma first_key_in table t k :
  first_key table t = Some k -> In k (map fst table).
Proof.
  induction table as [|[key ps] table IH]; simpl; [discriminate|].
  destruct (first_in ps t); [intros [= ->]; now left | right; auto].
Qed.

Lemma first_in_In vocab t v : first_in vocab t = Some v -> In v vocab.
Proof. unfold first_in. intros H. now apply find_some in H. Qed.

Lemma extract_time_ok text : time_ok (_extract_time_of_day text).
Proof.
  unfold _extract_time_of_day, time_ok.
  destruct (search clock_pattern (lower text)) as [m|] eqn:E.
  - right; right. apply clock_pattern_words.
    apply search_some in E as (pre & (post & _ & H) & _). exact H.
  - destruct (first_key time_patterns (lower text)) as [k|] eqn:K.
    + left. now apply first_key_in with (lower text).
    + right; now left.
Qed.

Lemma extract_food_ok text : food_ok (_extract_food_relation text).
Proof.
  unfold _extract_food_relation, food_ok.
  destruct (first_key food_patterns (lower text)) as [k|] eqn:K; [right|now left].
  exists k. split; [reflexivity | now apply first_key_in with (lower text)].
Qed.

Lemma extract_marker_ok text : marker_ok (_extract_frequency_marker text).
Proof.
  unfold _extract_frequency_marker, marker_ok.
  destruct (first_in frequency_markers (lower text)) as [m|] eqn:K;
    [right|now left].
  exists m. split; [reflexivity | now apply first_in_In with (lower text)].
Qed.

Lemma extract_dose_ok text :
  dose_ok (if truthy (_extract_dose text) then _extract_dose text
           else Some "dose not specified").
Proof.
  unfold dose_ok. destruct (_extract_dose text) as [d|] eqn:E.
  - destruct (extract_dose_word text d E) as [Hw _].
    destruct (dose_word_truthy d Hw) as [-> _].
    right; right. now exists d.
  - right; now left.
Qed.

Lemma symptom_event_ok now text v :
  _extract_symptom text = Some v -> symptom_ok (symptom_event now text v).
Proof.
  intros H. unfold symptom_ok.
  split; [exact (first_in_In symptoms (lower text) v H)|].
  split; [exact (extract_time_ok text)|].
  split; [exact (extract_food_ok text) | exact (extract_marker_ok text)].
Qed.

Lemma medication_event_ok now text v :
  _extract_medication text = Some v ->
  medication_ok (medication_event now text v).
Proof.
  intros H. unfold medication_ok.
  split; [exact (first_in_In medications (lower text) v H)|].
  split; [exact (extract_dose_ok text)|].
  split; [exact (extract_time_ok text)|].
  split; [exact (extract_food_ok text) | split; reflexivity].
Qed.

(** The sentence read back from a recorded event is the sentence that
    was embedded for it. *)
Lemma canonical_symptom now text v :
  canonical_sentence (Symptom (symptom_event now text v)) =
  "symptom " ++ v ++ " " ++ _extract_time_of_day text.
Proof. reflexivity. Qed.

Lemma canonical_medication now text v :
  canonical_sentence (Medication (medication_event now text v)) =
  "medication " ++ v ++ " " ++ fmt (_extract_dose text).
Proof.
  cbn [canonical_sentence medication_event medication dose].
  destruct (_extract_dose text) as [d|] eqn:E; [|reflexivity].
  destruct (extract_dose_word text d E) as [Hw _].
  destruct (dose_word_truthy d Hw) as [-> Hne]. cbn [fmt].
  apply String.eqb_neq in Hne. now rewrite Hne.
Qed.

Lemma then_returned (b1 b2 : Session.Block) :
  snd (b1 ;; b2) = Returned <-> snd b1 = Returned /\ snd b2 = Returned.
Proof.
  destruct b1 as [l1 o1], b2 as [l2 o2].
  destruct o1; cbn; intuition congruence.
Qed.

Lemma say_if_returned label value : snd (say_if label value) = Returned.
Proof. unfold say_if. now destruct (truthy value). Qed.

Lemma for_each_returned {A : Type} (body : A -> Block) (xs : list A) :
  snd (for_each body xs) = Returned <->
  forall x, In x xs -> snd (body x) = Returned.
Proof.
  induction xs as [|x xs IH]; cbn.
  - split; [intros _ x [] | reflexivity].
  - fold (for_each body xs). rewrite then_returned, IH. split.
    + intros [Hx Hxs] y [<-|Hy]; auto.
    + intros H. split; [apply H; now left | intros y Hy; apply H; now right].
Qed.

Section System.
Variable Vec : Type.
Variable _get_embedding : string -> option Vec.
Variable strftime : string -> option string.
Variable upper : string -> string.
Variable _generate_deterministic : string -> option string.

Set Default Proof Using "Type".

Local Abbreviation init := (Session.init Vec).
Local Abbreviation step :=
  (Session.step _get_embedding strftime upper _generate_deterministic).
Local Abbreviation exec :=
  (Session.exec _get_embedding strftime upper _generate_deterministic).
Local Abbreviation reachable :=
  (Session.reachable _get_embedding strftime upper _generate_deterministic).
Local Abbreviation grows := (Wellformed.grows _get_embedding).

Lemma found_some (o : option string) :
  truthy o = true -> exists v, o = Some v /\ fmt o = v.
Proof. destruct o as [v|]; [eauto | discriminate]. Qed.

(** Every command changes the state in one of the five ways of [grows]. *)
Lemma step_grows c (st : System Vec) : grows st (after (step c st)).
Proof.
  destruct c as [now text|now text| | | | |]; cbn [Session.step];
    rewrite ?show_timeline_after, ?symptom_frequency_after,
      ?medication_frequency_after, ?generate_nursing_note_after,
      ?generate_medication_note_after; try constructor.
  - destruct (truthy (_extract_symptom text)) eqn:H.
    + destruct (found_some _ H) as (v & Hv & Hf).
      destruct (_get_embedding (symptom_sentence text)) as [e|] eqn:E.
      * destruct (record_symptom_ok Vec _get_embedding now text st e H E)
          as (-> & _).
        rewrite Hf. apply grows_symptom_indexed; [assumption|].
        unfold symptom_sentence in E. now rewrite Hf in E.
      * rewrite (record_symptom_raise Vec _get_embedding now text st H E).
        cbn [after finish]. rewrite Hf. now apply grows_symptom.
    + rewrite (record_symptom_miss Vec _get_embedding now text st H).
      constructor.
  - destruct (truthy (_extract_medication text)) eqn:H.
    + destruct (found_some _ H) as (v & Hv & Hf).
      destruct (_get_embedding (medication_sentence text)) as [e|] eqn:E.
      * destruct (record_medication_ok Vec _get_embedding now text st e H E)
          as (-> & _).
        rewrite Hf. apply grows_medication_indexed; [assumption|].
        unfold medication_sentence in E. now rewrite Hf in E.
      * rewrite (record_medication_raise Vec _get_embedding now text st H E).
        cbn [after finish]. rewrite Hf. now apply grows_medication.
    + rewrite (record_medication_miss Vec _get_embedding now text st H).
      constructor.
Qed.

Lemma grows_extends (st st' : System Vec) : grows st st' -> extends st st'.
Proof.
  unfold extends. intros [ | | | | ]; cbn; repeat split;
    first [ now exists [] ; rewrite List.app_nil_r
          | eexists; reflexivity
          | exists []; now rewrite List.app_nil_r ].
Qed.

Lemma extends_refl (st : System Vec) : extends st st.
Proof.
  unfold extends. repeat split; exists []; now rewrite List.app_nil_r.
Qed.

Lemma extends_trans (a b c : System Vec) :
  extends a b -> extends b c -> extends a c.
Proof.
  unfold extends.
  intros (Hp & [sy Hs] & [me Hm] & [vs Hv] & [es He])
         (Hp' & [sy' Hs'] & [me' Hm'] & [vs' Hv'] & [es' He']).
  split; [congruence|].
  repeat split.
  - exists (sy ++ sy')%list. now rewrite Hs', Hs, List.app_assoc.
  - exists (me ++ me')%list. now rewrite Hm', Hm, List.app_assoc.
  - exists (vs ++ vs')%list. now rewrite Hv', Hv, List.app_assoc.
  - exists (es ++ es')%list. now rewrite He', He, List.app_assoc.
Qed.

Lemma exec_extends cmds : forall st : System Vec, extends st (exec cmds st).
Proof.
  induction cmds as [|c cmds IH]; intros st; [apply extends_refl|].
  unfold Session.exec; simpl. fold (exec cmds (after (step c st))).
  apply extends_trans with (after (step c st)); [|apply IH].
  apply grows_extends, step_grows.
Qed.

(** The three invariants, on every reachable state. *)
Definition invariant (st : System Vec) : Prop :=
  Forall symptom_ok (symptom_events st) /\
  Forall medication_ok (medication_events st) /\
  Forall event_ok (event_store st) /\
  Forall2 (indexed_as _get_embedding) (faiss_index st) (event_store st) /\
  Forall (in_timeline st) (event_store st).

Lemma seeded_dose_word : dose_word "1000 mg".
Proof.
  exists (nth 0 dose_patterns Eps). split; [now left|].
  assert (H : match_at (nth 0 dose_patterns Eps) "1000 mg" = Some "1000 mg")
    by (vm_compute; reflexivity).
  apply match_at_some in H as (post & _ & H). exact H.
Qed.

Lemma invariant_init : invariant init.
Proof.
  assert (Hfood : forall k, In k (map fst food_patterns) -> food_ok (Some k)).
  { intros k Hk. right. now exists k. }
  assert (Htime : forall k, In k (map fst time_patterns) -> time_ok k).
  { intros k Hk. now left. }
  unfold invariant. split; [|split; [|split; [|split]]].
  - apply Forall_cons; [|apply Forall_cons; [|apply Forall_nil]].
    + split; [simpl; auto 25|]. split; [apply Htime; simpl; auto|].
      split; [apply Hfood; simpl; auto|].
      right. exists "again". split; [reflexivity | simpl; auto].
    + split; [simpl; auto 25|]. split; [apply Htime; simpl; auto 10|].
      split; [apply Hfood; simpl; auto | now left].
  - apply Forall_cons; [|apply Forall_cons; [|apply Forall_nil]].
    + split; [simpl; auto 25|]. split.
      { right; right. exists "1000 mg". split; [reflexivity|].
        apply seeded_dose_word. }
      split; [apply Htime; simpl; auto|].
      split; [apply Hfood; simpl; auto | split; reflexivity].
    + split; [simpl; auto 25|]. split; [now left|].
      split; [apply Htime; simpl; auto 10|].
      split; [apply Hfood; simpl; auto | split; reflexivity].
  - apply Forall_nil.
  - apply Forall2_nil.
  - apply Forall_nil.
Qed.

Lemma in_timeline_mono (st st' : System Vec) e :
  (forall s, In s (symptom_events st) -> In s (symptom_events st')) ->
  (forall m, In m (medication_events st) -> In m (medication_events st')) ->
  in_timeline st e -> in_timeline st' e.
Proof. intros Hs Hm. destruct e; cbn; auto. Qed.

Lemma invariant_grows (st st' : System Vec) :
  grows st st' -> invariant st -> invariant st'.
Proof.
  unfold invariant.
  intros H (Is & Im & Ie & Ix & It).
  destruct H as [|now text v Hv|now text v e Hv He
                 |now text v Hv|now text v e Hv He]; cbn.
  - auto.
  - repeat split; try assumption.
    + apply Forall_app. split; [assumption|].
      constructor; [now apply symptom_event_ok | constructor].
    + eapply Forall_impl; [|exact It]. intros e.
      apply in_timeline_mono; cbn; auto using in_or_app.
  - repeat split; try assumption.
    + apply Forall_app. split; [assumption|].
      constructor; [now apply symptom_event_ok | constructor].
    + apply Forall_app. split; [assumption|].
      constructor; [now apply symptom_event_ok | constructor].
    + apply Forall2_app; [assumption|].
      constructor; [|constructor]. unfold indexed_as.
      now rewrite canonical_symptom.
    + apply Forall_app. split.
      * eapply Forall_impl; [|exact It]. intros e'.
        apply in_timeline_mono; cbn; auto using in_or_app.
      * constructor; [|constructor]. cbn. apply in_or_app. right. now left.
  - repeat split; try assumption.
    + apply Forall_app. split; [assumption|].
      constructor; [now apply medication_event_ok | constructor].
    + eapply Forall_impl; [|exact It]. intros e.
      apply in_timeline_mono; cbn; auto using in_or_app.
  - repeat split; try assumption.
    + apply Forall_app. split; [assumption|].
      constructor; [now apply medication_event_ok | constructor].
    + apply Forall_app. split; [assumption|].
      constructor; [now apply medication_event_ok | constructor].
    + apply Forall2_app; [assumption|].
      constructor; [|constructor]. unfold indexed_as.
      now rewrite canonical_medication.
    + apply Forall_app. split.
      * eapply Forall_impl; [|exact It]. intros e'.
        apply in_timeline_mono; cbn; auto using in_or_app.
      * constructor; [|constructor]. cbn. apply in_or_app. right. now left.
Qed.

Lemma invariant_reachable (st : System Vec) : reachable st -> invariant st.
Proof.
  induction 1 as [|c st _ IH]; [apply invariant_init|].
  apply invariant_grows with st; [apply step_grows | assumption].
Qed.


(** X7.  Whatever commands are run, every event of the two streams and of
    the reference store is made of closed values: the symptom or medication
    is an entry of its vocabulary; the time of day is one of the four
    categories, "unspecified time" or a clock time; the food relation is
    absent or one of the four relations; the frequency marker is absent or
    a listed marker; the dose is a dose word, "dose not specified", or
    absent (on a seeded event); the route is "oral". *)
Theorem recorded_events_stay_in_vocabulary (cmds : list Command) :
  Forall symptom_ok (symptom_events (exec cmds init)) /\
  Forall medication_ok (medication_events (exec cmds init)) /\
  Forall event_ok (event_store (exec cmds init)).
Proof.
  destruct (invariant_reachable _
              (exec_reachable Vec _get_embedding strftime upper
                 _generate_deterministic cmds))
    as (H1 & H2 & H3 & _).
  auto.
Qed.

(** X8.  Whatever commands are run, the vector at each position of the
    index is the embedding of the canonical sentence of the event at the
    same position of the reference store, and that event is in its stream
    of the timeline. *)
Theorem index_entries_embed_their_events (cmds : list Command) :
  Forall2 (indexed_as _get_embedding)
    (faiss_index (exec cmds init)) (event_store (exec cmds init)) /\
  Forall (in_timeline (exec cmds init)) (event_store (exec cmds init)).
Proof.
  destruct (invariant_reachable _
              (exec_reachable Vec _get_embedding strftime upper
                 _generate_deterministic cmds))
    as (_ & _ & _ & H4 & H5).
  auto.
Qed.

Lemma merged_events_nil (st : System Vec) :
  merged_events st = [] ->
  symptom_events st = [] /\ medication_events st = [].
Proof.
  unfold merged_events. intros H. apply app_eq_nil in H as [Hs Hm].
  split; [now apply map_eq_nil in Hs | now apply map_eq_nil in Hm].
Qed.

(** X9.  Commands only add to the end of the two streams, of the index
    and of the reference store, one event at most per command, and never
    change the patient information.  From the initial state the two seeded
    events of each stream stay in front, so that the "No events documented
    yet." and "Cannot generate note." guards never fire. *)
Theorem timeline_is_append_only (cmds : list Command) (st : System Vec) :
  extends st (exec cmds st) /\
  (forall c, timeline_size (after (step c st)) <= S (timeline_size st)) /\
  firstn 2 (symptom_events (exec cmds init)) = symptom_events init /\
  firstn 2 (medication_events (exec cmds init)) = medication_events init /\
  printed (Session.show_timeline strftime (exec cmds init)) <>
    [nl ++ "No events documented yet."] /\
  printed (generate_nursing_note _generate_deterministic (exec cmds init)) <>
    [nl ++ "No symptoms documented. Cannot generate note."] /\
  printed (generate_medication_note _generate_deterministic (exec cmds init))
    <> [nl ++ "No medications documented. Cannot generate note."].
Proof.
  split; [apply exec_extends|].
  split.
  { intros c.
    destruct (step_sizes Vec _get_embedding strftime upper
                _generate_deterministic c st) as (-> & _).
    destruct (appends c); lia. }
  destruct (exec_extends cmds init) as (_ & [sy Hs] & [me Hm] & _).
  split; [now rewrite Hs|]. split; [now rewrite Hm|].
  split; [|split].
  - unfold Session.show_timeline.
    destruct (global_timeline (exec cmds init)) as [|row rows] eqn:E.
    + apply sort_by_nil, merged_events_nil in E as [E _].
      rewrite Hs in E. discriminate.
    + cbn. discriminate.
  - unfold generate_nursing_note. rewrite Hs. cbn. discriminate.
  - unfold generate_medication_note. rewrite Hm. cbn. discriminate.
Qed.

Lemma print_entry_returned row :
  snd (print_entry strftime row) = Returned <->
  strftime (entry_timestamp row) <> None.
Proof.
  unfold print_entry. destruct (strftime (entry_timestamp row)) as [ts|].
  - split; [discriminate|intros _].
    destruct (details row);
      rewrite !then_returned, ?say_if_returned; cbn; auto.
  - cbn. split; [discriminate | intros H; now contradiction H].
Qed.

Lemma enumerate1_In {A : Type} (P : A -> Prop) (l : list A) :
  (forall ie, In ie (enumerate1 l) -> P (snd ie)) <->
  (forall e, In e l -> P e).
Proof.
  unfold enumerate1. generalize 1. induction l as [|x l IH]; intros n; cbn.
  - split; [intros _ e [] | intros _ ie []].
  - split.
    + intros H e [<-|He].
      * apply (H (n, x)). now left.
      * apply (proj1 (IH (S n))); [|assumption].
        intros ie Hie. apply H. now right.
    + intros H ie [<-|Hie]; [apply H; now left|].
      apply (proj2 (IH (S n))); [|assumption].
      intros e He. apply H. now right.
Qed.

Lemma for_each_enumerated_returned {A : Type} (body : nat * A -> Block)
    (P : A -> Prop) (l : list A) :
  (forall i e, snd (body (i, e)) = Returned <-> P e) ->
  (snd (for_each body (enumerate1 l)) = Returned <->
   forall e, In e l -> P e).
Proof.
  intros Hbody. rewrite for_each_returned, <- (enumerate1_In P l).
  split; intros H [i e] Hie; cbn [snd] in *.
  - apply (Hbody i e). now apply (H (i, e)).
  - apply (Hbody i e). now apply (H (i, e)).
Qed.

(** X10.  [show_timeline] returns exactly when the timestamp of every
    event of the two streams can be read back and formatted, and raises
    otherwise; a frequency report returns exactly when this holds of the
    events it reports, so that an unreadable timestamp breaks only the
    reports that list its event.  None of them changes the state. *)
Theorem reports_raise_on_unreadable_timestamp (st : System Vec) :
  (outcome (Session.show_timeline strftime st) = Returned <->
   (forall e, In e (symptom_events st) -> strftime (sym_timestamp e) <> None) /\
   (forall m, In m (medication_events st) ->
              strftime (med_timestamp m) <> None)) /\
  (forall q,
     outcome (Session.symptom_frequency strftime upper q st) = Returned <->
     forall e, In e (matching_symptoms q st) ->
               strftime (sym_timestamp e) <> None) /\
  (forall q,
     outcome (Session.medication_frequency strftime upper q st) = Returned <->
     forall m, In m (matching_medications q st) ->
               strftime (med_timestamp m) <> None) /\
  after (Session.show_timeline strftime st) = st /\
  (forall q, after (Session.symptom_frequency strftime upper q st) = st) /\
  (forall q, after (Session.medication_frequency strftime upper q st) = st).
Proof.
  split; [|split; [|split; [|split; [|split]]]].
  - assert (Hrows :
      (forall row, In row (global_timeline st) ->
                   strftime (entry_timestamp row) <> None) <->
      (forall e, In e (symptom_events st) ->
                 strftime (sym_timestamp e) <> None) /\
      (forall m, In m (medication_events st) ->
                 strftime (med_timestamp m) <> None)).
    { unfold global_timeline, merged_events. split.
      - intros H. split.
        + intros e He. apply (H (symptom_row e)). apply sort_by_In.
          apply in_or_app. left. now apply in_map.
        + intros m Hm. apply (H (medication_row m)). apply sort_by_In.
          apply in_or_app. right. now apply in_map.
      - intros [Hs Hm] row Hrow. apply sort_by_In in Hrow.
        apply in_app_or in Hrow as [Hrow|Hrow];
          apply in_map_iff in Hrow as (x & <- & Hx); cbn; auto. }
    rewrite <- Hrows. unfold Session.show_timeline.
    destruct (global_timeline st) as [|row rows] eqn:E.
    + cbn. split; [intros _ row [] | reflexivity].
    + cbn [outcome finish]. rewrite !then_returned, for_each_returned. cbn.
      split.
      * intros (_ & _ & _ & H & _) r Hr. apply print_entry_returned. auto.
      * intros H. repeat split. intros r Hr. apply print_entry_returned. auto.
  - intros q. unfold Session.symptom_frequency.
    destruct (matching_symptoms q st) as [|e es] eqn:E.
    + cbn. split; [intros _ x [] | reflexivity].
    + cbn [outcome finish]. rewrite !then_returned.
      match goal with
      | |- context [for_each ?b (enumerate1 ?l)] =>
          rewrite (for_each_enumerated_returned b
                     (fun e => strftime (sym_timestamp e) <> None) l)
      end.
      * cbn [snd say].
        split; [intros (_ & _ & _ & _ & _ & H & _); exact H|].
        intros H. repeat split. exact H.
      * intros i x. destruct (strftime (sym_timestamp x)) as [ts|].
        -- rewrite !then_returned, !say_if_returned. cbn.
           split; [intros _; discriminate | intros _; repeat split].
        -- cbn. split; [discriminate | intros H; now contradiction H].
  - intros q. unfold Session.medication_frequency.
    destruct (matching_medications q st) as [|e es] eqn:E.
    + cbn. split; [intros _ x [] | reflexivity].
    + cbn [outcome finish]. rewrite !then_returned.
      match goal with
      | |- context [for_each ?b (enumerate1 ?l)] =>
          rewrite (for_each_enumerated_returned b
                     (fun e => strftime (med_timestamp e) <> None) l)
      end.
      * cbn [snd say].
        split; [intros (_ & _ & _ & _ & _ & H & _); exact H|].
        intros H. repeat split. exact H.
      * intros i x. destruct (strftime (med_timestamp x)) as [ts|].
        -- rewrite !then_returned, !say_if_returned. cbn.
           split; [intros _; discriminate | intros _; repeat split].
        -- cbn. split; [discriminate | intros H; now contradiction H].
  - apply show_timeline_after.
  - intros q. apply symptom_frequency_after.
  - intros q. apply medication_frequency_after.
Qed.

End System.

End InvariantProps.

(* ================================================================== *)
(** * Properties of the command loop *)
(* ================================================================== *)

Module CliProps.
Import Session SessionProps Cli.

Unset Implicit Arguments.

(** ** Stripping *)

Lemma rstrip_nil s : rstrip s = "" <-> all_in is_space s = true.
Proof.
  induction s as [|c s IH]; simpl; [tauto|].
  destruct (rstrip s) as [|d r].
  - destruct (is_space c); simpl; [|split; discriminate].
    split; [intros _; now apply IH | reflexivity].
  - split; [discriminate|]. intros H. apply andb_true_iff in H as [_ H].
    apply IH in H. discriminate.
Qed.

Lemma rstrip_app_spaces x b :
  all_in is_space b = true -> rstrip (x ++ b) = rstrip x.
Proof.
  intros Hb. induction x as [|c x IH]; simpl.
  - now apply rstrip_nil.
  - now rewrite IH.
Qed.

Lemma rstrip_length s : String.length (rstrip s) <= String.length s.
Proof.
  induction s as [|c s IH]; simpl; [lia|].
  destruct (rstrip s) as [|d r]; [destruct (is_space c)|]; simpl in *; lia.
Qed.

Lemma rstrip_idem s : rstrip (rstrip s) = rstrip s.
Proof.
  induction s as [|c s IH]; simpl; [reflexivity|].
  destruct (rstrip s) as [|d r] eqn:E.
  - destruct (is_space c) eqn:Hc; simpl; [reflexivity | now rewrite Hc].
  - simpl in *. now rewrite IH.
Qed.

Lemma rstrip_prefix s : exists post, s = rstrip s ++ post.
Proof.
  induction s as [|c s [post IH]]; simpl; [now exists ""|].
  destruct (rstrip s) as [|d r].
  - destruct (is_space c).
    + now exists (String c s).
    + exists s. reflexivity.
  - exists post. simpl in *. now rewrite <- IH.
Qed.

Lemma lstrip_suffix s : exists pre, s = pre ++ lstrip s.
Proof.
  induction s as [|c s [pre IH]]; simpl; [now exists ""|].
  destruct (is_space c).
  - exists (String c pre). simpl. now rewrite <- IH.
  - now exists "".
Qed.

Lemma lstrip_length s : String.length (lstrip s) <= String.length s.
Proof.
  induction s as [|c s IH]; simpl; [lia|].
  destruct (is_space c); simpl; lia.
Qed.

Lemma lstrip_fixed s : String.length (lstrip s) = String.length s -> lstrip s = s.
Proof.
  destruct s as [|c s]; simpl; [reflexivity|].
  destruct (is_space c); [|reflexivity].
  intros H. pose proof (lstrip_length s). lia.
Qed.

Lemma rstrip_fixed s : String.length (rstrip s) = String.length s -> rstrip s = s.
Proof.
  intros H. destruct (rstrip_prefix s) as [post E].
  assert (Hl : String.length s = String.length (rstrip s) + String.length post)
    by (rewrite E at 1; apply length_app).
  destruct post; [now rewrite app_nil_r in E | simpl in Hl; lia].
Qed.

(** A text that stripping leaves alone has no white space at either end. *)
Lemma strip_fixed s : strip s = s -> lstrip s = s /\ rstrip s = s.
Proof.
  unfold strip. intros H.
  assert (Hl : lstrip s = s).
  { apply lstrip_fixed. pose proof (lstrip_length s).
    pose proof (rstrip_length (lstrip s)). rewrite H in *. lia. }
  rewrite Hl in H. auto.
Qed.

Lemma occurs_strip s : occurs (strip s) s.
Proof.
  unfold strip. destruct (lstrip_suffix s) as [pre E].
  destruct (rstrip_prefix (lstrip s)) as [post E'].
  exists pre, post. now rewrite <- E', <- E.
Qed.

Lemma rstrip_app_fixed x t :
  rstrip t = t -> t <> "" -> rstrip (x ++ t) = x ++ t.
Proof.
  intros Ht Hne. induction x as [|c x IH]; simpl; [assumption|].
  rewrite IH. destruct (x ++ t) eqn:E; [|reflexivity].
  destruct x; [now contradiction Hne | discriminate].
Qed.

Lemma lstrip_rstrip_idem s : lstrip (rstrip (lstrip s)) = rstrip (lstrip s).
Proof.
  induction s as [|c s IH]; simpl; [reflexivity|].
  destruct (is_space c) eqn:Hc; [assumption|].
  simpl. destruct (rstrip s) as [|d r]; rewrite ?Hc; simpl; now rewrite Hc.
Qed.

Lemma strip_idem s : strip (strip s) = strip s.
Proof. unfold strip. now rewrite lstrip_rstrip_idem, rstrip_idem. Qed.

Lemma strip_nil s : strip s = "" -> all_in is_space s = true.
Proof.
  unfold strip. intros H. apply rstrip_nil in H. revert H.
  induction s as [|c s IH]; simpl; [reflexivity|].
  destruct (is_space c) eqn:Hc; simpl; [exact IH|].
  rewrite Hc. simpl. auto.
Qed.

Lemma drop_app a b : drop (String.length a) (a ++ b) = b.
Proof. induction a as [|c a IH]; simpl; [now destruct b | assumption]. Qed.

Lemma occurs_drop k s : exists pre, s = pre ++ drop k s.
Proof.
  revert s; induction k as [|k IH]; intros s; simpl.
  - now exists "".
  - destruct s as [|c s]; [now exists ""|].
    destruct (IH s) as [pre E]. exists (String c pre). simpl. now rewrite <- E.
Qed.

Lemma occurs_trans a b c : occurs a b -> occurs b c -> occurs a c.
Proof.
  intros (p1 & q1 & ->) (p2 & q2 & ->).
  exists (p2 ++ p1), (q1 ++ q2). now rewrite !app_assoc.
Qed.

(** White space is not changed by [lower], and only a space lowers to a
    space. *)
Lemma lower_char_space c : lower_char c = " "%char -> c = " "%char.
Proof.
  destruct c as [[] [] [] [] [] [] [] []]; vm_compute; congruence.
Qed.

Lemma is_space_lower c : is_space c = true -> lower_char c = c.
Proof.
  destruct c as [[] [] [] [] [] [] [] []]; vm_compute; congruence.
Qed.

(** ** The argument of a command *)

(** What follows a keyword that ends in a space, in a stripped line, is
    not blank. *)
Lemma argument_not_blank kw u :
  rstrip u = u -> prefix (kw ++ " ") (lower u) = true ->
  strip (drop (String.length (kw ++ " ")) u) <> "".
Proof.
  intros Hu Hp Hblank.
  apply prefix_iff in Hp as [post Hp].
  apply lower_app_inv in Hp as (a & b & -> & Ha & _).
  apply lower_app_inv in Ha as (a1 & a2 & -> & Ha1 & Ha2).
  destruct a2 as [|c [|]]; try discriminate. simpl in Ha2.
  injection Ha2 as Hc. apply lower_char_space in Hc. subst c.
  assert (Hlen : String.length (kw ++ " ") = String.length (a1 ++ " "))
    by (rewrite <- Ha1, !length_app, lower_length; reflexivity).
  rewrite Hlen, drop_app in Hblank.
  assert (Hb : all_in is_space b = true) by now apply strip_nil.
  assert (Hr : rstrip ((a1 ++ " ") ++ b) = rstrip a1).
  { rewrite app_assoc. apply rstrip_app_spaces. simpl. now rewrite Hb. }
  rewrite Hr in Hu.
  pose proof (rstrip_length a1) as Hl. rewrite Hu in Hl.
  rewrite !length_app in Hl. simpl in Hl. lia.
Qed.

Lemma argument_ok kw raw :
  prefix (kw ++ " ") (lower (strip raw)) = true ->
  strip (drop (String.length (kw ++ " ")) (strip raw)) <> "" /\
  strip (strip (drop (String.length (kw ++ " ")) (strip raw))) =
    strip (drop (String.length (kw ++ " ")) (strip raw)) /\
  occurs (strip (drop (String.length (kw ++ " ")) (strip raw))) raw.
Proof.
  intros Hp. split; [|split].
  - apply argument_not_blank; [|assumption]. unfold strip. apply rstrip_idem.
  - apply strip_idem.
  - apply occurs_trans with (drop (String.length (kw ++ " ")) (strip raw));
      [apply occurs_strip|].
    apply occurs_trans with (strip raw); [|apply occurs_strip].
    destruct (occurs_drop (String.length (kw ++ " ")) (strip raw)) as [pre E].
    exists pre, "". now rewrite app_nil_r.
Qed.

(** X11.  A text or a name that the loop passes to a command is never
    empty, has no white space at either end, and stands in the line as
    typed, letter case included; the clock reading of the line is the one
    given to the command. *)
Theorem cli_arguments_are_trimmed (now raw : string) (c : Command) :
  dispatch now raw = Call c ->
  match c with
  | CmdNote now' text | CmdMed now' text =>
      now' = now /\ text <> "" /\ strip text = text /\ occurs text raw
  | CmdFrequency name | CmdMedFrequency name =>
      name <> "" /\ strip name = name /\ occurs name raw
  | _ => True
  end.
Proof.
  unfold dispatch.
  destruct (strip raw =? ""); [discriminate|].
  destruct (lower (strip raw) =? "exit"); [discriminate|].
  destruct (lower (strip raw) =? "help"); [discriminate|].
  destruct (prefix "note " (lower (strip raw))) eqn:P1.
  { intros [= <-]. split; [reflexivity|]. exact (argument_ok "note" raw P1). }
  destruct (prefix "med " (lower (strip raw))) eqn:P2.
  { intros [= <-]. split; [reflexivity|]. exact (argument_ok "med" raw P2). }
  destruct (lower (strip raw) =? "timeline"); [now intros [= <-]|].
  destruct (prefix "frequency " (lower (strip raw))) eqn:P3.
  { intros [= <-]. exact (argument_ok "frequency" raw P3). }
  destruct (prefix "med_frequency " (lower (strip raw))) eqn:P4.
  { intros [= <-]. exact (argument_ok "med_frequency" raw P4). }
  destruct (lower (strip raw) =? "nurse_note"); [now intros [= <-]|].
  destruct (lower (strip raw) =? "med_note"); [now intros [= <-]|].
  discriminate.
Qed.

Lemma cli_arguments_are_trimmed_witness :
  "T" = "T" /\ "Fever since Monday" <> "" /\
  strip "Fever since Monday" = "Fever since Monday" /\
  occurs "Fever since Monday" "  NOTE   Fever since Monday  ".
Proof.
  apply (cli_arguments_are_trimmed "T" "  NOTE   Fever since Monday  "
           (CmdNote "T" "Fever since Monday")).
  vm_compute. reflexivity.
Defined.

Lemma strip_keyword_text kw text c k :
  lower kw = String c k -> is_space c = false ->
  strip text = text -> text <> "" ->
  strip (kw ++ text) = kw ++ text.
Proof.
  intros Hkw Hc Ht Hne. destruct kw as [|c0 kw]; [discriminate|].
  simpl in Hkw. injection Hkw as Hc0 _.
  assert (Hs : is_space c0 = false).
  { destruct (is_space c0) eqn:E; [|reflexivity].
    pose proof (is_space_lower c0 E) as El. congruence. }
  unfold strip. simpl lstrip. rewrite Hs.
  apply (rstrip_app_fixed (String c0 kw) text); [|assumption].
  now apply strip_fixed.
Qed.

Lemma prefix_nil s : prefix "" s = true.
Proof. now destruct s. Qed.

Lemma drop_keyword kw text word :
  lower kw = word -> drop (String.length word) (kw ++ text) = text.
Proof. intros <-. rewrite lower_length. apply drop_app. Qed.

(** X12.  The keyword of a line is recognised in any letter case, and the
    text or name that follows it reaches the command exactly as typed. *)
Theorem keywords_ignore_letter_case (now kw text : string) :
  text <> "" -> strip text = text ->
  (lower kw = "note " -> dispatch now (kw ++ text) = Call (CmdNote now text)) /\
  (lower kw = "med " -> dispatch now (kw ++ text) = Call (CmdMed now text)) /\
  (lower kw = "frequency " ->
   dispatch now (kw ++ text) = Call (CmdFrequency text)) /\
  (lower kw = "med_frequency " ->
   dispatch now (kw ++ text) = Call (CmdMedFrequency text)).
Proof.
  intros Hne Ht.
  assert (Hnil : forall word, lower kw = word -> word <> "" ->
                              (kw ++ text =? "") = false).
  { intros word Hw Hword. destruct kw; [|reflexivity].
    subst word. now contradiction Hword. }
  repeat split; intros Hkw; unfold dispatch;
    rewrite (strip_keyword_text kw text _ _ Hkw eq_refl Ht Hne);
    rewrite (Hnil _ Hkw) by discriminate;
    rewrite lower_app, Hkw; cbn -[strip drop String.length].
  - rewrite prefix_nil.
    change 5 with (String.length "note ").
    now rewrite (drop_keyword kw text _ Hkw), Ht.
  - rewrite prefix_nil.
    change 4 with (String.length "med ").
    now rewrite (drop_keyword kw text _ Hkw), Ht.
  - rewrite prefix_nil.
    change 10 with (String.length "frequency ").
    now rewrite (drop_keyword kw text _ Hkw), Ht.
  - rewrite prefix_nil.
    change 14 with (String.length "med_frequency ").
    now rewrite (drop_keyword kw text _ Hkw), Ht.
Qed.

Lemma keywords_ignore_letter_case_witness :
  dispatch "T" ("MED_Frequency " ++ "Aspirin") =
  Call (CmdMedFrequency "Aspirin").
Proof.
  destruct (keywords_ignore_letter_case "T" "MED_Frequency " "Aspirin")
    as (_ & _ & _ & H); [discriminate | reflexivity |].
  apply H. reflexivity.
Defined.

(** ** The loop *)

Section Loop.
Variable Vec : Type.
Variable _get_embedding : string -> option Vec.
Variable strftime : string -> option string.
Variable upper : string -> string.
Variable _generate_deterministic : string -> option string.
Variable error_text : Command -> System Vec -> string.

Set Default Proof Using "Type".

Local Abbreviation loop :=
  (Cli.loop _get_embedding strftime upper _generate_deterministic error_text).
Local Abbreviation exec :=
  (Session.exec _get_embedding strftime upper _generate_deterministic).

Lemma loop_state inputs : forall st : System Vec,
  fst (loop inputs st) = exec (commands_of inputs) st.
Proof.
  induction inputs as [|[now raw|] inputs IH]; intros st; simpl;
    [reflexivity| |reflexivity].
  destruct (dispatch now raw); simpl; auto.
Qed.

Lemma loop_stops pre now raw rest : forall st : System Vec,
  dispatch now raw = Exit ->
  loop (pre ++ Line now raw :: rest) st = loop (pre ++ [Line now raw]) st.
Proof.
  induction pre as [|[n r|] pre IH]; intros st H; simpl.
  - now rewrite H.
  - destruct (dispatch n r); simpl; rewrite ?IH; auto.
  - reflexivity.
Qed.

Lemma loop_interrupted pre rest : forall st : System Vec,
  loop (pre ++ Interrupt :: rest) st = loop (pre ++ [Interrupt]) st.
Proof.
  induction pre as [|[n r|] pre IH]; intros st; simpl; try reflexivity.
  destruct (dispatch n r); simpl; rewrite ?IH; auto.
Qed.

(** X13.  The state a session reaches is the state after the commands of
    its lines, in order, up to the first [exit] or Ctrl-C: blank lines,
    [help] and unknown commands change nothing, a command that raised does
    not end the session, and what is typed after [exit] or Ctrl-C has no
    effect on the state or on the screen.  The state is therefore a
    reachable one. *)
Theorem session_runs_commands_until_exit (inputs : list Input)
    (st : System Vec) :
  fst (loop inputs st) = exec (commands_of inputs) st /\
  Session.reachable _get_embedding strftime upper _generate_deterministic
    (fst (Cli.run _get_embedding strftime upper _generate_deterministic
            error_text inputs)) /\
  (forall pre now raw rest,
     dispatch now raw = Exit ->
     loop (pre ++ Line now raw :: rest) st =
     loop (pre ++ [Line now raw]) st) /\
  (forall pre rest,
     loop (pre ++ Interrupt :: rest) st = loop (pre ++ [Interrupt]) st).
Proof.
  split; [apply loop_state|]. split; [|split].
  - unfold run. cbn [fst]. rewrite loop_state. apply exec_reachable.
  - intros pre now raw rest H. now apply loop_stops.
  - intros pre rest. apply loop_interrupted.
Qed.

End Loop.

End CliProps.

(* ================================================================== *)
(** * Meal keywords *)
(* ================================================================== *)

Module MealProps.
Import Session.
Unset Implicit Arguments.

Lemma occurs_inside (a p b t : string) : occurs (a ++ p ++ b) t -> occurs p t.
Proof.
  intros (pre & post & ->). exists (pre ++ a), (b ++ post).
  now rewrite !PyStrFacts.app_assoc.
Qed.

Lemma first_key_found (rows : list (string * list string)) (t key : string)
    (patterns : list string) (p : string) :
  In (key, patterns) rows -> In p patterns -> occurs p t ->
  first_key rows t <> None.
Proof.
  intros Hrow Hp Hocc E.
  induction rows as [|[k ps] rows IH]; [destruct Hrow|].
  simpl in E. destruct (first_in ps t) eqn:F; [discriminate|].
  destruct Hrow as [[= -> ->]|Hrow]; [|now apply IH].
  apply contains_iff in Hocc.
  rewrite (proj1 (first_in_none patterns t) F p Hp) in Hocc. discriminate.
Qed.

Lemma clock_time_starts_with_digit (w : string) :
  clock_time w -> exists c rest, w = String c rest /\ is_digit c = true.
Proof.
  intros (hour & colon & minute & gap & marker & -> & Hh & _).
  destruct Hh as [[Hl Hd]|[Hl Hd]]; destruct hour as [|c h];
    try discriminate Hl; simpl in Hd; apply andb_true_iff in Hd as [Hc _];
    simpl; eauto.
Qed.

Lemma clock_time_not_sentinel (w : string) :
  clock_time w -> w <> "unspecified time".
Proof.
  intros H E. apply clock_time_starts_with_digit in H as (c & rest & -> & Hc).
  injection E as -> _. vm_compute in Hc. discriminate Hc.
Qed.

Lemma time_of_day_specified (text : string) :
  first_key time_patterns (lower text) <> None ->
  _extract_time_of_day text <> "unspecified time".
Proof.
  intros H. unfold _extract_time_of_day.
  destruct (search clock_pattern (lower text)) as [m|] eqn:S.
  - apply clock_time_not_sentinel, clock_pattern_words.
    apply search_some in S as (pre & (post & _ & L) & _). exact L.
  - destruct (first_key time_patterns (lower text)) as [k|] eqn:K;
      [|now contradiction H].
    assert (Hk : In k (map fst time_patterns)).
    { eapply InvariantProps.first_key_in. exact K. }
    simpl in Hk. intros ->.
    repeat (destruct Hk as [Hk|Hk]; [discriminate Hk|]). destruct Hk.
Qed.

(** X2.  A food keyword that names a meal is read twice.  Whenever
    "after" or "before" followed by "breakfast", "lunch" or "dinner" occurs
    in the lowercase text, a food relation is found and the time of day is
    not the sentinel "unspecified time", since the meal is also a keyword
    of [time_patterns].  With "after breakfast" the relation is "after
    food" and, unless a clock time occurs, the time of day is "morning";
    the symptom event [record_symptom] appends carries both. *)
Theorem meal_keywords_set_food_relation_and_time (text : string) :
  (forall prefix meal,
     In prefix ["after"; "before"] ->
     In meal ["breakfast"; "lunch"; "dinner"] ->
     occurs (prefix ++ " " ++ meal) (lower text) ->
     _extract_food_relation text <> None /\
     _extract_time_of_day text <> "unspecified time") /\
  (occurs "after breakfast" (lower text) ->
   _extract_food_relation text = Some "after food" /\
   (~ matches clock_pattern (lower text) ->
    _extract_time_of_day text = "morning")) /\
  (forall (Vec : Type) (_get_embedding : string -> option Vec)
          (now : string) (st : System Vec),
     occurs "after breakfast" (lower text) ->
     ~ matches clock_pattern (lower text) ->
     _extract_symptom text <> None ->
     exists e,
       symptom_events (after (record_symptom _get_embedding now text st)) =
         (symptom_events st ++ [e])%list /\
       sym_time_of_day e = "morning" /\
       sym_relation_to_food e = Some "after food").
Proof.
  assert (Hfood : occurs "after breakfast" (lower text) ->
                  _extract_food_relation text = Some "after food").
  { intros Hocc. unfold _extract_food_relation.
    change food_patterns
      with ([] ++ ("after food", snd (nth 0 food_patterns ("", [])))
               :: skipn 1 food_patterns)%list.
    apply first_key_row with "after breakfast";
      [intros key patterns p [] | simpl; auto 10 | assumption]. }
  assert (Htime : occurs "after breakfast" (lower text) ->
                  ~ matches clock_pattern (lower text) ->
                  _extract_time_of_day text = "morning").
  { intros Hocc Hclock. unfold _extract_time_of_day.
    apply search_none in Hclock. rewrite Hclock.
    change time_patterns
      with ([] ++ ("morning", ["morning"; "am"; "breakfast"])
               :: skipn 1 time_patterns)%list.
    rewrite (@first_key_row [] "morning" ["morning"; "am"; "breakfast"]
               (skipn 1 time_patterns) (lower text) "breakfast");
      [reflexivity | intros key patterns p [] | simpl; auto |].
    apply (occurs_inside "after " "breakfast" ""). exact Hocc. }
  split; [|split].
  - intros prefix meal Hprefix Hmeal Hocc. split.
    + unfold _extract_food_relation.
      assert (Hrow : exists key patterns,
                 In (key, patterns) food_patterns /\
                 In (prefix ++ " " ++ meal) patterns).
      { simpl in Hprefix, Hmeal.
        destruct Hprefix as [<-|[<-|[]]];
          [exists "after food" | exists "before food"]; eexists;
          (split; [simpl; eauto 10|]);
          destruct Hmeal as [<-|[<-|[<-|[]]]]; simpl; auto 10. }
      destruct Hrow as (key & patterns & Hrow & Hp).
      now apply first_key_found with key patterns (prefix ++ " " ++ meal).
    + apply time_of_day_specified.
      assert (Hm : occurs meal (lower text)).
      { apply (occurs_inside (prefix ++ " ") meal "").
        now rewrite PyStrFacts.app_nil_r, PyStrFacts.app_assoc. }
      simpl in Hmeal. destruct Hmeal as [<-|[<-|[<-|[]]]].
      * apply first_key_found
          with "morning" ["morning"; "am"; "breakfast"] "breakfast";
          simpl; auto.
      * apply first_key_found
          with "afternoon" ["afternoon"; "lunch"; "noon"] "lunch";
          simpl; auto.
      * apply first_key_found with "evening" ["evening"; "dinner"] "dinner";
          simpl; auto.
  - intros Hocc. split; [now apply Hfood | now apply Htime].
  - intros Vec _get_embedding now st Hocc Hclock Hsym.
    exists (symptom_event now text (fmt (_extract_symptom text))).
    destruct (SessionProps.record_symptom_appends Vec _get_embedding now text st Hsym)
      as [-> _].
    split; [reflexivity|]. unfold symptom_event. cbn [sym_time_of_day sym_relation_to_food].
    split; [now apply Htime | now apply Hfood].
Qed.

Lemma meal_keywords_set_food_relation_and_time_witness :
  _extract_food_relation "Patient has headache after breakfast" =
    Some "after food" /\
  _extract_time_of_day "Patient has headache after breakfast" = "morning".
Proof.
  destruct (meal_keywords_set_food_relation_and_time
              "Patient has headache after breakfast") as (_ & H & _).
  destruct H as [Hfood Htime].
  - apply contains_iff. vm_compute. reflexivity.
  - split; [exact Hfood|]. apply Htime.
    apply search_none. vm_compute. reflexivity.
Defined.

End MealProps.

(* ================================================================== *)
(** * The generator on dictionaries *)
(* ================================================================== *)

Module DictProps.
Import Dicts.
Unset Implicit Arguments.

Section Keys.
Variable A : Type.
Variable key : A -> string.

Lemma filter_perm (f : A -> bool) (l1 l2 : list A) :
  Permutation l1 l2 -> Permutation (filter f l1) (filter f l2).
Proof.
  induction 1 as [|x l1 l2 _ IH|x y l|l1 l2 l3 _ IH1 _ IH2]; simpl.
  - constructor.
  - destruct (f x); [now constructor | assumption].
  - destruct (f x), (f y); try reflexivity. apply perm_swap.
  - now transitivity (filter f l2).
Qed.

Lemma filter_key_absent (k : string) (l : list A) :
  ~ In k (map key l) -> filter (fun a => key a =? k) l = [].
Proof.
  induction l as [|x l IH]; simpl; intros H; [reflexivity|].
  destruct (key x =? k) eqn:E.
  - apply String.eqb_eq in E. exfalso. apply H. now left.
  - apply IH. intros Hin. apply H. now right.
Qed.

Lemma filter_key_short (k : string) (l : list A) :
  NoDup (map key l) ->
  (List.length (filter (fun a => (key a =? k)%string) l) <= 1)%nat.
Proof.
  induction l as [|x l IH]; simpl; intros H; [lia|].
  apply NoDup_cons_iff in H as [Hx Hl].
  destruct (key x =? k) eqn:E; [|now apply IH].
  apply String.eqb_eq in E. subst k.
  rewrite filter_key_absent by assumption. simpl. lia.
Qed.

(** With distinct keys the sorted list depends on the elements only, not
    on their order in the input. *)
Lemma sort_by_order_free (l1 l2 : list A) :
  Permutation l1 l2 -> NoDup (map key l1) ->
  sort_by key l1 = sort_by key l2.
Proof.
  intros Hperm Hnd. symmetry. apply sort_by_unique.
  - apply sort_by_ascending.
  - intros k. rewrite (sort_by_stable key l2 k).
    assert (Hp := filter_perm (fun a => key a =? k) l1 l2 Hperm).
    assert (Hlen := filter_key_short k l1 Hnd).
    destruct (filter (fun a => key a =? k) l1) as [|x [|y r]] eqn:E.
    + now apply Permutation_nil.
    + now apply Permutation_length_1_inv.
    + simpl in Hlen. lia.
Qed.

Lemma sort_by_map (B : Type) (f : B -> A) (l : list B) :
  sort_by key (map f l) = map f (sort_by (fun b => key (f b)) l).
Proof.
  assert (Hins : forall x l, insert_by key (f x) (map f l)
                             = map f (insert_by (fun b => key (f b)) x l)).
  { intros x l0. induction l0 as [|y l0 IH]; simpl; [reflexivity|].
    destruct (String.leb (key (f x)) (key (f y))); simpl; [reflexivity|].
    now rewrite IH. }
  induction l as [|x l IH]; simpl; [reflexivity|].
  change (fold_right (insert_by key) [] (map f l)) with (sort_by key (map f l)).
  rewrite IH. apply Hins.
Qed.

End Keys.

Lemma sort_by_ext (A : Type) (key1 key2 : A -> string) (l : list A) :
  (forall x, key1 x = key2 x) -> sort_by key1 l = sort_by key2 l.
Proof.
  intros H.
  assert (Hins : forall x l0, insert_by key1 x l0 = insert_by key2 x l0).
  { intros x l0. induction l0 as [|y l0 IH]; simpl; [reflexivity|].
    now rewrite IH, !H. }
  unfold sort_by. induction l as [|x l IH]; simpl; [reflexivity|].
  now rewrite IH, Hins.
Qed.

Lemma symptom_entry_of_record (e : SymptomEvent) :
  symptom_entry (symptom_dict e) = Notes.symptom_entry e.
Proof. destruct e as [s t f q ts raw]. reflexivity. Qed.

Lemma medication_entry_of_record (e : MedicationEvent) :
  medication_entry (medication_dict e) = Notes.medication_entry e.
Proof. destruct e as [m d t f r ts n raw]. reflexivity. Qed.

Lemma summary_entry_of_record (e : Event) :
  summary_entry (event_dict e) = Some (Notes.summary_entry e).
Proof.
  destruct e as [[s t f q ts raw]|[m d t f r ts n [raw|]]]; reflexivity.
Qed.

Lemma timestamp_of_record (e : Event) :
  get (event_dict e) "timestamp" (Some "") = Some (timestamp e).
Proof.
  destruct e as [[s t f q ts raw]|[m d t f r ts n raw]]; reflexivity.
Qed.

Lemma clauses_of_records (l : list Event) :
  clauses (map event_dict l) = map Notes.summary_entry l.
Proof.
  unfold clauses. induction l as [|e l IH]; simpl; [reflexivity|].
  now rewrite summary_entry_of_record, IH.
Qed.

Lemma py_sorted_of_records (l : list Event) :
  py_sorted (fun x => get x "timestamp" (Some "")) (map event_dict l) =
  Some (map event_dict (sort_by timestamp l)).
Proof.
  unfold py_sorted.
  assert (H : existsb (fun x => match get x "timestamp" (Some "") with
                                | None => true
                                | Some _ => false
                                end) (map event_dict l) = false).
  { induction l as [|e l IH]; simpl; [reflexivity|].
    now rewrite timestamp_of_record, IH. }
  rewrite H, andb_false_r. f_equal.
  rewrite sort_by_map. f_equal.
  apply sort_by_ext. intros e. now rewrite timestamp_of_record.
Qed.

(** X14.  The summary does not depend on the order in which the events are
    handed over, as long as no two of them have the same timestamp: the
    prompt sent and the text returned are the same for every arrangement
    of the list. *)
Theorem timeline_summary_ignores_input_order (gen : string -> option string)
    (l1 l2 : list Event) :
  Permutation l1 l2 -> NoDup (map timestamp l1) ->
  Notes.generate_timeline_summary gen l1 =
  Notes.generate_timeline_summary gen l2.
Proof.
  intros Hperm Hnd. unfold Notes.generate_timeline_summary.
  destruct l1 as [|x l1].
  - apply Permutation_nil in Hperm. now subst.
  - destruct l2 as [|y l2].
    + symmetry in Hperm. apply Permutation_nil in Hperm. discriminate.
    + now rewrite (sort_by_order_free Event timestamp _ _ Hperm Hnd).
Qed.

Lemma timeline_summary_ignores_input_order_witness :
  Notes.generate_timeline_summary Stubs.generation_echo
    (map Symptom (Session.symptom_events (Session.init unit))
     ++ map Medication (Session.medication_events (Session.init unit)))%list =
  Notes.generate_timeline_summary Stubs.generation_echo
    (rev (map Symptom (Session.symptom_events (Session.init unit))
          ++ map Medication (Session.medication_events (Session.init unit))))%list.
Proof.
  apply timeline_summary_ignores_input_order.
  - apply Permutation_rev.
  - simpl. repeat constructor; simpl; intuition discriminate.
Defined.

(** X15.  The events [main.py] stores have every key the generator reads:
    on their dictionaries the three generators never fall back on a
    default of [get], the sort never meets a missing timestamp, and no
    event is skipped.  Prompt and text are those computed from the fields
    of the events. *)
Theorem generators_read_stored_events (gen : string -> option string) :
  (forall l : list SymptomEvent,
     generate_nursing_note gen (map symptom_dict l) =
     Notes.generate_nursing_note gen l) /\
  (forall l : list MedicationEvent,
     generate_medication_note gen (map medication_dict l) =
     Notes.generate_medication_note gen l) /\
  (forall l : list Event,
     generate_timeline_summary gen (map event_dict l) =
     Notes.generate_timeline_summary gen l).
Proof.
  split; [|split]; intros [|e l]; try reflexivity.
  - unfold generate_nursing_note, Notes.generate_nursing_note.
    cbn [map]. rewrite symptom_entry_of_record, map_map.
    now rewrite (map_ext _ _ symptom_entry_of_record).
  - unfold generate_medication_note, Notes.generate_medication_note.
    cbn [map]. rewrite medication_entry_of_record, map_map.
    now rewrite (map_ext _ _ medication_entry_of_record).
  - unfold generate_timeline_summary, Notes.generate_timeline_summary.
    change (event_dict e :: map event_dict l) with (map event_dict (e :: l)).
    rewrite py_sorted_of_records, clauses_of_records.
    reflexivity.
Qed.

Local Abbreviation ts_key := (fun x : dict => fmt (get x "timestamp" (Some ""))).

Lemma summary_entry_described (e : dict) :
  described e = false -> summary_entry e = None.
Proof.
  unfold described, summary_entry. intros H.
  apply orb_false_iff in H as [-> ->]. reflexivity.
Qed.

Lemma clauses_filter (l : list dict) :
  clauses (filter described l) = clauses l.
Proof.
  unfold clauses. induction l as [|e l IH]; simpl; [reflexivity|].
  destruct (described e) eqn:D; simpl; [now rewrite IH|].
  now rewrite (summary_entry_described e D), IH.
Qed.

Lemma clauses_none (l : list dict) : filter described l = [] -> clauses l = [].
Proof. intros H. now rewrite <- clauses_filter, H. Qed.

Section Filter.
Variable A : Type.
Variable key : A -> string.
Variable p : A -> bool.

Lemma insert_by_filter_out (x : A) (l : list A) :
  p x = false -> filter p (insert_by key x l) = filter p l.
Proof.
  intros Hx. induction l as [|y l IH]; simpl; [now rewrite Hx|].
  destruct (String.leb (key x) (key y)); simpl; [now rewrite Hx|].
  now rewrite IH.
Qed.

Lemma insert_by_filter_in (x : A) (l : list A) :
  p x = true -> ascending key l ->
  filter p (insert_by key x l) = insert_by key x (filter p l).
Proof.
  intros Hx. induction l as [|y l IH]; simpl; intros Hasc; [now rewrite Hx|].
  destruct (String.leb (key x) (key y)) eqn:E.
  - simpl. rewrite Hx. destruct (p y) eqn:Hy.
    + simpl. now rewrite E.
    + assert (Hall : forall z, In z l -> String.leb (key x) (key z) = true).
      { intros z Hz. apply string_leb_trans with (key y); [assumption|].
        now apply (ascending_head Hasc). }
      clear IH Hasc. induction l as [|z l IH]; simpl; [reflexivity|].
      destruct (p z) eqn:Hz.
      * simpl. rewrite (Hall z) by now left. reflexivity.
      * apply IH. intros w Hw. apply Hall. now right.
  - simpl. destruct (p y) eqn:Hy.
    + simpl. rewrite E. f_equal. apply IH. now apply Sorted_inv in Hasc.
    + apply IH. now apply Sorted_inv in Hasc.
Qed.

(** Sorting and selecting commute. *)
Lemma sort_by_filter (l : list A) :
  filter p (sort_by key l) = sort_by key (filter p l).
Proof.
  induction l as [|x l IH]; [reflexivity|].
  change (sort_by key (x :: l)) with (insert_by key x (sort_by key l)).
  cbn [filter]. destruct (p x) eqn:Hx.
  - rewrite insert_by_filter_in by (assumption || apply sort_by_ascending).
    now rewrite IH.
  - now rewrite insert_by_filter_out.
Qed.
End Filter.

Lemma py_sorted_strings (l : list dict) :
  (forall e, In e l -> get e "timestamp" (Some "") <> None) ->
  py_sorted (fun x => get x "timestamp" (Some "")) l = Some (sort_by ts_key l).
Proof.
  intros H. unfold py_sorted.
  replace (existsb _ l) with false; [now rewrite andb_false_r|].
  symmetry. induction l as [|e l IH]; simpl; [reflexivity|].
  destruct (get e "timestamp" (Some "")) eqn:E.
  - apply IH. intros e' He'. apply H. now right.
  - exfalso. apply (H e); [now left | assumption].
Qed.

(** X16.  What [generate_timeline_summary] does with dictionaries other
    than those of [main.py].  A list of two events or more one of which
    has the timestamp [None] makes the sort raise, before the service is
    called.  When every timestamp is a string, events that have neither a
    ["symptom"] nor a ["medication"] key are passed over: the result is
    that of the list without them, unless no event is left, in which
    case the service is still called, with an empty list of events, where
    the empty input is answered without calling it.  An event that has
    both keys is described as a symptom. *)
Theorem timeline_summary_skips_unknown_events
    (gen : string -> option string) (events : list dict) :
  ((2 <= List.length events)%nat ->
   (exists e, In e events /\ get e "timestamp" (Some "") = None) ->
   generate_timeline_summary gen events =
     {| Notes.prompts := []; Notes.text := None |}) /\
  ((forall e, In e events -> get e "timestamp" (Some "") <> None) ->
   filter described events <> [] ->
   generate_timeline_summary gen events =
   generate_timeline_summary gen (filter described events)) /\
  ((forall e, In e events -> get e "timestamp" (Some "") <> None) ->
   events <> [] -> filter described events = [] ->
   Notes.prompts (generate_timeline_summary gen events) =
     [ "Write a brief chronological nursing summary of these documented events. "
       ++ "Do not interpret or diagnose. Only summarize what was documented. "
       ++ "Events: . Summary:" ] /\
   Notes.prompts (generate_timeline_summary gen []) = []) /\
  (forall e, has e "symptom" = true ->
     summary_entry e =
       Some ("Symptom: " ++ fmt (get e "symptom" None) ++ " at "
             ++ fmt (get e "time_of_day" (Some "unspecified time")))).
Proof.
  split; [|split; [|split]].
  - intros Hlen (e & He & Hts). unfold generate_timeline_summary.
    destruct events as [|x l]; [destruct He|].
    unfold py_sorted.
    replace (existsb _ (x :: l)) with true.
    + apply Nat.leb_le in Hlen. now rewrite Hlen.
    + symmetry. apply existsb_exists. exists e. now rewrite Hts.
  - intros Hts Hne. unfold generate_timeline_summary.
    destruct (filter described events) as [|y l'] eqn:F; [now contradiction Hne|].
    destruct events as [|x l]; [discriminate F|].
    rewrite <- F.
    rewrite (py_sorted_strings (x :: l) Hts).
    rewrite (py_sorted_strings (filter described (x :: l))).
    + rewrite <- sort_by_filter, clauses_filter. reflexivity.
    + intros e He. apply filter_In in He as [He _]. now apply Hts.
  - intros Hts Hne F. split; [|reflexivity].
    unfold generate_timeline_summary.
    destruct events as [|x l]; [now contradiction Hne|].
    rewrite (py_sorted_strings (x :: l) Hts).
    rewrite clauses_none; [reflexivity|].
    rewrite sort_by_filter, F. reflexivity.
  - intros e H. unfold summary_entry. now rewrite H.
Qed.

Lemma timeline_summary_skips_unknown_events_witness :
  generate_timeline_summary Stubs.generation_echo
    [ [("symptom", Some "fever"); ("timestamp", Some "2026-01-09T10:00")];
      [("timestamp", None)] ] =
    {| Notes.prompts := []; Notes.text := None |} /\
  generate_timeline_summary Stubs.generation_echo
    [ [("note", Some "vitals taken"); ("timestamp", Some "2026-01-09T11:00")];
      [("symptom", Some "fever"); ("timestamp", Some "2026-01-09T10:00")] ] =
  generate_timeline_summary Stubs.generation_echo
    [ [("symptom", Some "fever"); ("timestamp", Some "2026-01-09T10:00")] ].
Proof.
  split.
  - destruct (timeline_summary_skips_unknown_events Stubs.generation_echo
                [ [("symptom", Some "fever"); ("timestamp", Some "2026-01-09T10:00")];
                  [("timestamp", None)] ]) as (H & _).
    apply H; [simpl; lia|].
    exists [("timestamp", None)]. split; [simpl; auto | reflexivity].
  - destruct (timeline_summary_skips_unknown_events Stubs.generation_echo
                [ [("note", Some "vitals taken"); ("timestamp", Some "2026-01-09T11:00")];
                  [("symptom", Some "fever"); ("timestamp", Some "2026-01-09T10:00")] ])
      as (_ & H & _).
    apply H.
    + intros e [<-|[<-|[]]]; discriminate.
    + discriminate.
Defined.

End DictProps.

(* ================================================================== *)
(** * Properties of the chat bridge *)
(* ================================================================== *)

Module ApiProps.
Import Dicts Api.
Unset Implicit Arguments.

(** ** Stripping and searching *)

Lemma contains_lstrip (c : ascii) (k s : string) :
  is_space c = false ->
  contains (String c k) (Cli.lstrip s) = contains (String c k) s.
Proof.
  intros Hc. induction s as [|d s IH]; [reflexivity|].
  cbn [Cli.lstrip]. destruct (is_space d) eqn:Hd; [|reflexivity].
  rewrite IH, (contains_unfold (String c k) (String d s)).
  replace (prefix (String c k) (String d s)) with false; [reflexivity|].
  simpl. destruct (ascii_dec c d) as [->|]; [congruence | reflexivity].
Qed.

Lemma rstrip_cons_fixed (c : ascii) (p : string) :
  p <> "" -> Cli.rstrip (String c p) = String c p -> Cli.rstrip p = p.
Proof.
  intros Hne. simpl. destruct (Cli.rstrip p) as [|d r] eqn:E.
  - destruct (is_space c); intros H; [discriminate H|].
    injection H as <-. now contradiction Hne.
  - intros H. now injection H.
Qed.

Lemma rstrip_keeps_front (p : string) : forall post,
  Cli.rstrip p = p -> p <> "" ->
  exists post', Cli.rstrip (p ++ post) = p ++ post'.
Proof.
  induction p as [|c p IH]; intros post Hp Hne; [now contradiction Hne|].
  destruct p as [|d p].
  - simpl in Hp. destruct (is_space c) eqn:Hc; [discriminate Hp|].
    simpl. destruct (Cli.rstrip post) as [|e r]; rewrite ?Hc; eauto.
  - assert (Hp' : Cli.rstrip (String d p) = String d p)
      by (apply rstrip_cons_fixed with c; [discriminate | assumption]).
    destruct (IH post Hp') as [post' E]; [discriminate|].
    change (String c (String d p) ++ post) with (String c (String d p ++ post)).
    cbn [Cli.rstrip]. rewrite E. simpl. eauto.
Qed.

Lemma prefix_rstrip (p s : string) :
  Cli.rstrip p = p -> p <> "" -> prefix p (Cli.rstrip s) = prefix p s.
Proof.
  intros Hp Hne. destruct (prefix p s) eqn:E.
  - apply prefix_iff in E as [post ->].
    destruct (rstrip_keeps_front p post Hp Hne) as [post' ->].
    apply prefix_iff. eauto.
  - destruct (prefix p (Cli.rstrip s)) eqn:E'; [|reflexivity].
    apply prefix_iff in E' as [x Hx].
    destruct (CliProps.rstrip_prefix s) as [post Hs].
    rewrite Hx in Hs. rewrite <- E. symmetry. apply prefix_iff.
    exists (x ++ post). now rewrite <- PyStrFacts.app_assoc.
Qed.

Lemma contains_rstrip (p s : string) :
  Cli.rstrip p = p -> p <> "" ->
  contains p (Cli.rstrip s) = contains p s.
Proof.
  intros Hp Hne. induction s as [|d s IH]; [reflexivity|].
  rewrite (contains_unfold p (String d s)), <- (prefix_rstrip p (String d s) Hp Hne).
  rewrite <- IH.
  rewrite (contains_unfold p (Cli.rstrip (String d s))).
  destruct (prefix p (Cli.rstrip (String d s))); [reflexivity|].
  cbn [Cli.rstrip]. destruct (Cli.rstrip s) as [|e r] eqn:R.
  - destruct (is_space d); [|reflexivity].
    destruct p; [now contradiction Hne | reflexivity].
  - reflexivity.
Qed.

(** A word that neither starts nor ends with white space is found in the
    stripped text exactly when it is found in the text. *)
Lemma contains_strip (c : ascii) (k s : string) :
  is_space c = false -> Cli.rstrip (String c k) = String c k ->
  contains (String c k) (Cli.strip s) = contains (String c k) s.
Proof.
  intros Hc Hr. unfold Cli.strip.
  rewrite contains_rstrip by (assumption || discriminate).
  now apply contains_lstrip.
Qed.

(** ** The two extractors *)

Lemma first_in_app (a b : list string) (t : string) :
  first_in (a ++ b)%list t =
  match first_in a t with
  | Some v => Some v
  | None => first_in b t
  end.
Proof.
  unfold first_in. induction a as [|x a IH]; simpl; [reflexivity|].
  destruct (contains x t); [reflexivity | exact IH].
Qed.

Lemma fallback_first_in (known extra : list string) (t : string) :
  (forall v, In v known -> ~ In v extra) ->
  (forall v, first_in known t = Some v ->
             first_in (known ++ extra)%list t = Some v) /\
  (forall v, first_in (known ++ extra)%list t = Some v -> In v known ->
             first_in known t = Some v) /\
  (forall v, first_in (known ++ extra)%list t = Some v -> In v extra ->
             first_in known t = None).
Proof.
  intros Hdisj. rewrite first_in_app.
  destruct (first_in known t) as [u|] eqn:E; repeat split.
  - intros v H. exact H.
  - intros v H _. exact H.
  - intros v [= <-] Hv. exfalso. apply (Hdisj u); [|assumption].
    eapply InvariantProps.first_in_In. exact E.
  - intros v H. discriminate H.
  - intros v H Hv. apply InvariantProps.first_in_In in H. exfalso.
    now apply (Hdisj v).
Qed.

(** X17.  The fallback extractor knows the first fourteen symptoms and the
    first nine medications of the full vocabularies, in the same order.
    What it finds, the full extractor finds too; where the full extractor
    finds one of the words the fallback knows, so does the fallback; and
    where it finds one of the others, the fallback finds nothing.  For
    the time of day the fallback reads the same keywords; it has no
    pattern for clock times, and its sentinel is "unspecified" where the
    full extractor has "unspecified time". *)
Theorem fallback_extractor_agrees_with_full (text : string) :
  (forall v, FallbackSystem._extract_symptom text = Some v ->
             Extractor._extract_symptom text = Some v) /\
  (forall v, Extractor._extract_symptom text = Some v ->
             (In v FallbackSystem.symptoms ->
              FallbackSystem._extract_symptom text = Some v) /\
             (In v full_only_symptoms ->
              FallbackSystem._extract_symptom text = None)) /\
  (forall v, FallbackSystem._extract_medication text = Some v ->
             Extractor._extract_medication text = Some v) /\
  (forall v, Extractor._extract_medication text = Some v ->
             (In v FallbackSystem.medications ->
              FallbackSystem._extract_medication text = Some v) /\
             (In v full_only_medications ->
              FallbackSystem._extract_medication text = None)) /\
  (~ matches clock_pattern (lower text) ->
   _extract_time_of_day text =
     if FallbackSystem._extract_time text =? "unspecified"
     then "unspecified time" else FallbackSystem._extract_time text) /\
  (matches clock_pattern (lower text) ->
   In (FallbackSystem._extract_time text)
      ["morning"; "afternoon"; "evening"; "night"]).
Proof.
  assert (Hs : forall v, In v FallbackSystem.symptoms ->
                         ~ In v full_only_symptoms).
  { intros v Hv Hx. simpl in Hv, Hx.
    repeat (destruct Hv as [<-|Hv];
            [repeat (destruct Hx as [Hx|Hx]; [discriminate Hx|]); destruct Hx|]).
    destruct Hv. }
  assert (Hm : forall v, In v FallbackSystem.medications ->
                         ~ In v full_only_medications).
  { intros v Hv Hx. simpl in Hv, Hx.
    repeat (destruct Hv as [<-|Hv];
            [repeat (destruct Hx as [Hx|Hx]; [discriminate Hx|]); destruct Hx|]).
    destruct Hv. }
  destruct (fallback_first_in FallbackSystem.symptoms full_only_symptoms
              (lower text) Hs) as (S1 & S2 & S3).
  destruct (fallback_first_in FallbackSystem.medications full_only_medications
              (lower text) Hm) as (M1 & M2 & M3).
  split; [exact S1|]. split; [intros v H; split; [now apply S2 | now apply S3]|].
  split; [exact M1|]. split; [intros v H; split; [now apply M2 | now apply M3]|].
  split.
  - intros Hclock. unfold _extract_time_of_day, FallbackSystem._extract_time.
    apply search_none in Hclock. rewrite Hclock.
    change FallbackSystem.time_words with time_patterns.
    destruct (first_key time_patterns (lower text)) as [k|] eqn:K;
      [|reflexivity].
    apply InvariantProps.first_key_in in K. simpl in K.
    destruct K as [<-|[<-|[<-|[<-|[]]]]]; reflexivity.
  - intros (pre & w & post & E & L).
    apply clock_pattern_words, clock_time_body in L
      as (b & m & -> & _ & Hmark).
    unfold FallbackSystem._extract_time.
    destruct (first_key FallbackSystem.time_words (lower text)) as [k|] eqn:K.
    + apply InvariantProps.first_key_in in K. exact K.
    + exfalso. revert K.
      destruct Hmark as [->| ->].
      * apply (MealProps.first_key_found _ _ "morning"
                 ["morning"; "am"; "breakfast"] "am"); simpl; auto.
        exists (pre ++ b), post. rewrite E.
        now rewrite !PyStrFacts.app_assoc.
      * apply (MealProps.first_key_found _ _ "night"
                 ["night"; "bedtime"; "pm"] "pm"); simpl; auto.
        exists (pre ++ b), post. rewrite E.
        now rewrite !PyStrFacts.app_assoc.
Qed.

(** ** One chat request *)

Lemma api_symptom_truthy (srv : Server) (text : string) :
  truthy (_extract_symptom srv text) = false <->
  _extract_symptom srv text = None.
Proof.
  unfold _extract_symptom. destruct (mode srv).
  - apply SessionProps.extract_symptom_truthy.
  - split; [|now intros ->].
    destruct (FallbackSystem._extract_symptom text) as [v|] eqn:E;
      [|reflexivity].
    apply InvariantProps.first_in_In in E. simpl in E.
    repeat (destruct E as [<-|E]; [discriminate|]). destruct E.
Qed.

Lemma api_medication_truthy (srv : Server) (text : string) :
  truthy (_extract_medication srv text) = false <->
  _extract_medication srv text = None.
Proof.
  unfold _extract_medication. destruct (mode srv).
  - apply SessionProps.extract_medication_truthy.
  - split; [|now intros ->].
    destruct (FallbackSystem._extract_medication text) as [v|] eqn:E;
      [|reflexivity].
    apply InvariantProps.first_in_In in E. simpl in E.
    repeat (destruct E as [<-|E]; [discriminate|]). destruct E.
Qed.

Lemma found_truthy (o : option string) :
  (truthy o = false <-> o = None) -> forall v, o = Some v -> truthy o = true.
Proof.
  intros [H _] v E. destruct (truthy o); [reflexivity|].
  rewrite (H eq_refl) in E. discriminate E.
Qed.

Section Chat.
Variable strftime : string -> option string.
Variable str : Failure -> string.
Set Default Proof Using "Type".

Local Abbreviation process_chat_input := (Api.process_chat_input strftime str).
Local Abbreviation get_timeline := (Api.get_timeline strftime str).
Local Abbreviation chat := (Api.chat strftime str).
Local Abbreviation serving := (Api.serving strftime str).

Lemma chat_input_symptom (now : Clock) (text s : string) (srv : Server) :
  _extract_symptom srv text = Some s ->
  process_chat_input now text srv = process_symptom now text s srv.
Proof.
  intros E. unfold Api.process_chat_input.
  rewrite (found_truthy _ (api_symptom_truthy srv text) s E).
  now rewrite E.
Qed.

Lemma chat_input_medication (now : Clock) (text m : string) (srv : Server) :
  _extract_symptom srv text = None ->
  _extract_medication srv text = Some m ->
  process_chat_input now text srv = process_medication now text m srv.
Proof.
  intros Es E. unfold Api.process_chat_input. rewrite Es. cbn [truthy].
  rewrite (found_truthy _ (api_medication_truthy srv text) m E).
  now rewrite E.
Qed.

Lemma chat_input_neither (now : Clock) (text : string) (srv : Server) :
  _extract_symptom srv text = None ->
  _extract_medication srv text = None ->
  process_chat_input now text srv =
    (srv, if contains "timeline" (lower text) then get_timeline srv
          else get_help_message).
Proof.
  intros Es Em. unfold Api.process_chat_input. rewrite Es, Em. cbn [truthy].
  rewrite (contains_strip "t" "imeline") by reflexivity.
  destruct (contains "timeline" (lower text)); [reflexivity|].
  now destruct (contains "help" (Cli.strip (lower text))).
Qed.

(** X18.  One chat text documents at most one event.  A recognised
    symptom is documented, and a medication named in the same text is
    not; a medication is documented when no symptom is recognised; and
    only a text with neither is looked at for the word "timeline", which
    counts in any letter case and anywhere in the text.  Every other text
    is answered with the help message.  The counts reported by
    [get_patient_info] grow accordingly, and the patient data and the
    mode do not change. *)
Theorem chat_input_documents_one_event (now : Clock) (text : string)
    (srv : Server) :
  (forall s, _extract_symptom srv text = Some s ->
     exists e,
       symptom_events (fst (process_chat_input now text srv)) =
         (symptom_events srv ++ [e])%list /\
       medication_events (fst (process_chat_input now text srv)) =
         medication_events srv /\
       lookup "symptom" e = Some (Some s) /\
       lookup "timestamp" e = Some (Some (isoformat now)) /\
       lookup "raw_text" e = Some (Some text)) /\
  (forall m, _extract_symptom srv text = None ->
     _extract_medication srv text = Some m ->
     exists e,
       medication_events (fst (process_chat_input now text srv)) =
         (medication_events srv ++ [e])%list /\
       symptom_events (fst (process_chat_input now text srv)) =
         symptom_events srv /\
       lookup "medication" e = Some (Some m) /\
       lookup "timestamp" e = Some (Some (isoformat now)) /\
       lookup "raw_text" e = Some (Some text)) /\
  (_extract_symptom srv text = None -> _extract_medication srv text = None ->
   fst (process_chat_input now text srv) = srv /\
   (occurs_ci "timeline" text ->
    snd (process_chat_input now text srv) = get_timeline srv) /\
   (~ occurs_ci "timeline" text ->
    snd (process_chat_input now text srv) = get_help_message)) /\
  (symptom_count (get_patient_info (fst (process_chat_input now text srv)))
   + medication_count (get_patient_info (fst (process_chat_input now text srv)))
   <= 1 + symptom_count (get_patient_info srv)
      + medication_count (get_patient_info srv))%nat /\
  patient_info (fst (process_chat_input now text srv)) = patient_info srv /\
  mode (fst (process_chat_input now text srv)) = mode srv.
Proof.
  split; [|split; [|split]].
  - intros s E. rewrite (chat_input_symptom now text s srv E).
    eexists. cbn. repeat split.
  - intros m Es E. rewrite (chat_input_medication now text m srv Es E).
    eexists. cbn. repeat split.
  - intros Es Em. rewrite (chat_input_neither now text srv Es Em). cbn.
    split; [reflexivity|]. split.
    + intros H. apply contains_lower_iff in H. now rewrite H.
    + intros H. apply ExtractorProps.contains_lower_false in H.
      now rewrite H.
  - destruct (_extract_symptom srv text) as [s|] eqn:Es.
    + rewrite (chat_input_symptom now text s srv Es). cbn.
      rewrite List.length_app. cbn. repeat split. lia.
    + destruct (_extract_medication srv text) as [m|] eqn:Em.
      * rewrite (chat_input_medication now text m srv Es Em). cbn.
        rewrite List.length_app. cbn. repeat split. lia.
      * rewrite (chat_input_neither now text srv Es Em). cbn.
        repeat split. lia.
Qed.

(** X19.  A chat request needs a text.  When [text] and [message] are
    both missing or empty the route answers with the HTTP error 400 and
    changes nothing; otherwise it answers with a body whose [success] flag
    is set.  A non-empty [text] is the one processed, whatever [message]
    holds; [message] is read only when [text] is missing or empty. *)
Theorem chat_needs_a_text (now : Clock) (request : ChatRequest)
    (srv : Server) :
  (truthy (text request) = false -> truthy (message request) = false ->
   chat now request srv = (srv, HTTPException 400 "No text provided")) /\
  (forall t, text request = Some t -> t <> "" ->
     chat now request srv =
       (fst (process_chat_input now t srv),
        Body (snd (process_chat_input now t srv)) true)) /\
  (forall t, truthy (text request) = false -> message request = Some t ->
     t <> "" ->
     chat now request srv =
       (fst (process_chat_input now t srv),
        Body (snd (process_chat_input now t srv)) true)).
Proof.
  unfold Api.chat, or_else. split; [|split].
  - intros -> ->. reflexivity.
  - intros t -> Ht. destruct t as [|c t]; [now contradiction Ht|]. cbn.
    now destruct (process_chat_input now (String c t) srv).
  - intros t -> -> Ht. destruct t as [|c t]; [now contradiction Ht|]. cbn.
    now destruct (process_chat_input now (String c t) srv).
Qed.

Lemma time_of_day_not_unspecified (text : string) :
  _extract_time_of_day text <> "unspecified".
Proof.
  unfold _extract_time_of_day.
  destruct (search clock_pattern (lower text)) as [m|] eqn:S.
  - apply search_some in S as (pre & (post & _ & L) & _).
    apply clock_pattern_words, MealProps.clock_time_starts_with_digit in L
      as (c & rest & -> & Hc).
    intros E. injection E as -> _. vm_compute in Hc. discriminate Hc.
  - destruct (first_key time_patterns (lower text)) as [k|] eqn:K;
      [|discriminate].
    apply InvariantProps.first_key_in in K. simpl in K.
    destruct K as [<-|[<-|[<-|[<-|[]]]]]; discriminate.
Qed.

(** X20.  What the bridge stores is less than what the command line
    stores.  An event documented through a chat has four keys; it has no
    dose, food relation, frequency marker or route.  The note generator
    therefore describes it with its defaults, a symptom as "<symptom> at
    <time>" and a medication as "<medication> dose not specified via oral
    at <time>", also when the text states a dose.  With the full system
    the time of day stored is always "unspecified", which
    [record_symptom] never stores for any text; with the fallback it is
    one of the four times of day or "unspecified". *)
Theorem chat_events_carry_no_details (now : Clock) (text : string)
    (srv : Server) :
  (forall s, _extract_symptom srv text = Some s ->
     exists e,
       symptom_events (fst (process_chat_input now text srv)) =
         (symptom_events srv ++ [e])%list /\
       map fst e = ["symptom"; "time_of_day"; "timestamp"; "raw_text"] /\
       lookup "time_of_day" e = Some (Some (time_of_day srv text)) /\
       symptom_entry e = s ++ " at " ++ time_of_day srv text) /\
  (forall m, _extract_symptom srv text = None ->
     _extract_medication srv text = Some m ->
     exists e,
       medication_events (fst (process_chat_input now text srv)) =
         (medication_events srv ++ [e])%list /\
       map fst e = ["medication"; "time_of_day"; "timestamp"; "raw_text"] /\
       lookup "time_of_day" e = Some (Some (time_of_day srv text)) /\
       medication_entry e =
         m ++ " dose not specified via oral at " ++ time_of_day srv text) /\
  (mode srv = Full ->
   time_of_day srv text = "unspecified" /\
   forall stamp s,
     sym_time_of_day (Session.symptom_event stamp text s) <> "unspecified") /\
  (mode srv = Fallback ->
   In (time_of_day srv text)
      ["morning"; "afternoon"; "evening"; "night"; "unspecified"]).
Proof.
  split; [|split; [|split]].
  - intros s E. rewrite (chat_input_symptom now text s srv E).
    eexists. cbn. repeat split.
  - intros m Es E. rewrite (chat_input_medication now text m srv Es E).
    eexists. cbn. repeat split.
  - intros Hm. unfold time_of_day. rewrite Hm. split; [reflexivity|].
    intros stamp s. cbn. apply time_of_day_not_unspecified.
  - intros Hm. unfold time_of_day, FallbackSystem._extract_time. rewrite Hm.
    destruct (first_key FallbackSystem.time_words (lower text)) as [k|] eqn:K;
      [|simpl; auto 10].
    apply InvariantProps.first_key_in in K. simpl in K. simpl.
    destruct K as [<-|[<-|[<-|[<-|[]]]]]; auto 10.
Qed.

(** ** The states the server goes through *)

Lemma listed_seeds :
  Forall (listed "symptom") (symptom_events (startup_event true)) /\
  Forall (listed "medication") (medication_events (startup_event true)).
Proof.
  split; repeat constructor; unfold listed; cbn; eauto 10.
Qed.

Lemma chat_cases (now : Clock) (request : ChatRequest) (srv : Server) :
  fst (chat now request srv) = srv \/
  (exists text s,
     fst (chat now request srv) = fst (process_symptom now text s srv)) \/
  (exists text m,
     fst (chat now request srv) = fst (process_medication now text m srv)).
Proof.
  unfold Api.chat.
  destruct (negb (truthy (or_else (text request) (message request))));
    [now left|].
  set (t := fmt (or_else (text request) (message request))).
  destruct (_extract_symptom srv t) as [s|] eqn:Es.
  - right. left. exists t, s.
    rewrite <- (chat_input_symptom now t s srv Es).
    now destruct (process_chat_input now t srv).
  - destruct (_extract_medication srv t) as [m|] eqn:Em.
    + right. right. exists t, m.
      rewrite <- (chat_input_medication now t m srv Es Em).
      now destruct (process_chat_input now t srv).
    + left. rewrite (chat_input_neither now t srv Es Em). reflexivity.
Qed.

Lemma serving_invariant (srv : Server) :
  serving srv ->
  Forall (listed "symptom") (symptom_events srv) /\
  Forall (listed "medication") (medication_events srv) /\
  exists constructed ss ms,
    mode srv = mode (startup_event constructed) /\
    patient_info srv = patient_info (startup_event constructed) /\
    symptom_events srv =
      (symptom_events (startup_event constructed) ++ ss)%list /\
    medication_events srv =
      (medication_events (startup_event constructed) ++ ms)%list.
Proof.
  induction 1 as [constructed|now request srv _ (Hs & Hm & c & ss & ms & I1 & I2 & I3 & I4)].
  - split; [|split].
    + destruct constructed; [apply listed_seeds | constructor].
    + destruct constructed; [apply listed_seeds | constructor].
    + exists constructed, [], []. now rewrite !List.app_nil_r.
  - destruct (chat_cases now request srv) as [->|[(t & s & ->)|(t & m & ->)]].
    + split; [assumption|]. split; [assumption|]. now exists c, ss, ms.
    + cbn. split; [|split; [assumption|]].
      * apply Forall_app. split; [assumption|].
        repeat constructor. unfold listed. cbn. eauto 10.
      * eexists c, _, ms. rewrite I3, <- List.app_assoc. now repeat split.
    + cbn. split; [assumption|]. split.
      * apply Forall_app. split; [assumption|].
        repeat constructor. unfold listed. cbn. eauto 10.
      * eexists c, ss, _. rewrite I4, <- List.app_assoc. now repeat split.
Qed.

Lemma rows_listed (kind key : string) (l : list dict) :
  Forall (listed key) l ->
  rows kind key l =
    inr (map (fun e =>
                {| type := kind;
                   timestamp := get e "timestamp" None;
                   description :=
                     fmt (get e key None) ++ " at "
                     ++ fmt (get e "time_of_day" (Some "unknown time")) |})
           l) /\
  Forall (fun e => get e "timestamp" None <> None) l.
Proof.
  induction 1 as [|e l (v & t & ts & Hv & Ht & Hts) _ (E & Hall)].
  - split; [reflexivity | constructor].
  - cbn [rows map]. unfold row at 1. rewrite Hts, Hv, E. unfold get.
    rewrite Hts, Hv, Ht. split; [reflexivity|].
    constructor; [|assumption]. unfold get. rewrite Hts. discriminate.
Qed.

Lemma py_sorted_rows (rs : list Row) :
  Forall (fun r => timestamp r <> None) rs ->
  py_sorted timestamp rs = Some (sort_by (fun r => fmt (timestamp r)) rs).
Proof.
  intros H. unfold py_sorted.
  replace (existsb _ rs) with false; [now rewrite andb_false_r|].
  symmetry. induction H as [|r rs Hr _ IH]; simpl; [reflexivity|].
  destruct (timestamp r); [exact IH | now contradiction Hr].
Qed.

Lemma blocks_failure (rs : list Row) :
  Forall (fun r => timestamp r <> None) rs ->
  forall acc f, blocks strftime rs acc = inl f ->
  exists ts, f = ValueError ts /\ strftime ts = None /\
             In (Some ts) (map timestamp rs).
Proof.
  induction 1 as [|r rs Hr _ IH]; intros acc f; cbn [blocks];
    [discriminate|].
  unfold block. destruct (timestamp r) as [t|] eqn:T; [|now contradiction Hr].
  destruct (strftime t) as [out|] eqn:S.
  - intros H. destruct (IH _ _ H) as (ts & -> & Hts & Hin).
    exists ts. repeat split; try assumption. cbn [map]. now right.
  - intros [= <-]. exists t. repeat split; try assumption.
    cbn [map]. left. exact T.
Qed.

(** When every timestamp can be read, the loop adds the two lines of each
    row to the response, in order. *)
Lemma blocks_lines (rs : list Row) :
  Forall (fun r => timestamp r <> None) rs ->
  (forall ts, In (Some ts) (map timestamp rs) -> strftime ts <> None) ->
  forall acc,
    blocks strftime rs acc =
    inr (acc
         ++ fold_right String.append ""
              (map (fun r =>
                      "[" ++ fmt (match timestamp r with
                                  | Some ts => strftime ts
                                  | None => None
                                  end)
                      ++ "] " ++ type r ++ nl
                      ++ "  " ++ description r ++ nl ++ nl) rs)).
Proof.
  induction 1 as [|r rs Hr _ IH]; intros Hread acc; cbn [blocks map fold_right].
  - now rewrite PyStrFacts.app_nil_r.
  - unfold block. destruct (timestamp r) as [t|] eqn:T; [|now contradiction Hr].
    destruct (strftime t) as [out|] eqn:S.
    + rewrite IH.
      * cbn [fmt]. now rewrite !PyStrFacts.app_assoc.
      * intros ts Hts. apply Hread. cbn [map]. now right.
    + exfalso. apply (Hread t); [|exact S]. cbn [map]. left. exact T.
Qed.

(** X21.  In every state the server goes through, whether it started
    with the full system or with the fallback, the events only grow at
    the end, those present at start-up stay in front, and every event has
    the keys [get_timeline] reads.  So building and sorting the rows never
    raises: the rows are those of the symptom events followed by those of
    the medication events, each with the type, the timestamp and the
    description of its event, rearranged by a stable sort on the
    timestamp.  The only failure left is a timestamp [fromisoformat]
    cannot read; when all can be read the answer is the header followed by
    the two lines of each row, in the order of the sorted rows, and
    nothing else.  The answer is the invitation to document something
    only when nothing is documented, which does not happen with the full
    system, whose four seeded events are always listed. *)
Theorem timeline_lists_every_served_event (srv : Server) :
  serving srv ->
  exists rs,
    all_events srv = inr rs /\
    ascending (fun r => fmt (timestamp r)) rs /\
    stable (fun r => fmt (timestamp r))
      (map (fun e =>
              {| type := "SYMPTOM";
                 timestamp := get e "timestamp" None;
                 description :=
                   fmt (get e "symptom" None) ++ " at "
                   ++ fmt (get e "time_of_day" (Some "unknown time")) |})
         (symptom_events srv)
       ++ map (fun e =>
                 {| type := "MEDICATION";
                    timestamp := get e "timestamp" None;
                    description :=
                      fmt (get e "medication" None) ++ " at "
                      ++ fmt (get e "time_of_day" (Some "unknown time")) |})
            (medication_events srv))%list
      rs /\
    List.length rs =
      (List.length (symptom_events srv)
       + List.length (medication_events srv))%nat /\
    (forall r, In r rs -> timestamp r <> None) /\
    (forall acc f, blocks strftime rs acc = inl f ->
       exists ts, f = ValueError ts /\ strftime ts = None /\
                  In (Some ts) (map timestamp rs)) /\
    ((forall ts, In (Some ts) (map timestamp rs) -> strftime ts <> None) ->
     rs <> [] ->
     get_timeline srv =
       "📋 PATIENT TIMELINE" ++ nl ++ repeat_char "=" 40 ++ nl ++ nl
       ++ fold_right String.append ""
            (map (fun r =>
                    "[" ++ fmt (match timestamp r with
                                | Some ts => strftime ts
                                | None => None
                                end)
                    ++ "] " ++ type r ++ nl
                    ++ "  " ++ description r ++ nl ++ nl) rs)) /\
    (rs = [] ->
     get_timeline srv =
       "📋 No events documented yet." ++ nl ++ nl
       ++ "Try: 'Patient has headache after breakfast'") /\
    (mode srv = Full -> (4 <= List.length rs)%nat) /\
    (exists constructed ss ms,
       mode srv = mode (startup_event constructed) /\
       patient_info srv = patient_info (startup_event constructed) /\
       symptom_events srv =
         (symptom_events (startup_event constructed) ++ ss)%list /\
       medication_events srv =
         (medication_events (startup_event constructed) ++ ms)%list).
Proof.
  intros H. apply serving_invariant in H as (Hs & Hm & Hgrow).
  destruct (rows_listed "SYMPTOM" "symptom" _ Hs) as (Ess & As).
  destruct (rows_listed "MEDICATION" "medication" _ Hm) as (Ems & Am).
  set (ss := map (fun e =>
                    {| type := "SYMPTOM";
                       timestamp := get e "timestamp" None;
                       description :=
                         fmt (get e "symptom" None) ++ " at "
                         ++ fmt (get e "time_of_day" (Some "unknown time")) |})
               (symptom_events srv)) in *.
  set (ms := map (fun e =>
                    {| type := "MEDICATION";
                       timestamp := get e "timestamp" None;
                       description :=
                         fmt (get e "medication" None) ++ " at "
                         ++ fmt (get e "time_of_day" (Some "unknown time")) |})
               (medication_events srv)) in *.
  assert (Hall : Forall (fun r => timestamp r <> None) (ss ++ ms)%list).
  { apply Forall_app. split; unfold ss, ms; apply Forall_map;
      assumption. }
  set (key := fun r : Row => fmt (timestamp r)).
  assert (Hsorted : Forall (fun r => timestamp r <> None)
                      (sort_by key (ss ++ ms)%list)).
  { apply Forall_forall. intros r Hr. apply sort_by_In in Hr.
    revert r Hr. now apply Forall_forall. }
  assert (Hlen : List.length (sort_by key (ss ++ ms)%list) =
                 (List.length (symptom_events srv)
                  + List.length (medication_events srv))%nat).
  { rewrite <- (Permutation_length (sort_by_perm key (ss ++ ms)%list)).
    unfold ss, ms. now rewrite List.length_app, !List.length_map. }
  assert (Eall : all_events srv = inr (sort_by key (ss ++ ms)%list)).
  { unfold all_events. now rewrite Ess, Ems, (py_sorted_rows _ Hall). }
  exists (sort_by key (ss ++ ms)%list).
  split; [exact Eall|].
  split; [apply sort_by_ascending|].
  split; [apply sort_by_stable|].
  split; [exact Hlen|].
  split; [now apply Forall_forall|].
  split; [now apply blocks_failure|].
  split; [|split; [|split]].
  - intros Hread Hne. unfold Api.get_timeline. rewrite Eall.
    destruct (sort_by key (ss ++ ms)%list) as [|r rs] eqn:E;
      [now contradiction Hne|].
    now rewrite (blocks_lines (r :: rs) Hsorted Hread).
  - intros E. unfold Api.get_timeline. now rewrite Eall, E.
  - intros Hfull. rewrite Hlen.
    destruct Hgrow as (c & xs & ys & I1 & _ & I3 & I4).
    destruct c; [|rewrite Hfull in I1; discriminate I1].
    rewrite I3, I4, !List.length_app. cbn. lia.
  - exact Hgrow.
Qed.

End Chat.

Lemma timeline_lists_every_served_event_witness :
  get_timeline Stubs.strftime_as_is (fun _ => "")
    (fst (chat Stubs.strftime_as_is (fun _ => "")
            {| isoformat := "2026-01-08T08:30:00"; hms := "08:30:00" |}
            {| text := Some "Patient has fever"; message := None |}
            (startup_event true))) =
  "📋 PATIENT TIMELINE" ++ nl ++ repeat_char "=" 40 ++ nl ++ nl
  ++ "[2026-01-07T19:30] MEDICATION" ++ nl
  ++ "  lisinopril at night" ++ nl ++ nl
  ++ "[2026-01-07T21:15] SYMPTOM" ++ nl
  ++ "  chest pain at night" ++ nl ++ nl
  ++ "[2026-01-08T08:00] MEDICATION" ++ nl
  ++ "  metformin at morning" ++ nl ++ nl
  ++ "[2026-01-08T08:30:00] SYMPTOM" ++ nl
  ++ "  fever at unspecified" ++ nl ++ nl
  ++ "[2026-01-08T09:30] SYMPTOM" ++ nl
  ++ "  headache at morning" ++ nl ++ nl.
Proof.
  destruct (timeline_lists_every_served_event
              Stubs.strftime_as_is (fun _ => "")
              (fst (chat Stubs.strftime_as_is (fun _ => "")
                      {| isoformat := "2026-01-08T08:30:00";
                         hms := "08:30:00" |}
                      {| text := Some "Patient has fever"; message := None |}
                      (startup_event true))))
    as (rs & E & _ & _ & _ & _ & _ & H & _).
  - apply serving_chat. apply serving_startup.
  - injection E as <-. rewrite H.
    + vm_compute. reflexivity.
    + intros ts _. discriminate.
    + vm_compute. discriminate.
Defined.

End ApiProps.

(* ================================================================== *)
(** * The seeded events in the notes *)
(* ================================================================== *)

Module SeedProps.
Import Session.
Unset Implicit Arguments.

Section System.
Variable Vec : Type.
Variable _get_embedding : string -> option Vec.
Variable strftime : string -> option string.
Variable upper : string -> string.
Variable _generate_deterministic : string -> option string.
Set Default Proof Using "Type".

Local Abbreviation init := (Session.init Vec).
Local Abbreviation exec :=
  (Session.exec _get_embedding strftime upper _generate_deterministic).

(** X5.  Every note of a session lists the seeded events first.  Whatever
    commands were run, [nurse_note] sends one prompt, which begins with
    the instructions and the clauses of the two seeded symptoms, and
    [med_note] sends one prompt, which begins with the instructions and
    the clauses of the two seeded medications; the seeded lisinopril has
    no dose, and its clause reads "lisinopril None via oral".  What is
    printed is the announcement and then the answer of the service
    between header and footer; when the service raises, the announcement
    only, and the command raises. *)
Theorem notes_always_list_seeded_events (cmds : list Command) :
  exists nursing_prompt medication_prompt tail_s tail_m,
    Notes.prompts
      (Notes.generate_nursing_note _generate_deterministic
         (symptom_events (exec cmds init))) = [nursing_prompt] /\
    nursing_prompt =
      "Write a nursing documentation note based on these reported symptoms. "
      ++ "Do not diagnose or interpret. Only document what was reported. "
      ++ "Use professional nursing language. "
      ++ "Symptoms: headache at morning after food (again), "
      ++ "chest pain at night after food" ++ tail_s /\
    Notes.prompts
      (Notes.generate_medication_note _generate_deterministic
         (medication_events (exec cmds init))) = [medication_prompt] /\
    medication_prompt =
      "Write a medication administration record note. "
      ++ "Do not provide dosage advice or recommendations. "
      ++ "Only document what was taken as reported. "
      ++ "Use professional nursing language. "
      ++ "Medications: metformin 1000 mg via oral at morning after food, "
      ++ "lisinopril None via oral at night before food" ++ tail_m /\
    printed (Session.generate_nursing_note _generate_deterministic
               (exec cmds init)) =
      (nl ++ "Generating nursing note..." ++ nl)
      :: match _generate_deterministic nursing_prompt with
         | Some note =>
             [ "=== SYMPTOM DOCUMENTATION ===" ++ nl ++ note ++ nl ++ nl
               ++ "Note: This is documentation only. No clinical interpretation provided." ]
         | None => []
         end /\
    printed (Session.generate_medication_note _generate_deterministic
               (exec cmds init)) =
      (nl ++ "Generating medication note..." ++ nl)
      :: match _generate_deterministic medication_prompt with
         | Some note =>
             [ "=== MEDICATION ADMINISTRATION RECORD ===" ++ nl ++ note
               ++ nl ++ nl
               ++ "Note: Patient-reported intake. Documentation only." ]
         | None => []
         end /\
    (outcome (Session.generate_nursing_note _generate_deterministic
                (exec cmds init)) = Raised <->
     _generate_deterministic nursing_prompt = None) /\
    (outcome (Session.generate_medication_note _generate_deterministic
                (exec cmds init)) = Raised <->
     _generate_deterministic medication_prompt = None).
Proof.
  destruct (InvariantProps.exec_extends Vec _get_embedding strftime upper
              _generate_deterministic cmds init)
    as (_ & [sy Hs] & [me Hm] & _).
  unfold Session.generate_nursing_note, Session.generate_medication_note.
  rewrite Hs, Hm. cbn [Session.init symptom_events medication_events app].
  eexists _, _,
    (match sy with
     | [] => ""
     | _ :: _ => ", " ++ join ", " (map Notes.symptom_entry sy)
     end ++ ". Documentation note:"),
    (match me with
     | [] => ""
     | _ :: _ => ", " ++ join ", " (map Notes.medication_entry me)
     end ++ ". MAR note:").
  split; [reflexivity|]. split; [destruct sy; reflexivity|].
  split; [reflexivity|]. split; [destruct me; reflexivity|].
  unfold Notes.generate_nursing_note, Notes.generate_medication_note,
    Notes.ask, say_note, finish.
  cbn [Notes.text Notes.prompts printed outcome].
  match goal with
  | |- context [_generate_deterministic ?p] =>
      destruct (_generate_deterministic p)
  end;
  match goal with
  | |- context [_generate_deterministic ?p] =>
      destruct (_generate_deterministic p)
  end; cbn; repeat split; try reflexivity; try discriminate;
    intros H; discriminate H.
Qed.

End System.

End SeedProps.
